(** * docker-worlds: the world lifecycle scripts, embedded and verified

    The repository is a set of Node.js scripts that drive the [docker]
    command line: [world-launch.js], a second launcher kept beside it,
    [world-stop.js], [generate-catalog.js] and the interactive
    [world-portal] class.  Each script is embedded below as a function in
    a small process monad: the file system is a read-only record, the
    [child_process] module is an interface whose state is threaded
    through, [console] output and started commands are recorded in a
    trace, and [process.exit] and uncaught exceptions end the run. *)

From Stdlib Require Import String Ascii List ZArith Bool Lia.
From Stdlib Require Import Numbers.DecimalString Numbers.DecimalPos.
Import ListNotations.
Open Scope string_scope.
Open Scope list_scope.

Set Implicit Arguments.
Set Warnings "-register-all".

(* ================================================================== *)
(** * JavaScript text primitives *)
(* ================================================================== *)

Module Text.

(** The double quote, which the command lines of the scripts contain. *)
Definition dq : string := String "034"%char EmptyString.

Definition nl : ascii := "010"%char.
Definition sp : ascii := " "%char.

(** White space and line terminators of [String.prototype.trim], as far
    as they are single bytes: TAB, LF, VT, FF, CR and SPACE. *)
Definition is_ws (c : ascii) : bool :=
  let n := nat_of_ascii c in
  ((9 <=? n) && (n <=? 13))%nat || (n =? 32)%nat.

Fixpoint trim_start (s : string) : string :=
  match s with
  | EmptyString => EmptyString
  | String c s' => if is_ws c then trim_start s' else s
  end.

Fixpoint trim_end (s : string) : string :=
  match s with
  | EmptyString => EmptyString
  | String c s' =>
      match trim_end s' with
      | EmptyString => if is_ws c then EmptyString else String c EmptyString
      | t => String c t
      end
  end.

(** [s.trim()] *)
Definition trim (s : string) : string := trim_end (trim_start s).

(** [s.split(c)] for a one-character separator: the pieces between the
    separators, never an empty array. *)
Fixpoint split (c : ascii) (s : string) : list string :=
  match s with
  | EmptyString => [EmptyString]
  | String a s' =>
      if Ascii.eqb a c then EmptyString :: split c s'
      else match split c s' with
           | p :: ps => String a p :: ps
           | [] => [String a EmptyString]
           end
  end.

(** [s.startsWith(p)] *)
Definition startsWith (s p : string) : bool := String.prefix p s.

(** [l.includes(x)] on an array of strings *)
Definition includes (l : list string) (x : string) : bool :=
  existsb (String.eqb x) l.

(** [l.join(sep)] *)
Fixpoint join (sep : string) (l : list string) : string :=
  match l with
  | [] => EmptyString
  | [x] => x
  | x :: rest => x ++ sep ++ join sep rest
  end.

(** Decimal rendering of an integer, as [Number.prototype.toString] prints
    an integer-valued number (exact below 2^53, without exponent below
    1e21). *)
Definition of_Z (n : Z) : string := NilZero.string_of_int (Z.to_int n).

Fixpoint all_chars (p : ascii -> bool) (s : string) : bool :=
  match s with
  | EmptyString => true
  | String c s' => p c && all_chars p s'
  end.

(** [c] does not occur in [s]. *)
Definition free_of (c : ascii) (s : string) : bool :=
  all_chars (fun a => negb (Ascii.eqb a c)) s.

(** A line that [trim] leaves alone, whatever follows it, and that
    [split] on line feeds keeps whole. *)
Definition solid (l : string) : Prop :=
  (forall t, trim_start (l ++ t) = (l ++ t)%string) /\
  trim_end l = l /\ l <> EmptyString /\
  free_of nl l = true.

Definition newline : string := String nl EmptyString.

(** A token: not empty, no white space inside (container identifiers,
    container names and image references are such). *)
Definition is_token (s : string) : bool :=
  negb (String.eqb s EmptyString) && all_chars (fun c => negb (is_ws c)) s.

End Text.

(* ================================================================== *)
(** * JSON values and the JavaScript view of them *)
(* ================================================================== *)

(** What [JSON.parse] returns.  Numbers are the integer-valued ones; a
    descriptor's only numeric field is its port.  The embedding is exact
    on the integers that a double holds exactly: beyond them a number
    is rounded when it is read and printed with an exponent, which the
    integers of the model are not (see [Js.exact]). *)
Inductive json : Type :=
| JNull
| JBool (b : bool)
| JNum (n : Z)
| JStr (s : string)
| JArr (items : list json)
| JObj (fields : list (string * json)).

(** A JavaScript value read out of a parsed document: [None] is
    [undefined]. *)
Definition jsval : Type := option json.

Module Js.

(** [JSON.parse] keeps the last of duplicated keys. *)
Fixpoint lookup (k : string) (fields : list (string * json)) : option json :=
  match fields with
  | [] => None
  | (k', v) :: rest =>
      match lookup k rest with
      | Some v' => Some v'
      | None => if String.eqb k k' then Some v else None
      end
  end.

(** [v.k] for one of the descriptor's keys (none of them is [length] or
    an index): [None] when the access throws a TypeError, which it does
    on [null] only; [Some None] is [undefined]. *)
Definition prop (v : json) (k : string) : option jsval :=
  match v with
  | JNull => None
  | JObj fields => Some (lookup k fields)
  | _ => Some None
  end.

(** Truthiness, as [if (v)], [v || w] and [!v] see it. *)
Definition truthy (v : jsval) : bool :=
  match v with
  | None => false
  | Some JNull => false
  | Some (JBool b) => b
  | Some (JNum n) => negb (Z.eqb n 0)
  | Some (JStr s) => negb (String.eqb s EmptyString)
  | Some (JArr _) => true
  | Some (JObj _) => true
  end.

(** [v || w] *)
Definition or (v w : jsval) : jsval := if truthy v then v else w.

(** [v.k] when [v] is not [null]. *)
Definition field (v : json) (k : string) : jsval :=
  match prop v k with
  | Some x => x
  | None => None
  end.

(** ToString of a parsed value, as a template literal applies it, where
    the conversion succeeds (see [converts]). *)
Fixpoint text_of_json (v : json) : string :=
  match v with
  | JNull => "null"
  | JBool true => "true"
  | JBool false => "false"
  | JNum n => Text.of_Z n
  | JStr s => s
  | JArr items =>
      Text.join ","
        ((fix elems (l : list json) : list string :=
            match l with
            | [] => []
            | JNull :: rest => EmptyString :: elems rest
            | x :: rest => text_of_json x :: elems rest
            end) items)
  | JObj _ => "[object Object]"
  end.

Definition text (v : jsval) : string :=
  match v with
  | None => "undefined"
  | Some j => text_of_json j
  end.

(** Whether ToString of a parsed value succeeds.  An object with a
    [toString] key of its own hides [Object.prototype.toString]: its
    value is no function, and the conversion ends in a TypeError.  So
    does the conversion of an array that holds such an object, since
    [join] converts the elements.  Where it succeeds, [text] is the
    result. *)
Fixpoint converts_json (v : json) : bool :=
  match v with
  | JArr items =>
      (fix all (l : list json) : bool :=
         match l with
         | [] => true
         | x :: rest => converts_json x && all rest
         end) items
  | JObj fields =>
      match lookup "toString" fields with
      | Some _ => false
      | None => true
      end
  | _ => true
  end.

Definition converts (v : jsval) : bool :=
  match v with
  | None => true
  | Some j => converts_json j
  end.

(** The message of the TypeError of a conversion that fails. *)
Definition type_error : string := "Cannot convert object to primitive value".

(** [Number.MAX_SAFE_INTEGER]: an integer up to it in absolute value is
    a double, is printed digit by digit and is what [parseInt] makes of
    its digits. *)
Definition max_safe_integer : Z := 9007199254740991.

(** Every number in [v] is an integer that a double holds exactly. *)
Fixpoint exact_json (v : json) : bool :=
  match v with
  | JNum n => (Z.abs n <=? max_safe_integer)%Z
  | JArr items =>
      (fix all (l : list json) : bool :=
         match l with
         | [] => true
         | x :: rest => exact_json x && all rest
         end) items
  | JObj fields =>
      (fix all (l : list (string * json)) : bool :=
         match l with
         | [] => true
         | (_, x) :: rest => exact_json x && all rest
         end) fields
  | _ => true
  end.

Definition exact (v : jsval) : bool :=
  match v with
  | None => true
  | Some j => exact_json j
  end.

(** [v === 'str'] *)
Definition is_str (v : jsval) (s : string) : bool :=
  match v with
  | Some (JStr s') => String.eqb s' s
  | _ => false
  end.

(** ** [parseInt]

    [None] is NaN.  White space is skipped, a sign is read, a [0x]
    prefix selects base 16, and the longest run of digits is taken.
    The result is the integer the digits denote: it is the result of
    [parseInt] when a double holds it exactly ([exact_number]); beyond
    that [parseInt] rounds. *)

Definition digit_of (base : Z) (c : ascii) : option Z :=
  let n := Z.of_nat (nat_of_ascii c) in
  let d :=
    if ((48 <=? n) && (n <=? 57))%Z then Some (n - 48)%Z
    else if ((97 <=? n) && (n <=? 122))%Z then Some (n - 87)%Z
    else if ((65 <=? n) && (n <=? 90))%Z then Some (n - 55)%Z
    else None in
  match d with
  | Some d => if (d <? base)%Z then Some d else None
  | None => None
  end.

Fixpoint digits (base : Z) (acc : option Z) (s : string) : option Z :=
  match s with
  | EmptyString => acc
  | String c s' =>
      match digit_of base c with
      | Some d =>
          digits base
            (Some (match acc with Some a => a * base + d | None => d end)%Z) s'
      | None => acc
      end
  end.

Definition unsigned_int (s : string) : option Z :=
  match s with
  | String "0" (String x rest) =>
      if Ascii.eqb x "x" || Ascii.eqb x "X" then digits 16 None rest
      else digits 10 None s
  | _ => digits 10 None s
  end.

Definition parseInt_text (s : string) : option Z :=
  match Text.trim_start s with
  | String "-" rest => option_map Z.opp (unsigned_int rest)
  | String "+" rest => unsigned_int rest
  | t => unsigned_int t
  end.

Definition parseInt (v : jsval) : option Z := parseInt_text (text v).

(** [`${n}`] for the result of [parseInt] *)
Definition number_text (n : option Z) : string :=
  match n with
  | Some z => Text.of_Z z
  | None => "NaN"
  end.

(** The result of [parseInt] is NaN or an integer that a double holds
    exactly. *)
Definition exact_number (n : option Z) : bool :=
  match n with
  | Some z => (Z.abs z <=? max_safe_integer)%Z
  | None => true
  end.

End Js.

(* ================================================================== *)
(** * The process model *)
(* ================================================================== *)

(** ** What a script prints

    One constructor per [console.log], [console.warn] and
    [console.error] call of the scripts; the arguments are the values
    interpolated into the message. *)
Inductive message : Type :=
| NoWorldJson (configPath : string)      (* No world.json found in: ... *)
| Launching (name dir : string)
| ImageLine (image : string)
| TypeLine (type : string)
| EntryLine (entry : string)
| PortOverride (port : string)
| CliMode                                (* Running in CLI mode *)
| DetachedMode                           (* Running in detached mode *)
| ImageNotFound (image : string)         (* second launcher only *)
| Building                               (* Image not found. Building ... *)
| BuildFailed                            (* Docker build failed. Aborting launch. *)
| DockerfileNotFound                     (* Dockerfile not found. Cannot build ... *)
| MountingVolume (dir : string)
| UnknownWorldType (type : string)       (* Unknown world type: "..." *)
| CommandLine (args : list string)       (* docker run ... *)
| OpeningBrowser (url : string)
| DetachedRunning (port : string)
| DockerExited (code : option Z)
| ExitedWithWarning (code : option Z)
| ExitedSuccessfully
| LookingFor (image : string)            (* Looking for running container ... *)
| FailedDockerPs                         (* Failed to run docker ps *)
| NoRunningContainer (image : string)
| Stopping (containerId : string)
| FailedToStop (containerId : string)
| Stopped (count : nat)                  (* N container(s) stopped. *)
| Scanning (root : string)
| Found (name : string)
| FailedToParse (dir err : string)
| BlankLine
| Skipped (dir : string)
| CatalogWritten (path : string)
| TotalWorlds (count : nat)
| LoadingWorlds
| FailedToLoad (dir err : string)
| NoWorldsFound
| Screen (selected : Z)                  (* showPortal: the whole screen *)
| LaunchingWorld (name : string)
| ReturnedToPortal
| WorldNotRunning
| StoppingWorld (name : string)
| FailedToStopWorld
| MustRunToInject
| InjectionSoon (name : string)
| MustRunForLogs
| ViewingLogs (name : string)
| FailedToGetLogs
| Farewell.

Inductive stream : Type := Log | Warn | Error.

(** How a spawned child ends: with an exit code ([None] when a signal
    killed it), or with an [error] event, which nothing listens for. *)
Inductive child_end : Type :=
| ChildExit (code : option Z)
| ChildError.

(** The trace of a run. *)
Inductive event : Type :=
| Print (s : stream) (m : message)
| ExecSync (cmdline : string)                    (* execSync(cmdline) *)
| SpawnSync (file : string) (args : list string) (* spawnSync(file, args) *)
| Spawn (file : string) (args : list string)     (* spawn(file, args) *)
| BrowserTimer (url : string)                    (* setTimeout(openBrowser) *)
| WriteFile (path : string) (entries : list json).

(** ** The file system and the platform, as the scripts read them

    [read_json p] is [JSON.parse(fs.readFileSync(p, 'utf-8'))]: the
    error message when either throws, the parsed value otherwise.
    [readdir_dirs p] is [fs.readdirSync(p, {withFileTypes: true})]
    filtered by [isDirectory()], in enumeration order; [None] when it
    throws.  [platform] is [process.platform]. *)
Record Files : Type := {
  cwd : string;
  homedir : string;
  platform : string;
  path_resolve : string -> string;
  path_join : list string -> string;
  existsSync : string -> bool;
  read_json : string -> string + json;
  readdir_dirs : string -> option (list string)
}.

(** ** The [child_process] module

    The container runtime is reached through it only.  [R] is the state
    of everything outside the script: each call returns what the script
    observes and the state afterwards.  [exec_sync] returns the standard
    output, [None] when [execSync] throws (non-zero exit, binary
    missing); [spawn_sync] returns [result.status].  [spawn] returns how
    the child ends, and [outlives_timer] tells whether the child that
    [spawn] starts in this state is still running one second later, when
    the timer of the launcher fires: the order of the two callbacks is
    the runtime's to decide. *)
Class Runtime (R : Type) : Type := {
  exec_sync : R -> string -> option string * R;
  spawn_sync : R -> string -> list string -> option Z * R;
  spawn : R -> string -> list string -> child_end * R;
  outlives_timer : R -> string -> list string -> bool
}.

(** ** The monad *)

Inductive outcome (A : Type) : Type :=
| Ret (a : A)            (* the code ran to its end *)
| Exit (code : Z)        (* process.exit(code) *)
| Throw (err : string).  (* an exception on its way up *)

Arguments Ret {A} a.
Arguments Exit {A} code.
Arguments Throw {A} err.

Definition Proc (R A : Type) : Type := R -> outcome A * R * list event.

Section Monad.
Context {R : Type}.

Definition ret {A} (a : A) : Proc R A := fun r => (Ret a, r, []).

Definition bind {A B} (m : Proc R A) (f : A -> Proc R B) : Proc R B :=
  fun r =>
    match m r with
    | (Ret a, r1, t1) =>
        match f a r1 with
        | (o, r2, t2) => (o, r2, t1 ++ t2)
        end
    | (Exit c, r1, t1) => (Exit c, r1, t1)
    | (Throw e, r1, t1) => (Throw e, r1, t1)
    end.

(** [try { m } catch (e) { h e }] *)
Definition try_catch {A} (m : Proc R A) (h : string -> Proc R A) : Proc R A :=
  fun r =>
    match m r with
    | (Throw e, r1, t1) =>
        match h e r1 with
        | (o, r2, t2) => (o, r2, t1 ++ t2)
        end
    | other => other
    end.

(** A run with [t] printed and started before it. *)
Definition pre {A} (t : list event) (x : outcome A * R * list event)
    : outcome A * R * list event :=
  match x with
  | (o, r, t') => (o, r, t ++ t')
  end.

Definition process_exit {A} (code : Z) : Proc R A := fun r => (Exit code, r, []).
Definition throw {A} (err : string) : Proc R A := fun r => (Throw err, r, []).
Definition emit (e : event) : Proc R unit := fun r => (Ret tt, r, [e]).

Definition console_log (m : message) : Proc R unit := emit (Print Log m).
Definition console_warn (m : message) : Proc R unit := emit (Print Warn m).
Definition console_error (m : message) : Proc R unit := emit (Print Error m).

(** [if (c) { m }] *)
Definition when (c : bool) (m : Proc R unit) : Proc R unit :=
  if c then m else ret tt.

(** [l.forEach(f)] and [for (const x of l)] *)
Fixpoint for_each {A} (l : list A) (f : A -> Proc R unit) : Proc R unit :=
  match l with
  | [] => ret tt
  | x :: rest => bind (f x) (fun _ => for_each rest f)
  end.

(** [JSON.parse(fs.readFileSync(p, 'utf-8'))] *)
Definition parse_file (fs : Files) (p : string) : Proc R json :=
  match read_json fs p with
  | inl err => throw err
  | inr v => ret v
  end.

(** [v.k], a TypeError on [null] *)
Definition get (v : json) (k : string) : Proc R jsval :=
  match Js.prop v k with
  | Some x => ret x
  | None => throw "TypeError: Cannot read properties of null"
  end.

(** [`${v}`]: the text of [v], or the TypeError of the conversion. *)
Definition template (v : jsval) : Proc R string :=
  if Js.converts v then ret (Js.text v) else throw Js.type_error.

Context `{Runtime R}.

(** [execSync(cmdline)] *)
Definition execSync (cmdline : string) : Proc R string :=
  fun r =>
    match exec_sync r cmdline with
    | (Some out, r') => (Ret out, r', [ExecSync cmdline])
    | (None, r') => (Throw "Command failed", r', [ExecSync cmdline])
    end.

(** [spawnSync(file, args).status] *)
Definition spawnSync (file : string) (args : list string) : Proc R (option Z) :=
  fun r =>
    match spawn_sync r file args with
    | (st, r') => (Ret st, r', [SpawnSync file args])
    end.

(** [spawn(file, args)]: the child is started; how it ends is for its
    listeners. *)
Definition spawnChild (file : string) (args : list string) : Proc R child_end :=
  fun r =>
    match spawn r file args with
    | (child, r') => (Ret child, r', [Spawn file args])
    end.

(** Whether the child that [spawn(file, args)] is about to start will
    outlive a timer of one second. *)
Definition lingers (file : string) (args : list string) : Proc R bool :=
  fun r => (Ret (outlives_timer r file args), r, []).

(** The child's end reaches the script: the code handed to the [exit]
    listener, or the [error] event, which is thrown for want of a
    listener. *)
Definition on_exit (child : child_end) : Proc R (option Z) :=
  match child with
  | ChildExit code => ret code
  | ChildError => throw "Unhandled 'error' event"
  end.

End Monad.

Declare Scope proc_scope.
Delimit Scope proc_scope with proc.
Notation "x <- m ;; k" := (bind m (fun x => k))
  (at level 61, m at next level, right associativity) : proc_scope.
Notation "m ;; k" := (bind m (fun _ => k))
  (at level 61, right associativity) : proc_scope.
Open Scope proc_scope.

(** The exit status of the process. *)
Definition exit_status {A} (o : outcome A) : Z :=
  match o with
  | Ret _ => 0
  | Exit c => c
  | Throw _ => 1
  end.

(** ** Reading a trace *)

(** A container run: [docker run ...] started either way. *)
Definition is_run (e : event) : bool :=
  match e with
  | Spawn file ("run" :: _) | SpawnSync file ("run" :: _) => String.eqb file "docker"
  | _ => false
  end.

(** An image build. *)
Definition is_build (e : event) : bool :=
  match e with
  | SpawnSync file ("build" :: _) => String.eqb file "docker"
  | _ => false
  end.

(** A terminate request: [docker stop <id>]. *)
Definition is_stop (e : event) : bool :=
  match e with
  | ExecSync cmdline => Text.startsWith cmdline "docker stop "
  | _ => false
  end.

(** Anything handed to [child_process]. *)
Definition is_command (e : event) : bool :=
  match e with
  | ExecSync _ | SpawnSync _ _ | Spawn _ _ => true
  | _ => false
  end.

(** A diagnostic: anything printed with [console.warn] or
    [console.error]. *)
Definition is_diagnostic (e : event) : bool :=
  match e with
  | Print Warn _ | Print Error _ => true
  | _ => false
  end.

(** A notice that a directory was skipped. *)
Definition is_skip (e : event) : bool :=
  match e with
  | Print Log (Skipped _) => true
  | _ => false
  end.

Definition runs (t : list event) : list event := filter is_run t.
Definition builds (t : list event) : list event := filter is_build t.
Definition stops (t : list event) : list event := filter is_stop t.
Definition commands (t : list event) : list event := filter is_command t.
Definition diagnostics (t : list event) : list event := filter is_diagnostic t.

Definition result_of {R A} (x : outcome A * R * list event) : outcome A := fst (fst x).
Definition state_of {R A} (x : outcome A * R * list event) : R := snd (fst x).
Definition trace_of {R A} (x : outcome A * R * list event) : list event := snd x.

(* ================================================================== *)
(** * [world-stop.js] *)
(* ================================================================== *)

Module WorldStop.
Section Script.
Context {R : Type} `{Runtime R}.
Variable fs : Files.

(** The probe: [docker ps --filter ancestor=${imageName} --format
    "{{.ID}} {{.Names}}"]. *)
Definition ps_command (imageName : jsval) : string :=
  "docker ps --filter ancestor=" ++ Js.text imageName ++ " --format "
    ++ Text.dq ++ "{{.ID}} {{.Names}}" ++ Text.dq.

Definition stop_command (containerId : string) : string :=
  "docker stop " ++ containerId.

(** [output.split('\n').map(line => line.split(' ')[0])] *)
Definition container_ids (output : string) : list string :=
  map (fun line => hd "undefined" (Text.split Text.sp line))
      (Text.split Text.nl output).

(** The body of the [forEach]: one [try]/[catch] per container. *)
Definition stop_container (containerId : string) : Proc R unit :=
  try_catch
    (console_log (Stopping containerId) ;;
     _ <- execSync (stop_command containerId) ;;
     ret tt)
    (fun _ => console_warn (FailedToStop containerId)).

(** [process.argv[2] || '.'] *)
Definition target (args : list string) : string :=
  match nth_error args 0 with
  | Some a => if String.eqb a EmptyString then "." else a
  | None => "."
  end.

Definition configPath (args : list string) : string :=
  path_join fs [path_resolve fs (target args); "world.json"].

(** The script; [args] is [process.argv] from index 2 on.  The first
    line it prints interpolates the image: an image that does not
    convert ends the script there, before the probe. *)
Definition main (args : list string) : Proc R unit :=
  if negb (existsSync fs (configPath args)) then
    console_error (NoWorldJson (configPath args)) ;;
    process_exit 1
  else
    world <- parse_file fs (configPath args) ;;
    imageName <- get world "image" ;;
    image <- template imageName ;;
    console_log (LookingFor image) ;;
    output <- try_catch
                (out <- execSync (ps_command imageName) ;;
                 ret (Text.trim out))
                (fun _ => console_error FailedDockerPs ;; process_exit 1) ;;
    if String.eqb output EmptyString then
      console_log (NoRunningContainer image) ;;
      process_exit 0
    else
      let containers := container_ids output in
      for_each containers stop_container ;;
      console_log (Stopped (length containers)).

(** The identifiers whose [docker stop] fails when the requests are
    made in order from state [r]. *)
Fixpoint failures (r : R) (ids : list string) : list string :=
  match ids with
  | [] => []
  | id :: rest =>
      match exec_sync r (stop_command id) with
      | (Some _, r') => failures r' rest
      | (None, r') => id :: failures r' rest
      end
  end.

(** The state after the requests. *)
Fixpoint after_stops (r : R) (ids : list string) : R :=
  match ids with
  | [] => r
  | id :: rest => after_stops (snd (exec_sync r (stop_command id))) rest
  end.

(** What the loop prints and runs, request by request. *)
Fixpoint loop_trace (r : R) (ids : list string) : list event :=
  match ids with
  | [] => []
  | id :: rest =>
      match exec_sync r (stop_command id) with
      | (Some _, r') =>
          [Print Log (Stopping id); ExecSync (stop_command id)]
            ++ loop_trace r' rest
      | (None, r') =>
          [Print Log (Stopping id); ExecSync (stop_command id);
           Print Warn (FailedToStop id)]
            ++ loop_trace r' rest
      end
  end.

(** The descriptor of the target directory is there, parses, and its
    [image] can be read. *)
Definition descriptor (args : list string) (world : json) (imageName : jsval) : Prop :=
  existsSync fs (configPath args) = true /\
  read_json fs (configPath args) = inr world /\
  Js.prop world "image" = Some imageName.

End Script.
End WorldStop.

(* ================================================================== *)
(** * [world-launch.js] *)
(* ================================================================== *)

Module WorldLaunch.
Section Script.
Context {R : Type} `{Runtime R}.
Variable fs : Files.

(** [args.find(arg => !arg.startsWith('--') && !arg.startsWith('-')) || '.'] *)
Definition inputDir (args : list string) : string :=
  match find (fun arg => negb (Text.startsWith arg "--")
                         && negb (Text.startsWith arg "-")) args with
  | Some a => if String.eqb a EmptyString then "." else a
  | None => "."
  end.

(** [getArg(flag)]: [entry ? entry.split('=')[1] : null] for the first
    argument that starts with [flag=]. *)
Definition getArg (args : list string) (flag : string) : jsval :=
  match find (fun arg => Text.startsWith arg (flag ++ "=")) args with
  | Some entry =>
      if String.eqb entry EmptyString then Some JNull
      else option_map JStr (nth_error (Text.split "="%char entry) 1)
  | None => Some JNull
  end.

(** [args.includes('--detach') || args.includes('-d')] *)
Definition detach_requested (args : list string) : bool :=
  Text.includes args "--detach" || Text.includes args "-d".

(** [parseInt(portOverride || world.port || 8080)], where its argument
    converts to text; the scripts convert it before they use the
    result. *)
Definition launchPort (portOverride port : jsval) : option Z :=
  Js.parseInt (Js.or (Js.or portOverride port) (Some (JNum 8080))).

(** The arguments of the container run, built push by push; [None]
    where the script prints [Unknown world type] and exits instead. *)
Definition dockerArgs (type volumeMount image : jsval) (port : option Z)
    (absoluteDir : string) (detached : bool) : option (list string) :=
  let dockerArgs := ["run"; "--rm"] in
  let typed :=
    if Js.is_str type "web" then
      let dockerArgs := dockerArgs ++ ["-p"; (Js.number_text port ++ ":80")%string] in
      if Js.truthy volumeMount
      then Some (dockerArgs ++ ["-v"; (absoluteDir ++ ":/app")%string])
      else Some dockerArgs
    else if Js.is_str type "cli" then Some (dockerArgs ++ ["-it"])
    else None in
  match typed with
  | Some dockerArgs =>
      let dockerArgs := if detached then dockerArgs ++ ["-d"] else dockerArgs in
      Some (dockerArgs ++ [Js.text image])
  | None => None
  end.

(** The block headed [Check if Docker image exists locally]. *)
Definition ensureImage (image : jsval) (worldDir : string) : Proc R unit :=
  try_catch
    (_ <- execSync ("docker image inspect " ++ Js.text image)%string ;; ret tt)
    (fun _ =>
       if existsSync fs (path_join fs [worldDir; "Dockerfile"]) then
         console_log Building ;;
         status <- spawnSync "docker" ["build"; "-t"; Js.text image; worldDir] ;;
         match status with
         | Some 0%Z => ret tt
         | _ => console_error BuildFailed ;; process_exit 1
         end
       else
         console_error DockerfileNotFound ;; process_exit 1).

(** [detached], after the [if (world.type === 'cli')] block. *)
Definition effective_detached (type : jsval) (requested : bool) : bool :=
  if Js.is_str type "cli" then false else requested.

(** [openBrowser(url)]: the opener of the platform is spawned, and
    nothing listens for its [error] event. *)
Definition openBrowser (url : string) : Proc R unit :=
  opener <- (if String.eqb (platform fs) "win32"
             then spawnChild "cmd" ["/c"; "start"; EmptyString; url]
             else if String.eqb (platform fs) "darwin"
             then spawnChild "open" [url]
             else spawnChild "xdg-open" [url]) ;;
  _ <- on_exit opener ;;
  ret tt.

(** The command that [openBrowser] spawns, read off its branches. *)
Definition opener (url : string) : string * list string :=
  if String.eqb (platform fs) "win32" then ("cmd", ["/c"; "start"; EmptyString; url])
  else if String.eqb (platform fs) "darwin" then ("open", [url])
  else ("xdg-open", [url]).

(** The [exit] listener of the container run. *)
Definition report (detached : bool) (launchPort : option Z) (code : option Z)
    : Proc R unit :=
  if detached
  then console_log (DetachedRunning (Js.number_text launchPort))
  else console_log (DockerExited code).

(** From [Construct docker args] to the end of the script.  [type] and
    [image] went through the banner: they convert.  After the last
    statement the callbacks run: the [error] event of a [docker] that
    cannot be started comes first and ends the script; of the timer
    and the [exit] listener, the timer comes first when the run
    outlives it.  [spawn] gives the state of the runtime after the
    child's end: the opener is started in that state in either
    order. *)
Definition start (world : json) (type image : jsval) (launchPort : option Z)
    (absoluteDir : string) (detached : bool) : Proc R unit :=
  volumeMount <- get world "volumeMount" ;;
  match dockerArgs type volumeMount image launchPort absoluteDir detached with
  | None =>
      console_error (UnknownWorldType (Js.text type)) ;;
      process_exit 1
  | Some dockerArgs =>
      when (Js.is_str type "web" && Js.truthy volumeMount)
           (console_log (MountingVolume absoluteDir)) ;;
      console_log (CommandLine dockerArgs) ;;
      late <- lingers "docker" dockerArgs ;;
      dockerProc <- spawnChild "docker" dockerArgs ;;
      let url := ("http://localhost:" ++ Js.number_text launchPort)%string in
      when (Js.is_str type "web")
           (console_log (OpeningBrowser url) ;;
            emit (BrowserTimer url)) ;;
      code <- on_exit dockerProc ;;
      if Js.is_str type "web" then
        if late
        then openBrowser url ;; report detached launchPort code
        else report detached launchPort code ;; openBrowser url
      else report detached launchPort code
  end.

(** The values the script turns into text before it looks for the
    image, in the order in which it does: the argument of [parseInt],
    then the four fields of the banner. *)
Definition interpolated (args : list string) (world : json) : list jsval :=
  [Js.or (Js.or (getArg args "--port") (Js.field world "port")) (Some (JNum 8080));
   Js.field world "name"; Js.field world "image";
   Js.field world "type"; Js.field world "entry"].

(** All of them convert: the banner is printed. *)
Definition presentable (args : list string) (world : json) : bool :=
  forallb Js.converts (interpolated args world).

(** The numbers of the descriptor and the port that [parseInt] returns
    are exact: the texts of the embedding are those the script
    prints. *)
Definition exact (args : list string) (world : json) : bool :=
  Js.exact_json world
  && Js.exact_number (launchPort (getArg args "--port") (Js.field world "port")).

(** The script; [args] is [process.argv.slice(2)].  [parseInt] and the
    lines of the banner convert what they are given: a value that does
    not convert ends the script with its TypeError. *)
Definition main (args : list string) : Proc R unit :=
  let absoluteDir := path_resolve fs (inputDir args) in
  let portOverride := getArg args "--port" in
  let worldDir := path_resolve fs (inputDir args) in
  let configPath := path_join fs [worldDir; "world.json"] in
  if negb (existsSync fs configPath) then
    console_error (NoWorldJson configPath) ;;
    process_exit 1
  else
    world <- parse_file fs configPath ;;
    image <- get world "image" ;;
    port <- get world "port" ;;
    _ <- template (Js.or (Js.or portOverride port) (Some (JNum 8080))) ;;
    let launchPort := launchPort portOverride port in
    name <- get world "name" ;;
    nameText <- template name ;;
    console_log (Launching nameText worldDir) ;;
    imageText <- template image ;;
    console_log (ImageLine imageText) ;;
    type <- get world "type" ;;
    typeText <- template type ;;
    console_log (TypeLine typeText) ;;
    entry <- get world "entry" ;;
    entryText <- template entry ;;
    console_log (EntryLine entryText) ;;
    when (Js.truthy portOverride)
         (console_log (PortOverride (Js.number_text launchPort))) ;;
    when (Js.is_str type "cli") (console_log CliMode) ;;
    let detached := effective_detached type (detach_requested args) in
    when detached (console_log DetachedMode) ;;
    console_log BlankLine ;;
    ensureImage image worldDir ;;
    start world type image launchPort absoluteDir detached.

(** What the script prints before it looks for the image, when all it
    interpolates converts. *)
Definition banner (args : list string) (world : json) : list event :=
  let portOverride := getArg args "--port" in
  let type := Js.field world "type" in
  [Print Log (Launching (Js.text (Js.field world "name"))
                        (path_resolve fs (inputDir args)));
   Print Log (ImageLine (Js.text (Js.field world "image")));
   Print Log (TypeLine (Js.text type));
   Print Log (EntryLine (Js.text (Js.field world "entry")))]
  ++ (if Js.truthy portOverride
      then [Print Log (PortOverride
              (Js.number_text (launchPort portOverride (Js.field world "port"))))]
      else [])
  ++ (if Js.is_str type "cli" then [Print Log CliMode] else [])
  ++ (if effective_detached type (detach_requested args)
      then [Print Log DetachedMode] else [])
  ++ [Print Log BlankLine].

(** The descriptor of the target directory is there and parses to a
    value whose properties can be read. *)
Definition descriptor (args : list string) (world : json) : Prop :=
  let configPath := path_join fs [path_resolve fs (inputDir args); "world.json"] in
  existsSync fs configPath = true /\
  read_json fs configPath = inr world /\
  world <> JNull.

Definition inspect_command (image : jsval) : string :=
  "docker image inspect " ++ Js.text image.

Definition build_args (image : jsval) (worldDir : string) : list string :=
  ["build"; "-t"; Js.text image; worldDir].

End Script.
End WorldLaunch.

(* ================================================================== *)
(** * The second launcher

    A script of the repository with the same command line as
    [world-launch.js]: it runs the container with [spawnSync], has no
    volume mount and no [cli] special case for [detached]. *)
(* ================================================================== *)

Module AltLaunch.
Section Script.
Context {R : Type} `{Runtime R}.
Variable fs : Files.

(** [getArg('--port') || null] *)
Definition portOverride (args : list string) : jsval :=
  Js.or (WorldLaunch.getArg args "--port") (Some JNull).

Definition dockerArgs (type image : jsval) (port : option Z)
    (detached : bool) : option (list string) :=
  let dockerArgs := ["run"; "--rm"] in
  let typed :=
    if Js.is_str type "web" then
      Some (dockerArgs ++ ["-p"; (Js.number_text port ++ ":80")%string])
    else if Js.is_str type "cli" then Some (dockerArgs ++ ["-it"])
    else None in
  match typed with
  | Some dockerArgs =>
      let dockerArgs := if detached then dockerArgs ++ ["-d"] else dockerArgs in
      Some (dockerArgs ++ [Js.text image])
  | None => None
  end.

Definition ensureImage (image : jsval) (worldDir : string) : Proc R unit :=
  try_catch
    (_ <- execSync ("docker image inspect " ++ Js.text image)%string ;; ret tt)
    (fun _ =>
       console_warn (ImageNotFound (Js.text image)) ;;
       if existsSync fs (path_join fs [worldDir; "Dockerfile"]) then
         console_log Building ;;
         status <- spawnSync "docker" ["build"; "-t"; Js.text image; worldDir] ;;
         match status with
         | Some 0%Z => ret tt
         | _ => console_error BuildFailed ;; process_exit 1
         end
       else
         console_error DockerfileNotFound ;; process_exit 1).

(** What the script converts before it looks for the image. *)
Definition interpolated (args : list string) (world : json) : list jsval :=
  [Js.or (Js.or (portOverride args) (Js.field world "port")) (Some (JNum 8080));
   Js.field world "name"; Js.field world "image";
   Js.field world "type"; Js.field world "entry"].

Definition presentable (args : list string) (world : json) : bool :=
  forallb Js.converts (interpolated args world).

Definition main (args : list string) : Proc R unit :=
  let portOverride := portOverride args in
  let detached := WorldLaunch.detach_requested args in
  let worldDir := path_resolve fs (WorldLaunch.inputDir args) in
  let configPath := path_join fs [worldDir; "world.json"] in
  if negb (existsSync fs configPath) then
    console_error (NoWorldJson configPath) ;;
    process_exit 1
  else
    world <- parse_file fs configPath ;;
    image <- get world "image" ;;
    port <- get world "port" ;;
    _ <- template (Js.or (Js.or portOverride port) (Some (JNum 8080))) ;;
    let launchPort := WorldLaunch.launchPort portOverride port in
    name <- get world "name" ;;
    nameText <- template name ;;
    console_log (Launching nameText worldDir) ;;
    imageText <- template image ;;
    console_log (ImageLine imageText) ;;
    type <- get world "type" ;;
    typeText <- template type ;;
    console_log (TypeLine typeText) ;;
    entry <- get world "entry" ;;
    entryText <- template entry ;;
    console_log (EntryLine entryText) ;;
    when (Js.truthy portOverride)
         (console_log (PortOverride (Js.number_text launchPort))) ;;
    when detached (console_log DetachedMode) ;;
    console_log BlankLine ;;
    ensureImage image worldDir ;;
    match dockerArgs type image launchPort detached with
    | None =>
        console_error (UnknownWorldType (Js.text type)) ;;
        process_exit 1
    | Some dockerArgs =>
        console_log (CommandLine dockerArgs) ;;
        status <- spawnSync "docker" dockerArgs ;;
        match status with
        | Some 0%Z =>
            console_log (if detached
                         then DetachedRunning (Js.number_text launchPort)
                         else ExitedSuccessfully)
        | _ =>
            if negb detached
            then console_warn (ExitedWithWarning status)
            else console_log (DetachedRunning (Js.number_text launchPort))
        end
    end.

End Script.
End AltLaunch.

(* ================================================================== *)
(** * Descriptors on disk *)
(* ================================================================== *)

(** What a scan finds at a descriptor path.  A file that parses to
    [null] counts as malformed: the first property read throws. *)
Inductive found : Type :=
| Missing
| Malformed (err : string)
| WellFormed (v : json).

Definition classify (fs : Files) (path : string) : found :=
  if existsSync fs path then
    match read_json fs path with
    | inl err => Malformed err
    | inr JNull => Malformed "TypeError: Cannot read properties of null"
    | inr v => WellFormed v
    end
  else Missing.

Module Discovery.

(** A descriptor whose name converts to text: the scans can print it
    and look it up. *)
Definition named (v : json) : bool := Js.converts (Js.field v "name").

(** One whose image converts: a probe can be built for it. *)
Definition probed (v : json) : bool := Js.converts (Js.field v "image").

Section Scan.
Variable fs : Files.

(** The directories of a listing, with their descriptors, that hold a
    well-formed descriptor. *)
Fixpoint well_formed (path : string -> string) (dirs : list string)
    : list (string * json) :=
  match dirs with
  | [] => []
  | dir :: rest =>
      match classify fs (path dir) with
      | WellFormed v => (dir, v) :: well_formed path rest
      | _ => well_formed path rest
      end
  end.

(** Those that hold a malformed one, with the parser's message. *)
Fixpoint malformed (path : string -> string) (dirs : list string)
    : list (string * string) :=
  match dirs with
  | [] => []
  | dir :: rest =>
      match classify fs (path dir) with
      | Malformed err => (dir, err) :: malformed path rest
      | _ => malformed path rest
      end
  end.

(** Those that hold none. *)
Fixpoint missing (path : string -> string) (dirs : list string) : list string :=
  match dirs with
  | [] => []
  | dir :: rest =>
      match classify fs (path dir) with
      | Missing => dir :: missing path rest
      | _ => missing path rest
      end
  end.

(** The well-formed ones whose descriptor passes the test [ok]. *)
Definition accepted (ok : json -> bool) (path : string -> string)
    (dirs : list string) : list (string * json) :=
  filter (fun e => ok (snd e)) (well_formed path dirs).

(** Those that hold a malformed descriptor, with the parser's message,
    and those whose well-formed descriptor fails the test [ok], with the
    message [err], in the order of the listing. *)
Fixpoint refused (ok : json -> bool) (err : string) (path : string -> string)
    (dirs : list string) : list (string * string) :=
  match dirs with
  | [] => []
  | dir :: rest =>
      match classify fs (path dir) with
      | Malformed e => (dir, e) :: refused ok err path rest
      | WellFormed v =>
          if ok v then refused ok err path rest
          else (dir, err) :: refused ok err path rest
      | Missing => refused ok err path rest
      end
  end.

End Scan.
End Discovery.

(* ================================================================== *)
(** * [generate-catalog.js] *)
(* ================================================================== *)

Module GenerateCatalog.
Section Script.
Context {R : Type} `{Runtime R}.
Variable fs : Files.

Definition dockerWorldsPath : string := path_join fs [homedir fs; "docker-worlds"].
Definition catalogPath : string := path_join fs [dockerWorldsPath; "catalog.json"].

(** [v || d] where [d] is a defined value *)
Definition or_default (v : jsval) (d : json) : json :=
  match Js.or v (Some d) with
  | Some j => j
  | None => d
  end.

Definition worldJsonPath (name : string) : string :=
  path_join fs [path_join fs [dockerWorldsPath; name]; "world.json"].

(** The catalog entry of a descriptor: each field or its default. *)
Definition entry_of (name : string) (world : json) : json :=
  JObj [("name", or_default (Js.field world "name") (JStr name));
        ("description", or_default (Js.field world "description") (JStr ""));
        ("image", or_default (Js.field world "image") (JStr ""));
        ("type", or_default (Js.field world "type") (JStr "web"));
        ("port", or_default (Js.field world "port") JNull);
        ("tags", or_default (Js.field world "tags") (JArr []))].

(** What a scan of [names] prints.  The line of a well-formed
    descriptor interpolates its name: when that does not convert, the
    warning of the [catch] is printed in its place. *)
Fixpoint scan_trace (names : list string) : list event :=
  match names with
  | [] => []
  | name :: rest =>
      match classify fs (worldJsonPath name) with
      | WellFormed v =>
          (if Discovery.named v
           then Print Log (Found (Js.text (Js.field v "name")))
           else Print Warn (FailedToParse name Js.type_error)) :: scan_trace rest
      | Malformed err => Print Warn (FailedToParse name err) :: scan_trace rest
      | Missing => Print Log (Skipped name) :: scan_trace rest
      end
  end.

(** The body of the [forEach] over the directory entries; [entries] is
    the array pushed onto.  The entry is on the array when the [Found]
    line is printed: an exception of that line reaches the [catch] of
    the body and leaves the entry where it is. *)
Definition scan_dir (name : string) (entries : list json) : Proc R (list json) :=
  if existsSync fs (worldJsonPath name) then
    try_catch
      (world <- parse_file fs (worldJsonPath name) ;;
       wname <- get world "name" ;;
       description <- get world "description" ;;
       image <- get world "image" ;;
       type <- get world "type" ;;
       port <- get world "port" ;;
       tags <- get world "tags" ;;
       let entry :=
         JObj [("name", or_default wname (JStr name));
               ("description", or_default description (JStr ""));
               ("image", or_default image (JStr ""));
               ("type", or_default type (JStr "web"));
               ("port", or_default port JNull);
               ("tags", or_default tags (JArr []))] in
       let pushed := entries ++ [entry] in
       try_catch
         (found <- template wname ;;
          console_log (Found found) ;;
          ret pushed)
         (fun err => console_warn (FailedToParse name err) ;; ret pushed))
      (fun err => console_warn (FailedToParse name err) ;; ret entries)
  else
    console_log (Skipped name) ;; ret entries.

Fixpoint scan (names : list string) (entries : list json) : Proc R (list json) :=
  match names with
  | [] => ret entries
  | name :: rest => entries' <- scan_dir name entries ;; scan rest entries'
  end.

(** The script: the returned value is [entries]. *)
Definition main : Proc R (list json) :=
  console_log (Scanning dockerWorldsPath) ;;
  match readdir_dirs fs dockerWorldsPath with
  | None => throw "ENOENT"
  | Some names =>
      entries <- scan names [] ;;
      emit (WriteFile catalogPath entries) ;;
      console_log (CatalogWritten catalogPath) ;;
      console_log (TotalWorlds (length entries)) ;;
      ret entries
  end.

End Script.
End GenerateCatalog.

(* ================================================================== *)
(** * The world portal *)
(* ================================================================== *)

Module Portal.

(** An element of [this.worlds]: [{...worldData, directory, isRunning,
    preview}].  The preview is a function of [worldData.name], the key
    of the lookup in the table of drawings: it is not stored, and
    [preview_is_text] tells what the lookup gave. *)
Record world_view : Type := {
  data : json;
  directory : string;
  isRunning : bool
}.

(** The two fields of the class that the key handler changes. *)
Record portal : Type := {
  worlds : list world_view;
  selectedIndex : Z
}.

(** [key.name] of a keypress; [NoKey] is a keypress without key data. *)
Inductive key : Type :=
| Up | Down | Return | KeyS | KeyI | KeyL | KeyR | KeyQ | Escape
| OtherKey | NoKey.

(** [world.k] for a key of the descriptor. *)
Definition field (w : world_view) (k : string) : jsval :=
  match data w with
  | JObj fields => Js.lookup k fields
  | _ => None
  end.

(** [this.worlds[this.selectedIndex]] *)
Definition selected (st : portal) : option world_view :=
  if (selectedIndex st <? 0)%Z then None
  else nth_error (worlds st) (Z.to_nat (selectedIndex st)).

Definition is_string (v : jsval) : bool :=
  match v with
  | Some (JStr _) => true
  | _ => false
  end.

(** [renderWorldList] calls [world.name.padEnd] and
    [world.description.substring], so both must be strings, and
    interpolates [world.type]. *)
Definition listable (w : world_view) : bool :=
  is_string (field w "name") && Js.converts (field w "type")
  && is_string (field w "description").

(** The keys that the table of drawings inherits from
    [Object.prototype]: looked up in it they give a function or an
    object, which is truthy and has no [split]. *)
Definition inherited : list string :=
  ["constructor"; "__defineGetter__"; "__defineSetter__"; "hasOwnProperty";
   "__lookupGetter__"; "__lookupSetter__"; "isPrototypeOf";
   "propertyIsEnumerable"; "toString"; "valueOf"; "__proto__";
   "toLocaleString"].

(** [WORLD_PREVIEWS[world.name] || WORLD_PREVIEWS.default] is one of the
    drawings of the table. *)
Definition preview_is_text (w : world_view) : bool :=
  negb (Text.includes inherited (Js.text (field w "name"))).

(** [renderPreview] calls [world.preview.split], interpolates
    [world.image] and [world.port || 'N/A'] and calls
    [(world.tags || []).join], which converts the elements. *)
Definition previewable (w : world_view) : bool :=
  preview_is_text w
  && Js.converts (field w "image")
  && Js.converts (Js.or (field w "port") (Some (JStr "N/A")))
  && match field w "tags" with
     | Some (JArr items) => Js.converts (Some (JArr items))
     | v => negb (Js.truthy v)
     end.

(** The assignment of the [up] and [down] cases of the key handler:
    [Math.max(0, i - 1)] and [Math.min(worlds.length - 1, i + 1)]. *)
Definition cursor (k : key) (st : portal) : portal :=
  match k with
  | Up => {| worlds := worlds st;
             selectedIndex := Z.max 0 (selectedIndex st - 1) |}
  | Down => {| worlds := worlds st;
               selectedIndex := Z.min (Z.of_nat (length (worlds st)) - 1)
                                      (selectedIndex st + 1) |}
  | _ => st
  end.

(** [selectedIndex] is an index of [worlds]. *)
Definition in_range (st : portal) : Prop :=
  (0 <= selectedIndex st <= Z.of_nat (length (worlds st)) - 1)%Z.

(** The list only grows and the index is kept: what every transition
    other than a cursor move does to the state it returns. *)
Definition grows (st st' : portal) : Prop :=
  selectedIndex st' = selectedIndex st /\
  exists more, worlds st' = worlds st ++ more.

Section Script.
Context {R : Type} `{Runtime R}.
Variable fs : Files.

(** The probe of [loadWorlds]. *)
Definition probe_command (image : jsval) : string :=
  "docker ps --filter ancestor=" ++ Js.text image ++ " --format "
    ++ Text.dq ++ "{{.ID}}" ++ Text.dq.

(** The inner [try]/[catch] of [loadWorlds]: [isRunning].  The command
    interpolates the image: when that does not convert, the [catch] is
    reached with no command issued. *)
Definition probe (worldData : json) : Proc R bool :=
  try_catch
    (image <- get worldData "image" ;;
     _ <- template image ;;
     output <- execSync (probe_command image) ;;
     ret (negb (String.eqb (Text.trim output) EmptyString)))
    (fun _ => ret false).

Definition worldPath (dir : string) : string :=
  path_join fs [cwd fs; dir; "world.json"].

(** The body of the [for] loop of [loadWorlds].  The object pushed
    holds [WORLD_PREVIEWS[worldData.name]]: the name is converted to the
    key of the lookup, and a name that does not convert ends the body
    in the outer [catch], after the probe and with nothing pushed. *)
Definition load_dir (dir : string) (ws : list world_view) : Proc R (list world_view) :=
  if existsSync fs (worldPath dir) then
    try_catch
      (worldData <- parse_file fs (worldPath dir) ;;
       running <- probe worldData ;;
       name <- get worldData "name" ;;
       _ <- template name ;;
       ret (ws ++ [{| data := worldData; directory := dir; isRunning := running |}]))
      (fun e => console_error (FailedToLoad dir e) ;; ret ws)
  else ret ws.

(** What the probe of a descriptor observes in state [r], and the
    state it leaves. *)
Definition observed (worldData : json) (r : R) : bool :=
  if Discovery.probed worldData then
    match fst (exec_sync r (probe_command (Js.field worldData "image"))) with
    | Some output => negb (String.eqb (Text.trim output) EmptyString)
    | None => false
    end
  else false.

Definition after_probe (worldData : json) (r : R) : R :=
  if Discovery.probed worldData
  then snd (exec_sync r (probe_command (Js.field worldData "image")))
  else r.

(** The views, the final state and the trace of a scan of [dirs] that
    starts in state [r]. *)
Fixpoint scanned (dirs : list string) (r : R) : list world_view :=
  match dirs with
  | [] => []
  | dir :: rest =>
      match classify fs (worldPath dir) with
      | WellFormed v =>
          if Discovery.named v then
            {| data := v; directory := dir; isRunning := observed v r |}
              :: scanned rest (after_probe v r)
          else scanned rest (after_probe v r)
      | _ => scanned rest r
      end
  end.

Fixpoint scan_state (dirs : list string) (r : R) : R :=
  match dirs with
  | [] => r
  | dir :: rest =>
      match classify fs (worldPath dir) with
      | WellFormed v => scan_state rest (after_probe v r)
      | _ => scan_state rest r
      end
  end.

Fixpoint scan_trace (dirs : list string) (r : R) : list event :=
  match dirs with
  | [] => []
  | dir :: rest =>
      match classify fs (worldPath dir) with
      | WellFormed v =>
          (if Discovery.probed v
           then [ExecSync (probe_command (Js.field v "image"))] else [])
            ++ (if Discovery.named v then []
                else [Print Error (FailedToLoad dir Js.type_error)])
            ++ scan_trace rest (after_probe v r)
      | Malformed err => Print Error (FailedToLoad dir err) :: scan_trace rest r
      | Missing => scan_trace rest r
      end
  end.

Fixpoint load_dirs (dirs : list string) (ws : list world_view) : Proc R (list world_view) :=
  match dirs with
  | [] => ret ws
  | dir :: rest => ws' <- load_dir dir ws ;; load_dirs rest ws'
  end.

(** [loadWorlds()]: pushes onto [this.worlds] as it is. *)
Definition loadWorlds (st : portal) : Proc R portal :=
  console_log LoadingWorlds ;;
  match readdir_dirs fs (cwd fs) with
  | None => throw "ENOENT"
  | Some dirs =>
      ws <- load_dirs dirs (worlds st) ;;
      if (length ws =? 0)%nat then
        console_log NoWorldsFound ;;
        process_exit 0
      else ret {| worlds := ws; selectedIndex := selectedIndex st |}
  end.

(** [showPortal()]: the screen, or the TypeError of a render method:
    [renderWorldList] goes through all the worlds, [renderPreview]
    draws the selected one.  The text thrown names the method; the
    message of the TypeError depends on the value that was not what the
    method expects. *)
Definition showPortal (st : portal) : Proc R unit :=
  if forallb listable (worlds st) then
    match selected st with
    | Some w =>
        if previewable w then console_log (Screen (selectedIndex st))
        else throw "TypeError in renderPreview"
    | None => throw "TypeError: Cannot read properties of undefined"
    end
  else throw "TypeError in renderWorldList".

(** [world = this.worlds[this.selectedIndex]] followed by a property
    read. *)
Definition current (st : portal) : Proc R world_view :=
  match selected st with
  | Some w => ret w
  | None => throw "TypeError: Cannot read properties of undefined"
  end.

(** [launchWorld()], with the [exit] listener of the child and its
    timer run in sequence.  The handlers interpolate the name and the
    image of the selected world: every world of the list went through
    the preview lookup, so its name converts, and the image of a
    running world went through the probe. *)
Definition launchWorld (st : portal) : Proc R portal :=
  world <- current st ;;
  console_log (LaunchingWorld (Js.text (field world "name"))) ;;
  worldProcess <- spawnChild "node" ["world-launch.js"; directory world] ;;
  _ <- on_exit worldProcess ;;
  console_log ReturnedToPortal ;;
  st' <- loadWorlds st ;;
  showPortal st' ;;
  ret st'.

(** [stopWorld()] *)
Definition stopWorld (st : portal) : Proc R portal :=
  world <- current st ;;
  if negb (isRunning world) then
    console_log WorldNotRunning ;;
    showPortal st ;;
    ret st
  else
    console_log (StoppingWorld (Js.text (field world "name"))) ;;
    try_catch
      (_ <- execSync ("node world-stop.js " ++ directory world) ;;
       st' <- loadWorlds st ;;
       showPortal st' ;;
       ret st')
      (fun _ =>
         console_error FailedToStopWorld ;;
         showPortal st ;;
         ret st).

(** [injectData()] *)
Definition injectData (st : portal) : Proc R portal :=
  world <- current st ;;
  if negb (isRunning world) then
    console_log MustRunToInject ;;
    showPortal st ;;
    ret st
  else
    console_log (InjectionSoon (Js.text (field world "name"))) ;;
    showPortal st ;;
    ret st.

Definition logs_probe (image : jsval) : string :=
  "docker ps --filter ancestor=" ++ Js.text image ++ " --format "
    ++ Text.dq ++ "{{.ID}}" ++ Text.dq ++ " | head -1".

(** [viewLogs()] *)
Definition viewLogs (st : portal) : Proc R portal :=
  world <- current st ;;
  if negb (isRunning world) then
    console_log MustRunForLogs ;;
    showPortal st ;;
    ret st
  else
    console_log (ViewingLogs (Js.text (field world "name"))) ;;
    try_catch
      (out <- execSync (logs_probe (field world "image")) ;;
       let containerId := Text.trim out in
       if String.eqb containerId EmptyString then ret st
       else
         logsProcess <- spawnChild "docker" ["logs"; "-f"; containerId] ;;
         _ <- on_exit logsProcess ;;
         showPortal st ;;
         ret st)
      (fun _ =>
         console_error FailedToGetLogs ;;
         showPortal st ;;
         ret st).

(** [quit()] *)
Definition quit : Proc R portal :=
  console_log Farewell ;;
  process_exit 0.

(** The [keypress] listener installed by [handleInput]. *)
Definition handleKey (k : key) (st : portal) : Proc R portal :=
  match k with
  | NoKey => ret st
  | Up =>
      let st' := {| worlds := worlds st;
                    selectedIndex := Z.max 0 (selectedIndex st - 1) |} in
      showPortal st' ;; ret st'
  | Down =>
      let st' := {| worlds := worlds st;
                    selectedIndex :=
                      Z.min (Z.of_nat (length (worlds st)) - 1)
                            (selectedIndex st + 1) |} in
      showPortal st' ;; ret st'
  | Return => launchWorld st
  | KeyS => stopWorld st
  | KeyI => injectData st
  | KeyL => viewLogs st
  | KeyR => st' <- loadWorlds st ;; showPortal st' ;; ret st'
  | KeyQ | Escape => quit
  | OtherKey => ret st
  end.

(** The constructor's fields. *)
Definition fresh : portal := {| worlds := []; selectedIndex := 0 |}.

(** [init()] *)
Definition init : Proc R portal :=
  st <- loadWorlds fresh ;;
  showPortal st ;;
  ret st.

(** A session: [init], then the keys in order.  The state is carried
    from key to key only while the process lives. *)
Fixpoint handleKeys (ks : list key) (st : portal) : Proc R portal :=
  match ks with
  | [] => ret st
  | k :: rest => st' <- handleKey k st ;; handleKeys rest st'
  end.

Definition session (ks : list key) : Proc R portal :=
  st <- init ;; handleKeys ks st.

(** What a scan of the current directory derives when it starts from
    nothing: the list the portal shows after [init]. *)
Definition derive : Proc R (list world_view) :=
  match readdir_dirs fs (cwd fs) with
  | None => throw "ENOENT"
  | Some dirs => load_dirs dirs []
  end.

End Script.
End Portal.

(* ================================================================== *)
(** * A container runtime to run the scripts against

    An instance of the [child_process] interface: a docker daemon with
    its local images and running containers, reading the command lines
    the scripts build.  The general theorems hold for every instance;
    this one gives them concrete runs. *)
(* ================================================================== *)

Module Sim.

Record container : Type := {
  cid : string;
  cname : string;
  cimage : string
}.

Record docker : Type := {
  up : bool;                    (* binary present, daemon reachable *)
  images : list string;         (* images present locally *)
  running : list container;     (* running containers, as docker ps lists them *)
  stubborn : list string;       (* identifiers whose docker stop fails *)
  buildable : list string;      (* build contexts whose build succeeds *)
  started : nat;                (* containers started so far *)
  openers : list string         (* programs installed that open a link *)
}.

Fixpoint strip_prefix (p s : string) : option string :=
  match p, s with
  | EmptyString, _ => Some s
  | String a p', String b s' => if Ascii.eqb a b then strip_prefix p' s' else None
  | String _ _, EmptyString => None
  end.

(** The first word of a shell command tail, and what follows it. *)
Fixpoint word (s : string) : string * string :=
  match s with
  | EmptyString => (EmptyString, EmptyString)
  | String c s' =>
      if Ascii.eqb c Text.sp then (EmptyString, s)
      else let (w, rest) := word s' in (String c w, rest)
  end.

Definition mem (x : string) (l : list string) : bool := existsb (String.eqb x) l.

Definition matching (image : string) (d : docker) : list container :=
  filter (fun c => String.eqb (cimage c) image) (running d).

Fixpoint lines (l : list string) : string :=
  match l with
  | [] => EmptyString
  | x :: rest => x ++ String Text.nl (lines rest)
  end.

(** A line of the listing in the format [{{.ID}} {{.Names}}]. *)
Definition full_line (c : container) : string := cid c ++ " " ++ cname c.

Definition format_full : string :=
  " --format " ++ Text.dq ++ "{{.ID}} {{.Names}}" ++ Text.dq.
Definition format_id : string :=
  " --format " ++ Text.dq ++ "{{.ID}}" ++ Text.dq.
Definition format_first : string := format_id ++ " | head -1".

(** [docker ps --filter ancestor=IMAGE --format ...] *)
Definition ps (tail : string) (d : docker) : option string :=
  let (image, fmt) := word tail in
  let found := matching image d in
  if String.eqb fmt format_full then
    Some (lines (map full_line found))
  else if String.eqb fmt format_id then
    Some (lines (map cid found))
  else if String.eqb fmt format_first then
    Some (lines (map cid (firstn 1 found)))
  else None.

(** [docker stop ID] *)
Definition stop (id : string) (d : docker) : option string * docker :=
  if mem id (map cid (running d)) && negb (mem id (stubborn d)) then
    (Some (id ++ String Text.nl EmptyString)%string,
     {| up := up d; images := images d;
        running := filter (fun c => negb (String.eqb (cid c) id)) (running d);
        stubborn := stubborn d; buildable := buildable d; started := started d;
        openers := openers d |})
  else (None, d).

Definition exec (d : docker) (cmdline : string) : option string * docker :=
  if negb (up d) then (None, d)
  else
    match strip_prefix "docker stop " cmdline with
    | Some id => stop id d
    | None =>
    match strip_prefix "docker ps --filter ancestor=" cmdline with
    | Some tail => (ps tail d, d)
    | None =>
    match strip_prefix "docker image inspect " cmdline with
    | Some image => if mem image (images d) then (Some "[]", d) else (None, d)
    | None => (None, d)
    end end end.

(** [docker build -t IMAGE DIR] and [docker run ... IMAGE], run to their
    end: the exit status. *)
Definition run_sync (d : docker) (file : string) (args : list string) : option Z * docker :=
  if negb (String.eqb file "docker") then (None, d)
  else if negb (up d) then (Some 1%Z, d)
  else
    match args with
    | ["build"; "-t"; image; dir] =>
        if mem dir (buildable d) then
          (Some 0%Z,
           {| up := up d; images := image :: images d; running := running d;
              stubborn := stubborn d; buildable := buildable d;
              started := started d; openers := openers d |})
        else (Some 1%Z, d)
    | "run" :: options =>
        let image := last options EmptyString in
        if negb (mem image (images d)) then (Some 125%Z, d)
        else if mem "-d" (removelast options) then
          let n := Text.of_Z (Z.of_nat (started d)) in
          (Some 0%Z,
           {| up := up d; images := images d;
              running := running d ++
                           [{| cid := ("c" ++ n)%string; cname := ("world" ++ n)%string;
                              cimage := image |}];
              stubborn := stubborn d; buildable := buildable d;
              started := S (started d); openers := openers d |})
        else (Some 0%Z, d)
    | _ => (Some 1%Z, d)
    end.

(** A child: [docker], a program that opens a link, or one that is not
    installed. *)
Definition run_async (d : docker) (file : string) (args : list string) : child_end * docker :=
  if String.eqb file "docker" then
    let (status, d') := run_sync d file args in (ChildExit status, d')
  else if mem file (openers d) then (ChildExit (Some 0%Z), d)
  else (ChildError, d).

(** A container that runs attached is still there a second later; a
    detached run and a run that fails return at once. *)
Definition slow (d : docker) (file : string) (args : list string) : bool :=
  String.eqb file "docker"
  && match fst (run_sync d file args) with
     | Some 0%Z => negb (mem "-d" args)
     | _ => false
     end.

#[global] Instance docker_runtime : Runtime docker := {
  exec_sync := exec;
  spawn_sync := run_sync;
  spawn := run_async;
  outlives_timer := slow
}.

(** A host whose directories are named by plain strings: [resolve]
    prefixes the working directory, [join] puts slashes between the
    parts, and [files] lists the descriptor files and build files that
    exist with what [JSON.parse] makes of them. *)
Definition slash_join (parts : list string) : string := Text.join "/" parts.

Definition host_on (os : string) (files : list (string * (string + json)))
    (dirs : list (string * list string)) : Files := {|
  cwd := "/w";
  homedir := "/home/u";
  platform := os;
  path_resolve := fun p => if String.eqb p "." then "/w" else slash_join ["/w"; p];
  path_join := slash_join;
  existsSync := fun p => mem p (map fst files);
  read_json := fun p =>
    match find (fun e => String.eqb (fst e) p) files with
    | Some (_, content) => content
    | None => inl "ENOENT"
    end;
  readdir_dirs := fun p =>
    option_map snd (find (fun e => String.eqb (fst e) p) dirs)
|}.

Definition host (files : list (string * (string + json)))
    (dirs : list (string * list string)) : Files :=
  host_on "linux" files dirs.

(** Well-formed containers: identifiers and names are tokens. *)
Definition tidy (d : docker) : bool :=
  forallb (fun c => Text.is_token (cid c) && Text.is_token (cname c)) (running d).

End Sim.


(* ================================================================== *)
(** * Sample hosts and runtimes *)
(* ================================================================== *)

Module Sample.
Import Sim.

Definition demo : json :=
  JObj [("name", JStr "demo"); ("image", JStr "x/demo"); ("type", JStr "web");
        ("port", JNum 9000); ("description", JStr "a web world")].

Definition live : json :=
  JObj [("name", JStr "live"); ("image", JStr "x/live"); ("type", JStr "web");
        ("description", JStr "edited in place"); ("volumeMount", JBool true)].

Definition shell : json :=
  JObj [("name", JStr "shell"); ("image", JStr "x/shell"); ("type", JStr "cli");
        ("description", JStr "a terminal world")].

Definition game : json :=
  JObj [("name", JStr "game"); ("image", JStr "x/game"); ("type", JStr "game");
        ("description", JStr "neither web nor cli")].

Definition arcade : json :=
  JObj [("name", JStr "arcade"); ("image", JStr "x/arcade"); ("type", JStr "game");
        ("description", JStr "neither web nor cli, with a Dockerfile")].

(** Five worlds below [/w], one directory without a descriptor and one
    whose descriptor does not parse.  Only [live] and [arcade] have a
    Dockerfile. *)
Definition files : Files :=
  host [("/w/demo/world.json", inr demo);
        ("/w/live/world.json", inr live);
        ("/w/live/Dockerfile", inl "not JSON");
        ("/w/shell/world.json", inr shell);
        ("/w/game/world.json", inr game);
        ("/w/arcade/world.json", inr arcade);
        ("/w/arcade/Dockerfile", inl "not JSON");
        ("/w/broken/world.json", inl "Unexpected token } in JSON")]
       [("/w", ["demo"; "empty"; "broken"; "live"; "shell"; "game"; "arcade"])].

(** A scan root with two descriptors, one of them malformed. *)
Definition two : Files :=
  host [("/w/demo/world.json", inr demo);
        ("/w/broken/world.json", inl "Unexpected token } in JSON")]
       [("/w", ["demo"; "broken"])].

(** A scan root with one world and one directory without descriptor. *)
Definition one : Files :=
  host [("/w/demo/world.json", inr demo)] [("/w", ["demo"; "empty"])].

(** Three listable worlds. *)
Definition three : Files :=
  host [("/w/demo/world.json", inr demo);
        ("/w/live/world.json", inr live);
        ("/w/shell/world.json", inr shell)]
       [("/w", ["demo"; "live"; "shell"])].

Definition c (id name image : string) : container :=
  {| cid := id; cname := name; cimage := image |}.

(** Three instances of [x/demo], the second of which refuses to stop,
    and one of [x/shell]; the images of [shell], [game], [demo] and [live]
    are present locally. *)
Definition busy : docker :=
  {| up := true;
     images := ["x/shell"; "x/game"; "x/demo"; "x/live"];
     running := [c "a1" "demo_1" "x/demo"; c "b2" "demo_2" "x/demo";
                 c "c3" "shell_1" "x/shell"; c "d4" "demo_3" "x/demo"];
     stubborn := ["b2"];
     buildable := ["/w/live"];
     started := 4; openers := ["xdg-open"] |}.

(** The same without the stubborn container. *)
Definition calm : docker :=
  {| up := true;
     images := ["x/shell"; "x/game"; "x/demo"; "x/live"];
     running := [c "a1" "demo_1" "x/demo"; c "c3" "shell_1" "x/shell";
                 c "d4" "demo_3" "x/demo"];
     stubborn := [];
     buildable := ["/w/live"];
     started := 4; openers := ["xdg-open"] |}.

(** Nothing running, no image present, every build succeeds. *)
Definition builder : docker :=
  {| up := true; images := []; running := []; stubborn := [];
     buildable := ["/w/live"; "/w/arcade"]; started := 0;
     openers := ["xdg-open"] |}.

(** Nothing running, no image present, no build succeeds. *)
Definition bare : docker :=
  {| up := true; images := []; running := []; stubborn := [];
     buildable := []; started := 0; openers := [] |}.

(** The daemon cannot be reached. *)
Definition down : docker :=
  {| up := false; images := ["x/demo"]; running := [c "a1" "demo_1" "x/demo"];
     stubborn := []; buildable := []; started := 1; openers := ["xdg-open"] |}.

End Sample.

(* ================================================================== *)
(** * More readings of a trace *)
(* ================================================================== *)

(** The timer that opens the browser. *)
Definition is_browser (e : event) : bool :=
  match e with
  | BrowserTimer _ => true
  | _ => false
  end.

(** The spawn of the program that opens a link: [xdg-open], [open], or
    [cmd /c start]. *)
Definition is_opener (e : event) : bool :=
  match e with
  | Spawn file _ =>
      String.eqb file "xdg-open" || String.eqb file "open" || String.eqb file "cmd"
  | _ => false
  end.

(** A screen of the portal. *)
Definition is_screen (e : event) : bool :=
  match e with
  | Print Log (Screen _) => true
  | _ => false
  end.

(** A write to disk. *)
Definition is_write (e : event) : bool :=
  match e with
  | WriteFile _ _ => true
  | _ => false
  end.

(** The integers a JavaScript number holds exactly; [parseInt] and
    [toString] are exact on them. *)
Definition safe_integer (n : Z) : Prop := (Z.abs n <= 9007199254740991)%Z.

(* ================================================================== *)
(** * [world-list.js] *)
(* ================================================================== *)

Module WorldList.

(** What the script prints, call by call. *)
Inductive line : Type :=
| NoCatalog                                 (* console.error: No catalog.json found. ... *)
| EmptyCatalog                              (* No worlds found in the catalog. *)
| Title                                     (* Available Docker Worlds *)
| Heading                                   (* Name Type Port Tags, padded *)
| Rule                                      (* '-'.repeat(60) *)
| Row (name type port tags : string)        (* console.log(name, type, port, tags) *)
| Total (count : nat).                      (* Total: N world(s) listed. *)

Fixpoint spaces (n : nat) : string :=
  match n with
  | O => EmptyString
  | S k => String " " (spaces k)
  end.

(** [s.padEnd(n)]: [s] itself when it is [n] long or longer (lengths
    are those of ASCII text). *)
Definition padEnd (n : nat) (s : string) : string :=
  (s ++ spaces (n - String.length s))%string.

(** [(v || '').padEnd(n)]: a TypeError ([None]) when [v] is truthy and
    not a string, since only strings have [padEnd]. *)
Definition cell (v : jsval) (n : nat) : option string :=
  if Js.truthy v then
    match v with
    | Some (JStr s) => Some (padEnd n s)
    | _ => None
    end
  else Some (padEnd n EmptyString).

(** ToString of a parsed value, as [toString()] and [join] apply it:
    [None] is the TypeError of an object whose own [toString] key hides
    the method.  In a [join], [null] elements give the empty string. *)
Fixpoint to_text (v : json) : option string :=
  match v with
  | JNull => Some "null"
  | JBool true => Some "true"
  | JBool false => Some "false"
  | JNum n => Some (Text.of_Z n)
  | JStr s => Some s
  | JArr items =>
      option_map (Text.join ",")
        ((fix elems (l : list json) : option (list string) :=
            match l with
            | [] => Some []
            | x :: rest =>
                match (match x with JNull => Some EmptyString | _ => to_text x end),
                      elems rest with
                | Some s, Some ss => Some (s :: ss)
                | _, _ => None
                end
            end) items)
  | JObj fields =>
      match Js.lookup "toString" fields with
      | Some _ => None
      | None => Some "[object Object]"
      end
  end.

(** The texts of the elements of an array, as [join] reads them. *)
Fixpoint texts (items : list json) : option (list string) :=
  match items with
  | [] => Some []
  | x :: rest =>
      match (match x with JNull => Some EmptyString | _ => to_text x end),
            texts rest with
      | Some s, Some ss => Some (s :: ss)
      | _, _ => None
      end
  end.

(** [(world.port?.toString() || '-').padEnd(6)] *)
Definition port_cell (v : jsval) : option string :=
  match v with
  | None | Some JNull => Some (padEnd 6 "-")
  | Some j =>
      match to_text j with
      | Some t =>
          if String.eqb t EmptyString then Some (padEnd 6 "-")
          else Some (padEnd 6 t)
      | None => None
      end
  end.

(** [Array.isArray(world.tags) ? world.tags.join(', ') : ''] *)
Definition tags_cell (v : jsval) : option string :=
  match v with
  | Some (JArr items) => option_map (Text.join ", ") (texts items)
  | _ => Some EmptyString
  end.

(** The body of the [forEach]: the row printed, or [None] for a
    TypeError. *)
Definition row (world : json) : option line :=
  match Js.prop world "name" with
  | None => None
  | Some name =>
      match cell name 20, cell (Js.field world "type") 8,
            port_cell (Js.field world "port"),
            tags_cell (Js.field world "tags") with
      | Some name, Some type, Some port, Some tags => Some (Row name type port tags)
      | _, _, _, _ => None
      end
  end.

(** [worlds.forEach(...)] over an array: the rows printed, and whether
    the loop came to its end. *)
Fixpoint rows (worlds : list json) : list line * bool :=
  match worlds with
  | [] => ([], true)
  | world :: rest =>
      match row world with
      | None => ([], false)
      | Some l => let (ls, ok) := rows rest in (l :: ls, ok)
      end
  end.

Definition catalogPath (fs : Files) : string :=
  path_join fs [homedir fs; "docker-worlds"; "catalog.json"].

Definition not_a_function : string := "TypeError: worlds.forEach is not a function".

(** The script: how it ends and what it printed. *)
Definition main (fs : Files) : outcome unit * list line :=
  if negb (existsSync fs (catalogPath fs)) then (Exit 1%Z, [NoCatalog])
  else
    match read_json fs (catalogPath fs) with
    | inl err => (Throw err, [])
    | inr JNull => (Throw "TypeError: Cannot read properties of null", [])
    | inr (JArr worlds) =>
        if (length worlds =? 0)%nat then (Exit 0%Z, [EmptyCatalog])
        else
          match rows worlds with
          | (ls, true) =>
              (Ret tt, [Title; Heading; Rule] ++ ls ++ [Total (length worlds)])
          | (ls, false) => (Throw "TypeError", [Title; Heading; Rule] ++ ls)
          end
    | inr (JStr s) =>
        if String.eqb s EmptyString then (Exit 0%Z, [EmptyCatalog])
        else (Throw not_a_function, [Title; Heading; Rule])
    | inr (JObj fields) =>
        match Js.lookup "length" fields with
        | Some (JNum 0) => (Exit 0%Z, [EmptyCatalog])
        | _ => (Throw not_a_function, [Title; Heading; Rule])
        end
    | inr _ => (Throw not_a_function, [Title; Heading; Rule])
    end.

(** [v] is a string or falsy: [(v || '').padEnd] is defined. *)
Definition text_or_falsy (v : jsval) : bool :=
  match v with
  | Some (JStr _) => true
  | _ => negb (Js.truthy v)
  end.

Definition has_text {A : Type} (v : option A) : bool :=
  match v with
  | Some _ => true
  | None => false
  end.

(** A catalog entry that the listing can print: not [null], with [name]
    and [type] each a string or falsy, and no object with a [toString]
    key of its own where [port] and the elements of an array [tags] are
    turned into text. *)
Definition printable (world : json) : bool :=
  match world with
  | JNull => false
  | _ =>
      text_or_falsy (Js.field world "name")
      && text_or_falsy (Js.field world "type")
      && match Js.field world "port" with
         | Some p => has_text (to_text p)
         | None => true
         end
      && match Js.field world "tags" with
         | Some (JArr items) => has_text (texts items)
         | _ => true
         end
  end.

Definition is_row (l : line) : bool :=
  match l with
  | Row _ _ _ _ => true
  | _ => false
  end.

End WorldList.

(* ================================================================== *)
(** * [world-init.js] *)
(* ================================================================== *)

Module WorldInit.

(** The [options] object; [port] is [None] when it is [NaN]. *)
Record options : Type := {
  type : string;
  desc : string;
  port : option Z;
  entry : string;
  tags : list string
}.

Definition defaults (worldName : string) : options :=
  {| type := "web";
     desc := "A Docker-contained world called " ++ Text.dq ++ worldName ++ Text.dq;
     port := Some 8080%Z;
     entry := "npm start";
     tags := ["interactive"; "docker"] |}.

(** The body of [args.slice(1).forEach]: [const [key, value] =
    arg.split('='); if (!value) return;] and the five tests on [key]. *)
Definition flag (o : options) (arg : string) : options :=
  match Text.split "="%char arg with
  | key :: value :: _ =>
      if String.eqb value EmptyString then o
      else if String.eqb key "--type" then
        {| type := value; desc := desc o; port := port o; entry := entry o;
           tags := tags o |}
      else if String.eqb key "--desc" then
        {| type := type o; desc := value; port := port o; entry := entry o;
           tags := tags o |}
      else if String.eqb key "--port" then
        {| type := type o; desc := desc o; port := Js.parseInt_text value;
           entry := entry o; tags := tags o |}
      else if String.eqb key "--entry" then
        {| type := type o; desc := desc o; port := port o; entry := value;
           tags := tags o |}
      else if String.eqb key "--tags" then
        {| type := type o; desc := desc o; port := port o; entry := entry o;
           tags := map Text.trim (Text.split ","%char value) |}
      else o
  | _ => o
  end.

Definition parse (worldName : string) (flags : list string) : options :=
  fold_left flag flags (defaults worldName).

(** [worldConfig], as [JSON.parse] reads back what [JSON.stringify]
    writes of it: a [NaN] port is written as [null]. *)
Definition worldConfig (worldName : string) (o : options) : json :=
  JObj [("name", JStr worldName);
        ("image", JStr ("ghcr.io/your-namespace/" ++ worldName));
        ("description", JStr (desc o));
        ("entry", JStr (entry o));
        ("type", JStr (type o));
        ("port", match port o with Some n => JNum n | None => JNull end);
        ("tags", JArr (map JStr (tags o)))].

(** What is written into a file. *)
Inductive content : Type :=
| Descriptor (config : json)         (* JSON.stringify(worldConfig, null, 2) *)
| NginxDockerfile                    (* FROM nginx:alpine ... *)
| IndexHtml (worldName : string)
| NodeDockerfile                     (* FROM node:18-alpine ... *)
| MainJs (worldName : string).

Inductive notice : Type :=
| Usage
| DirectoryExists
| Created (worldName : string)
| BuildHint (worldName : string)
| RunWebHint (port worldName : string)
| VisitHint (port : string)
| RunCliHint (worldName : string).

(** What the script does to the disk and prints, in order. *)
Inductive effect : Type :=
| Mkdir (path : string)                       (* mkdirSync(path, {recursive: true}) *)
| Write (path : string) (c : content)         (* writeFileSync(path, ...) *)
| Say (s : stream) (m : notice).

Definition root (fs : Files) (worldName : string) : string :=
  path_join fs [cwd fs; worldName].

Definition appDir (fs : Files) (worldName : string) : string :=
  path_join fs [root fs worldName; "app"].

(** The files of the starter application. *)
Definition starter (fs : Files) (worldName : string) (o : options) : list effect :=
  (if String.eqb (type o) "web" then
     [Write (path_join fs [root fs worldName; "Dockerfile"]) NginxDockerfile;
      Write (path_join fs [appDir fs worldName; "index.html"]) (IndexHtml worldName)]
   else [])
  ++ (if String.eqb (type o) "cli" then
        [Write (path_join fs [root fs worldName; "Dockerfile"]) NodeDockerfile;
         Write (path_join fs [appDir fs worldName; "main.js"]) (MainJs worldName)]
      else []).

Definition hints (worldName : string) (o : options) : list effect :=
  [Say Log (Created worldName); Say Log (BuildHint worldName)]
  ++ (if String.eqb (type o) "web" then
        [Say Log (RunWebHint (Js.number_text (port o)) worldName);
         Say Log (VisitHint (Js.number_text (port o)))]
      else [])
  ++ (if String.eqb (type o) "cli" then [Say Log (RunCliHint worldName)] else []).

(** The script; [args] is [process.argv.slice(2)].  The directory and
    the files are taken to be writable. *)
Definition main (fs : Files) (args : list string) : outcome unit * list effect :=
  match args with
  | [] => (Exit 1%Z, [Say Error Usage])
  | worldName :: flags =>
      let o := parse worldName flags in
      if existsSync fs (root fs worldName) then
        (Exit 1%Z, [Say Error DirectoryExists])
      else
        (Ret tt,
         [Mkdir (appDir fs worldName);
          Write (path_join fs [root fs worldName; "world.json"])
                (Descriptor (worldConfig worldName o))]
         ++ starter fs worldName o
         ++ hints worldName o)
  end.

Definition is_write (e : effect) : bool :=
  match e with
  | Write _ _ => true
  | _ => false
  end.

Definition is_dockerfile (e : effect) : bool :=
  match e with
  | Write _ NginxDockerfile | Write _ NodeDockerfile => true
  | _ => false
  end.

Definition is_descriptor (e : effect) : bool :=
  match e with
  | Write _ (Descriptor _) => true
  | _ => false
  end.

End WorldInit.

(* ================================================================== *)
(** * [world-push.js] *)
(* ================================================================== *)

Module WorldPush.

Inductive notice : Type :=
| NoWorldJson                               (* No world.json found in current directory. *)
| Preparing (name : string)
| Tagging (localTag tag : string)
| FailedToTag (localTag : string)
| Pushing (tag : string)
| Pushed (name tag : string)                (* World "..." pushed successfully to ...! *)
| PushExited (status : option Z)            (* Docker push exited with status ... *)
| CheckAt (owner : string)                  (* You can check at: https://github.com/... *)
| CheckIt (owner : string).                 (* Check it at: https://github.com/... *)

(** What the script prints and runs, in order. *)
Inductive step : Type :=
| Say (s : stream) (m : notice)
| Run (e : event).

(** [`${image.split('/')[1]}`]: [None] when [image] is not a string and
    the call is a TypeError. *)
Definition owner (image : jsval) : option string :=
  match image with
  | Some (JStr s) => Some (nth 1 (Text.split "/"%char s) "undefined")
  | _ => None
  end.

Definition tag_command (localTag tag : string) : string :=
  "docker tag " ++ localTag ++ " " ++ tag.

Definition not_a_string : string := "TypeError: cannot split the image".

Section Script.
Context {R : Type} `{Runtime R}.
Variable fs : Files.

Definition configPath : string := path_join fs [cwd fs; "world.json"].

(** The two lines that end the script, whatever the push did. *)
Definition closing (image : jsval) (name tag : string) (r : R) (t : list step)
    : outcome unit * R * list step :=
  match owner image with
  | Some o => (Ret tt, r, t ++ [Say Log (Pushed name tag); Say Log (CheckIt o)])
  | None => (Throw not_a_string, r, t ++ [Say Log (Pushed name tag)])
  end.

(** The script.  The tag interpolates the image and the first line
    printed interpolates the name: either ends the script with its
    TypeError when it does not convert, before anything is printed or
    run. *)
Definition main (r : R) : outcome unit * R * list step :=
  if negb (existsSync fs configPath) then (Exit 1%Z, r, [Say Error NoWorldJson])
  else
    match read_json fs configPath with
    | inl err => (Throw err, r, [])
    | inr world =>
        match Js.prop world "image" with
        | None => (Throw "TypeError: Cannot read properties of null", r, [])
        | Some image =>
            if negb (Js.converts image) then (Throw Js.type_error, r, [])
            else if negb (Js.converts (Js.field world "name"))
            then (Throw Js.type_error, r, [])
            else
            let localTag := Js.text (Js.field world "name") in
            let tag := (Js.text image ++ ":latest")%string in
            let t0 := [Say Log (Preparing localTag); Say Log (Tagging localTag tag);
                       Run (ExecSync (tag_command localTag tag))] in
            match exec_sync r (tag_command localTag tag) with
            | (None, r1) => (Exit 1%Z, r1, t0 ++ [Say Error (FailedToTag localTag)])
            | (Some _, r1) =>
                let t1 := t0 ++ [Say Log (Pushing tag);
                                 Run (SpawnSync "docker" ["push"; tag])] in
                match spawn_sync r1 "docker" ["push"; tag] with
                | (Some 0%Z, r2) =>
                    closing image localTag tag r2 (t1 ++ [Say Log (Pushed localTag tag)])
                | (status, r2) =>
                    match owner image with
                    | Some o =>
                        closing image localTag tag r2
                          (t1 ++ [Say Warn (PushExited status); Say Warn (CheckAt o)])
                    | None =>
                        (Throw not_a_string, r2, t1 ++ [Say Warn (PushExited status)])
                    end
                end
            end
        end
    end.

End Script.

Definition is_run (s : step) : bool :=
  match s with
  | Run _ => true
  | Say _ _ => false
  end.

Definition is_success (s : step) : bool :=
  match s with
  | Say Log (Pushed _ _) => true
  | _ => false
  end.

End WorldPush.

(* ================================================================== *)
(** * The text injector *)
(* ================================================================== *)

Module Injector.

(** An element of [this.worlds]: [{...worldData, directory,
    containerId}]. *)
Record target : Type := {
  data : json;
  directory : string;
  containerId : string
}.

Record injectionConfig : Type := {
  pattern : string;
  colorEffect : string;
  textGenerator : string;
  speed : Z;
  streams : Z;
  duration : Z
}.

(** The constructor's [injectionConfig]. *)
Definition initial : injectionConfig :=
  {| pattern := "wave"; colorEffect := "rainbow"; textGenerator := "lorem";
     speed := 100; streams := 1; duration := 0 |}.

Definition patterns : list string := ["wave"; "pulse"; "spiral"; "cascade"; "random"].
Definition effects : list string := ["rainbow"; "fire"; "ocean"; "pulse"].
Definition generators : list string := ["lorem"; "code"; "emoji"; "numbers"; "binary"].

(** [names[parseInt(answer) - 1] || fallback] *)
Definition pick (names : list string) (fallback answer : string) : string :=
  match Js.parseInt_text answer with
  | Some n =>
      if (n - 1 <? 0)%Z then fallback
      else match nth_error names (Z.to_nat (n - 1)) with
           | Some s => if String.eqb s EmptyString then fallback else s
           | None => fallback
           end
  | None => fallback
  end.

(** [parseInt(answer) || fallback] *)
Definition number_or (fallback : Z) (answer : string) : Z :=
  match Js.parseInt_text answer with
  | Some n => if (n =? 0)%Z then fallback else n
  | None => fallback
  end.

(** The five handlers of [configureInjection], applied to the five
    answers in the order they are asked for. *)
Definition configureInjection (c : injectionConfig)
    (a1 a2 a3 a4 a5 : string) : injectionConfig :=
  {| pattern := pick patterns "wave" a1;
     colorEffect := pick effects "rainbow" a2;
     textGenerator := pick generators "lorem" a3;
     streams := Z.min 10 (Z.max 1 (number_or 1 a4));
     speed := Z.min 1000 (Z.max 10 (number_or 100 a5));
     duration := duration c |}.

(** The callback of [selectWorld]: [None] is [Invalid selection] and
    [process.exit(1)]. *)
Definition selectWorld (worlds : list target) (answer : string) : option target :=
  match Js.parseInt_text answer with
  | Some n =>
      let index := (n - 1)%Z in
      if ((0 <=? index) && (index <? Z.of_nat (length worlds)))%Z
      then nth_error worlds (Z.to_nat index)
      else None
  | None => None
  end.

(** The indices for which [startInjection] creates a stream:
    [for (let i = 0; i < streams; i++)]. *)
Definition stream_indices (c : injectionConfig) : list Z :=
  map Z.of_nat (seq 0 (Z.to_nat (streams c))).

Section Script.
Context {R : Type} `{Runtime R}.
Variable fs : Files.

(** The body of the [for] loop of [loadRunningWorlds]; both [catch]
    blocks are empty and the loop prints nothing, so the trace holds the
    probes only.  The probe interpolates the image: one that does not
    convert reaches the inner [catch] with no command issued. *)
Definition load_dir (dir : string) (ws : list target) (r : R)
    : list target * R * list event :=
  if existsSync fs (Portal.worldPath fs dir) then
    match read_json fs (Portal.worldPath fs dir) with
    | inl _ => (ws, r, [])
    | inr worldData =>
        match Js.prop worldData "image" with
        | None => (ws, r, [])
        | Some image =>
            if negb (Js.converts image) then (ws, r, [])
            else
            match exec_sync r (Portal.probe_command image) with
            | (Some out, r') =>
                let containerId := Text.trim out in
                (if String.eqb containerId EmptyString then ws
                 else ws ++ [{| data := worldData; directory := dir;
                                containerId :=
                                  hd "undefined" (Text.split Text.nl containerId) |}],
                 r', [ExecSync (Portal.probe_command image)])
            | (None, r') => (ws, r', [ExecSync (Portal.probe_command image)])
            end
        end
    end
  else (ws, r, []).

Fixpoint load_dirs (dirs : list string) (ws : list target) (r : R)
    : list target * R * list event :=
  match dirs with
  | [] => (ws, r, [])
  | dir :: rest =>
      match load_dir dir ws r with
      | (ws', r', t) =>
          match load_dirs rest ws' r' with
          | (ws'', r'', t') => (ws'', r'', t ++ t')
          end
      end
  end.

(** [loadRunningWorlds()] on a directory that can be listed. *)
Definition loadRunningWorlds (ws : list target) (r : R)
    : option (list target * R * list event) :=
  match readdir_dirs fs (cwd fs) with
  | Some dirs => Some (load_dirs dirs ws r)
  | None => None
  end.

End Script.

End Injector.

(* ================================================================== *)
(** * The log theater: its controls *)
(* ================================================================== *)

Module Theater.

(** The fields of [LogTheater] that the key handlers and the act timer
    change, and the delay the spawn timer was created with.  Speeds and
    acts are whole numbers; on the acts, which are positive, [%] is
    [mod]. *)
Record show : Type := {
  speed : Z;
  currentAct : Z;
  isPaused : bool;
  spawnEvery : Z
}.

Inductive input : Type :=
| Space | Up | Down | ActTimer.

(** [this.speed || 2000] *)
Definition speed_or (s : show) : Z :=
  if (speed s =? 0)%Z then 2000%Z else speed s.

(** The constructor followed by [startShow()]. *)
Definition startShow : show :=
  {| speed := 2000; currentAct := 1; isPaused := false; spawnEvery := 2000 |}.

Definition handle (i : input) (s : show) : show :=
  match i with
  | Space =>
      {| speed := speed s; currentAct := currentAct s;
         isPaused := negb (isPaused s); spawnEvery := spawnEvery s |}
  | Up =>
      {| speed := Z.max 500 (speed_or s - 200); currentAct := currentAct s;
         isPaused := isPaused s; spawnEvery := spawnEvery s |}
  | Down =>
      {| speed := Z.min 5000 (speed_or s + 200); currentAct := currentAct s;
         isPaused := isPaused s; spawnEvery := spawnEvery s |}
  | ActTimer =>
      {| speed := speed s; currentAct := (currentAct s mod 3 + 1)%Z;
         isPaused := isPaused s; spawnEvery := spawnEvery s |}
  end.

Definition run (inputs : list input) (s : show) : show :=
  fold_left (fun s i => handle i s) inputs s.

End Theater.

(* ================================================================== *)
(** * The portal and its child scripts on one machine

    The portal starts [world-stop.js] and [world-launch.js] as child
    processes.  This instance of the [child_process] interface runs them:
    a machine is a disk and a simulated docker daemon; a [node] command
    line runs the embedded script against the daemon, any other command
    goes to the daemon as before.  What the children print and start is
    kept in a journal, apart from the trace of the parent. *)
(* ================================================================== *)

Module Host.

Record machine : Type := {
  disk : Files;
  daemon : Sim.docker;
  journal : list event
}.

(** The arguments a shell passes for the tail of a command line with at
    most one word. *)
Definition argv (tail : string) : list string :=
  let (w, _) := Sim.word tail in
  if String.eqb w EmptyString then [] else [w].

(** A child script run to its end. *)
Definition child (m : machine) (run : outcome unit * Sim.docker * list event)
    : Z * machine :=
  (exit_status (result_of run),
   {| disk := disk m; daemon := state_of run;
      journal := journal m ++ trace_of run |}).

Definition exec (m : machine) (cmdline : string) : option string * machine :=
  match Sim.strip_prefix "node world-stop.js " cmdline with
  | Some tail =>
      let (status, m') := child m (WorldStop.main (disk m) (argv tail) (daemon m)) in
      if Z.eqb status 0 then (Some EmptyString, m') else (None, m')
  | None =>
      let (out, d) := Sim.exec (daemon m) cmdline in
      (out, {| disk := disk m; daemon := d; journal := journal m |})
  end.

Definition run_sync (m : machine) (file : string) (args : list string)
    : option Z * machine :=
  let (status, d) := Sim.run_sync (daemon m) file args in
  (status, {| disk := disk m; daemon := d; journal := journal m |}).

Definition run_async (m : machine) (file : string) (args : list string)
    : child_end * machine :=
  if String.eqb file "node" then
    match args with
    | "world-launch.js" :: rest =>
        let (status, m') := child m (WorldLaunch.main (disk m) rest (daemon m)) in
        (ChildExit (Some status), m')
    | _ => (ChildExit (Some 1%Z), m)
    end
  else
    let (e, d) := Sim.run_async (daemon m) file args in
    (e, {| disk := disk m; daemon := d; journal := journal m |}).

#[global] Instance machine_runtime : Runtime machine := {
  exec_sync := exec;
  spawn_sync := run_sync;
  spawn := run_async;
  outlives_timer := fun m file args =>
    negb (String.eqb file "node") && Sim.slow (daemon m) file args
}.

End Host.

(* ================================================================== *)
(** * More sample data *)
(* ================================================================== *)

Module More.
Import Sim.

(** A descriptor without [description]: enough for the launcher. *)
Definition terse : json :=
  JObj [("name", JStr "terse"); ("image", JStr "x/terse"); ("type", JStr "cli")].

(** A descriptor whose name is a number. *)
Definition numbered : json :=
  JObj [("name", JNum 42); ("image", JStr "x/n"); ("type", JStr "web");
        ("description", JStr "named by a number")].

Definition with_terse : Files :=
  host [("/w/demo/world.json", inr Sample.demo);
        ("/w/terse/world.json", inr terse)]
       [("/w", ["demo"; "terse"])].

(** A scan root without any descriptor. *)
Definition barren : Files :=
  host [("/w/broken/world.json", inl "Unexpected end of JSON input")]
       [("/w", ["empty"; "broken"])].

(** The home directory that [generate-catalog.js] scans, with the
    catalog it writes already in place. *)
Definition home : Files :=
  host [("/home/u/docker-worlds/demo/world.json", inr Sample.demo);
        ("/home/u/docker-worlds/shell/world.json", inr Sample.shell);
        ("/home/u/docker-worlds/broken/world.json", inl "Unexpected token");
        ("/home/u/docker-worlds/catalog.json",
         inr (JArr [GenerateCatalog.entry_of "demo" Sample.demo;
                    GenerateCatalog.entry_of "shell" Sample.shell]))]
       [("/home/u/docker-worlds", ["demo"; "notes"; "broken"; "shell"])].

(** A working directory in which [demo] exists; reading a directory as
    a file fails. *)
Definition taken : Files :=
  host [("/w/demo", inl "EISDIR: illegal operation on a directory, read");
        ("/w/demo/world.json", inr Sample.demo)]
       [("/w", ["demo"])].

(** Nothing running; the images of [terse] and [demo] are present. *)
Definition ready : docker :=
  {| up := true; images := ["x/terse"; "x/demo"]; running := []; stubborn := [];
     buildable := []; started := 0; openers := ["xdg-open"] |}.

(** A runtime that is cut off from the registry: every command given to
    [execSync] works, every [docker push] ends with status 1.  The state
    counts the pushes tried. *)
Record offline : Type := { pushes : nat }.

#[global] Instance offline_runtime : Runtime offline := {
  exec_sync := fun r _ => (Some EmptyString, r);
  spawn_sync := fun r _ _ => (Some 1%Z, {| pushes := S (pushes r) |});
  spawn := fun r _ _ => (ChildError, r);
  outlives_timer := fun _ _ _ => false
}.

(** A descriptor whose image is an object with a [toString] key of its
    own: no template literal prints it. *)
Definition masked : json :=
  JObj [("name", JStr "masked"); ("image", JObj [("toString", JNull)]);
        ("type", JStr "web"); ("description", JStr "an image that is no text")].

(** One whose name is such an object. *)
Definition unnamed : json :=
  JObj [("name", JObj [("toString", JNull)]); ("image", JStr "x/demo");
        ("type", JStr "web"); ("description", JStr "a name that is no text")].

(** One whose type is such an object: neither [web] nor [cli]. *)
Definition untyped : json :=
  JObj [("name", JStr "untyped"); ("image", JStr "x/demo");
        ("type", JObj [("toString", JNull)]);
        ("description", JStr "a type that is no text")].

(** A world named after a key that every object inherits. *)
Definition inheritor : json :=
  JObj [("name", JStr "constructor"); ("image", JStr "x/demo");
        ("type", JStr "web"); ("description", JStr "named like an inherited key")].

(** A scan root with the two of them and [demo]. *)
Definition odd : Files :=
  host [("/w/masked/world.json", inr masked);
        ("/w/unnamed/world.json", inr unnamed);
        ("/w/demo/world.json", inr Sample.demo)]
       [("/w", ["masked"; "unnamed"; "demo"])].

(** A working directory with the world of no type. *)
Definition lone : Files :=
  host [("/w/untyped/world.json", inr untyped)] [("/w", ["untyped"])].

(** The same three below the home directory that
    [generate-catalog.js] scans. *)
Definition odd_home : Files :=
  host [("/home/u/docker-worlds/masked/world.json", inr masked);
        ("/home/u/docker-worlds/unnamed/world.json", inr unnamed);
        ("/home/u/docker-worlds/demo/world.json", inr Sample.demo)]
       [("/home/u/docker-worlds", ["masked"; "unnamed"; "demo"])].

(** [demo] and the world named after an inherited key. *)
Definition heirs : Files :=
  host [("/w/demo/world.json", inr Sample.demo);
        ("/w/heir/world.json", inr inheritor)]
       [("/w", ["demo"; "heir"])].

(** [demo] and [live] on a Mac. *)
Definition mac : Files :=
  host_on "darwin"
    [("/w/demo/world.json", inr Sample.demo);
     ("/w/live/world.json", inr Sample.live)]
    [("/w", ["demo"; "live"])].

(** The images of [demo] and [live] are present, and no program that
    opens a link is installed. *)
Definition headless : docker :=
  {| up := true; images := ["x/demo"; "x/live"]; running := []; stubborn := [];
     buildable := []; started := 0; openers := [] |}.

(** A working directory that is itself the world [demo]. *)
Definition inside : Files := host [("/w/world.json", inr Sample.demo)] [].

(** One that is the world whose name is no text. *)
Definition inside_unnamed : Files := host [("/w/world.json", inr unnamed)] [].

Definition machine (fs : Files) (d : docker) : Host.machine :=
  {| Host.disk := fs; Host.daemon := d; Host.journal := [] |}.

End More.
(* ================================================================== *)
(** * Theorems *)
(* ================================================================== *)

Unset Implicit Arguments.

(** ** Text *)

Example split_lines :
  Text.split Text.nl (String "a" (String Text.nl "bc")) = ["a"; "bc"].
Proof. reflexivity. Qed.

Example trim_both : Text.trim "  ab c  " = "ab c".
Proof. reflexivity. Qed.

Example parseInt_port : Js.parseInt (Some (JStr " 8080px")) = Some 8080%Z.
Proof. reflexivity. Qed.

Example parseInt_hex : Js.parseInt (Some (JStr "0x1F")) = Some 31%Z.
Proof. reflexivity. Qed.

Example text_array :
  Js.text (Some (JArr [JNum 1; JNull; JStr "a"])) = "1,,a".
Proof. reflexivity. Qed.

Lemma prefix_empty (s : string) : String.prefix EmptyString s = true.
Proof. destruct s; reflexivity. Qed.

Lemma prefix_append (p s : string) : String.prefix p (p ++ s) = true.
Proof.
  induction p as [|a p IH]; simpl.
  - apply prefix_empty.
  - destruct (ascii_dec a a) as [_|ne]; [exact IH | contradiction].
Qed.

Lemma split_nonempty (c : ascii) (s : string) : Text.split c s <> [].
Proof.
  destruct s as [|a s]; simpl; [discriminate|].
  destruct (Ascii.eqb a c); [discriminate|].
  destruct (Text.split c s); discriminate.
Qed.

(** ** Traces *)

Lemma filter_app_nil {A} (p : A -> bool) (l1 l2 : list A) :
  filter p l1 = [] -> filter p l2 = [] -> filter p (l1 ++ l2) = [].
Proof. intros H1 H2. rewrite filter_app, H1, H2. reflexivity. Qed.

Lemma is_stop_stop_command (id : string) :
  is_stop (ExecSync (WorldStop.stop_command id)) = true.
Proof. apply prefix_append. Qed.

Lemma is_stop_ps_command (image : jsval) :
  is_stop (ExecSync (WorldStop.ps_command image)) = false.
Proof. reflexivity. Qed.

(** ** The monad, one step at a time *)

Section Steps.
Context {R : Type} `{Runtime R}.

Lemma pre_nil {A} (x : outcome A * R * list event) : pre [] x = x.
Proof. destruct x as [[o r] t]. reflexivity. Qed.

Lemma pre_pre {A} (t1 t2 : list event) (x : outcome A * R * list event) :
  pre t1 (pre t2 x) = pre (t1 ++ t2) x.
Proof. destruct x as [[o r] t]. simpl. rewrite app_assoc. reflexivity. Qed.

Lemma bind_ret {A B} (a : A) (k : A -> Proc R B) (r : R) :
  bind (ret a) k r = k a r.
Proof. unfold bind, ret. destruct (k a r) as [[o r2] t2]. reflexivity. Qed.

Lemma bind_emit {B} (e : event) (k : unit -> Proc R B) (r : R) :
  bind (emit e) k r = pre [e] (k tt r).
Proof. unfold bind, emit, pre. destruct (k tt r) as [[o r2] t2]. reflexivity. Qed.

Lemma bind_exit {A B} (c : Z) (k : A -> Proc R B) (r : R) :
  bind (process_exit c) k r = (Exit c, r, []).
Proof. reflexivity. Qed.

Lemma bind_throw {A B} (e : string) (k : A -> Proc R B) (r : R) :
  bind (throw e) k r = (Throw e, r, []).
Proof. reflexivity. Qed.

Lemma bind_pre {A B} (m : Proc R A) (k : A -> Proc R B) (r : R)
    (t : list event) (x : outcome A * R * list event) :
  m r = pre t x ->
  bind m k r
  = pre t (match x with
           | (Ret a, r1, t1) => pre t1 (k a r1)
           | (Exit c, r1, t1) => (Exit c, r1, t1)
           | (Throw e, r1, t1) => (Throw e, r1, t1)
           end).
Proof.
  intros E. unfold bind. rewrite E. destruct x as [[[a|c|e] r1] t1]; simpl; trivial.
  destruct (k a r1) as [[o r2] t2]. simpl. rewrite app_assoc. reflexivity.
Qed.

Lemma bind_assoc {A B C} (m : Proc R A) (f : A -> Proc R B) (g : B -> Proc R C)
    (r : R) :
  bind (bind m f) g r = bind m (fun a => bind (f a) g) r.
Proof.
  unfold bind. destruct (m r) as [[[a|c|e] r1] t1]; trivial.
  destruct (f a r1) as [[[b|c|e] r2] t2]; trivial.
  destruct (g b r2) as [[o r3] t3]. rewrite app_assoc. reflexivity.
Qed.

Lemma bind_execSync {B} (cmd : string) (k : string -> Proc R B) (r : R) :
  bind (execSync cmd) k r
  = pre [ExecSync cmd]
      (match exec_sync r cmd with
       | (Some out, r') => k out r'
       | (None, r') => (Throw "Command failed", r', [])
       end).
Proof.
  unfold bind, execSync. destruct (exec_sync r cmd) as [[out|] r']; reflexivity.
Qed.

Lemma bind_spawnSync {B} (file : string) (args : list string)
    (k : option Z -> Proc R B) (r : R) :
  bind (spawnSync file args) k r
  = pre [SpawnSync file args]
      (k (fst (spawn_sync r file args)) (snd (spawn_sync r file args))).
Proof.
  unfold bind, spawnSync. destruct (spawn_sync r file args) as [st r']. reflexivity.
Qed.

Lemma bind_spawnChild {B} (file : string) (args : list string)
    (k : child_end -> Proc R B) (r : R) :
  bind (spawnChild file args) k r
  = pre [Spawn file args]
      (k (fst (spawn r file args)) (snd (spawn r file args))).
Proof.
  unfold bind, spawnChild. destruct (spawn r file args) as [child r']. reflexivity.
Qed.

Lemma bind_on_exit {B} (child : child_end) (k : option Z -> Proc R B) (r : R) :
  bind (on_exit child) k r
  = match child with
    | ChildExit code => k code r
    | ChildError => (Throw "Unhandled 'error' event", r, [])
    end.
Proof. destruct child; [apply bind_ret | reflexivity]. Qed.

Lemma bind_template {B} (v : jsval) (k : string -> Proc R B) (r : R) :
  bind (template v) k r
  = if Js.converts v then k (Js.text v) r else (Throw Js.type_error, r, []).
Proof. unfold template. destruct (Js.converts v); [apply bind_ret | reflexivity]. Qed.

Lemma bind_lingers {B} (file : string) (args : list string)
    (k : bool -> Proc R B) (r : R) :
  bind (lingers file args) k r = k (outlives_timer r file args) r.
Proof.
  unfold bind, lingers. destruct (k (outlives_timer r file args) r) as [[o r2] t2].
  reflexivity.
Qed.

Lemma bind_when {B} (c : bool) (m : Proc R unit) (k : unit -> Proc R B) (r : R) :
  bind (when c m) k r = if c then bind m k r else k tt r.
Proof. destruct c; simpl; [reflexivity | apply bind_ret]. Qed.

Lemma result_pre {A} (t : list event) (x : outcome A * R * list event) :
  result_of (pre t x) = result_of x.
Proof. destruct x as [[o r] t']. reflexivity. Qed.

Lemma state_pre {A} (t : list event) (x : outcome A * R * list event) :
  state_of (pre t x) = state_of x.
Proof. destruct x as [[o r] t']. reflexivity. Qed.

Lemma trace_pre {A} (t : list event) (x : outcome A * R * list event) :
  trace_of (pre t x) = t ++ trace_of x.
Proof. destruct x as [[o r] t']. reflexivity. Qed.

End Steps.

Ltac step :=
  first
    [ rewrite bind_assoc
    | rewrite bind_ret
    | rewrite bind_emit
    | rewrite bind_exit
    | rewrite bind_throw
    | rewrite bind_when
    | rewrite bind_execSync
    | rewrite bind_spawnSync
    | rewrite bind_spawnChild ].

Ltac unfold_console :=
  unfold console_log, console_warn, console_error in *.

Ltac observe := rewrite ?result_pre, ?state_pre, ?trace_pre.

(** ** [world-stop.js] *)

Section StopFacts.
Context {R : Type} `{Runtime R}.
Variable fs : Files.

(** The loop visits every identifier: it returns normally whatever the
    requests answer. *)
Lemma stop_loop (ids : list string) (r : R) :
  for_each ids WorldStop.stop_container r
  = (Ret tt, WorldStop.after_stops r ids, WorldStop.loop_trace r ids).
Proof.
  revert r. induction ids as [|id rest IH]; intros r; [reflexivity|].
  cbn [for_each WorldStop.after_stops WorldStop.loop_trace].
  unfold bind at 1.
  unfold WorldStop.stop_container, try_catch, bind, console_log, console_warn,
    emit, execSync, ret.
  destruct (exec_sync r (WorldStop.stop_command id)) as [[out|] r'] eqn:E;
    cbn [snd app]; rewrite IH; reflexivity.
Qed.

Lemma loop_trace_stops (ids : list string) (r : R) :
  stops (WorldStop.loop_trace r ids)
  = map (fun id => ExecSync (WorldStop.stop_command id)) ids.
Proof.
  revert r. induction ids as [|id rest IH]; intros r; [reflexivity|].
  cbn [WorldStop.loop_trace map].
  destruct (exec_sync r (WorldStop.stop_command id)) as [[out|] r'];
    unfold stops in *; cbn [app filter]; rewrite is_stop_stop_command;
    cbn [is_stop]; f_equal; apply IH.
Qed.

Lemma loop_trace_diagnostics (ids : list string) (r : R) :
  diagnostics (WorldStop.loop_trace r ids)
  = map (fun id => Print Warn (FailedToStop id)) (WorldStop.failures r ids).
Proof.
  revert r. induction ids as [|id rest IH]; intros r; [reflexivity|].
  cbn [WorldStop.loop_trace WorldStop.failures].
  destruct (exec_sync r (WorldStop.stop_command id)) as [[out|] r'];
    unfold diagnostics in *; cbn [app filter is_diagnostic map];
    [|f_equal]; apply IH.
Qed.

Lemma loop_trace_commands (ids : list string) (r : R) :
  commands (WorldStop.loop_trace r ids)
  = map (fun id => ExecSync (WorldStop.stop_command id)) ids.
Proof.
  revert r. induction ids as [|id rest IH]; intros r; [reflexivity|].
  cbn [WorldStop.loop_trace map].
  destruct (exec_sync r (WorldStop.stop_command id)) as [[out|] r'];
    unfold commands in *; cbn [app filter is_command]; f_equal; apply IH.
Qed.

(** The script from its start to the probe's answer. *)
Lemma stop_main_probed (args : list string) (world : json) (imageName : jsval)
    (r r1 : R) (out : string) :
  WorldStop.descriptor fs args world imageName ->
  Js.converts imageName = true ->
  exec_sync r (WorldStop.ps_command imageName) = (Some out, r1) ->
  WorldStop.main fs args r
  = if String.eqb (Text.trim out) EmptyString then
      (Exit 0%Z, r1,
       [Print Log (LookingFor (Js.text imageName));
        ExecSync (WorldStop.ps_command imageName);
        Print Log (NoRunningContainer (Js.text imageName))])
    else
      (Ret tt,
       WorldStop.after_stops r1 (WorldStop.container_ids (Text.trim out)),
       [Print Log (LookingFor (Js.text imageName));
        ExecSync (WorldStop.ps_command imageName)]
         ++ WorldStop.loop_trace r1 (WorldStop.container_ids (Text.trim out))
         ++ [Print Log (Stopped (length (WorldStop.container_ids (Text.trim out))))]).
Proof.
  intros (Hex & Hrd & Him) Hcv Hps.
  unfold WorldStop.main. rewrite Hex. cbn [negb].
  unfold parse_file, get. rewrite Hrd. step. rewrite Him. step.
  rewrite bind_template, Hcv.
  unfold_console. step.
  unfold try_catch at 1.
  unfold bind at 1.
  unfold bind at 1, execSync at 1. rewrite Hps. unfold ret at 1. cbn iota beta.
  destruct (String.eqb (Text.trim out) EmptyString) eqn:E.
  - step. reflexivity.
  - unfold bind at 1. rewrite stop_loop. unfold emit. reflexivity.
Qed.

(** An image that does not convert ends the script on its first line:
    nothing is printed and nothing is run. *)
Lemma stop_main_mute (args : list string) (world : json) (imageName : jsval)
    (r : R) :
  WorldStop.descriptor fs args world imageName ->
  Js.converts imageName = false ->
  WorldStop.main fs args r = (Throw Js.type_error, r, []).
Proof.
  intros (Hex & Hrd & Him) Hcv.
  unfold WorldStop.main. rewrite Hex. cbn [negb].
  unfold parse_file, get. rewrite Hrd. step. rewrite Him. step.
  rewrite bind_template, Hcv. reflexivity.
Qed.

End StopFacts.

(** ** Reading the output of [docker ps] back *)

Section Lines.

Lemma all_chars_weaken (p q : ascii -> bool) (s : string) :
  (forall a, p a = true -> q a = true) ->
  Text.all_chars p s = true -> Text.all_chars q s = true.
Proof.
  intros W. induction s as [|a s IH]; simpl; [trivial|].
  intros E. apply andb_true_iff in E as [E1 E2].
  rewrite (W _ E1), (IH E2). reflexivity.
Qed.

Lemma append_assoc (s t u : string) : ((s ++ t) ++ u = s ++ (t ++ u))%string.
Proof. induction s as [|a s IH]; simpl; [reflexivity | rewrite IH; reflexivity]. Qed.

Lemma all_chars_app (p : ascii -> bool) (s t : string) :
  Text.all_chars p (s ++ t) = Text.all_chars p s && Text.all_chars p t.
Proof.
  induction s as [|a s IH]; simpl; [reflexivity|].
  rewrite IH, andb_assoc. reflexivity.
Qed.

Lemma token_free_of (c : ascii) (s : string) :
  Text.is_ws c = true -> Text.is_token s = true -> Text.free_of c s = true.
Proof.
  intros W T. apply andb_true_iff in T as [_ T].
  revert T. apply all_chars_weaken. intros a Ha.
  destruct (Ascii.eqb a c) eqn:E; [|reflexivity].
  apply Ascii.eqb_eq in E. subst a. rewrite W in Ha. discriminate.
Qed.

Lemma token_not_empty (s : string) : Text.is_token s = true -> s <> EmptyString.
Proof. intros T E. subst s. discriminate. Qed.

(** A value whose conversion fails has the text of an object, or holds
    one among its elements: its text has a space in it. *)
Lemma spaceless_converts (j : json) :
  Text.all_chars (fun c => negb (Text.is_ws c)) (Js.text_of_json j) = true ->
  Js.converts_json j = true.
Proof.
  revert j. fix IH 1. intros [ |b|n|s|items|fields]; try reflexivity.
  - cbn [Js.text_of_json Js.converts_json]. revert items.
    fix IHl 1. intros [|x rest]; [reflexivity|].
    intros E.
    assert (P : Text.all_chars (fun c => negb (Text.is_ws c))
                  (match x with JNull => EmptyString | _ => Js.text_of_json x end)
                = true /\
                Text.all_chars (fun c => negb (Text.is_ws c))
                  (Text.join ","
                     ((fix elems (l : list json) : list string :=
                         match l with
                         | [] => []
                         | JNull :: rest => EmptyString :: elems rest
                         | x :: rest => Js.text_of_json x :: elems rest
                         end) rest)) = true).
    { destruct rest as [|y rest'].
      - split; [|reflexivity]. destruct x; exact E.
      - assert (E' : Text.all_chars (fun c => negb (Text.is_ws c))
                       ((match x with JNull => EmptyString | _ => Js.text_of_json x end)
                        ++ "," ++
                        Text.join ","
                          ((fix elems (l : list json) : list string :=
                              match l with
                              | [] => []
                              | JNull :: rest => EmptyString :: elems rest
                              | x :: rest => Js.text_of_json x :: elems rest
                              end) (y :: rest'))) = true)
          by (destruct x; destruct y; exact E).
        rewrite all_chars_app in E'. apply andb_true_iff in E' as [E1 E2].
        rewrite all_chars_app in E2. apply andb_true_iff in E2 as [_ E2].
        split; assumption. }
    destruct P as [P1 P2]. apply andb_true_iff. split.
    + apply IH. destruct x; try exact P1; reflexivity.
    + apply IHl. exact P2.
  - intros E. discriminate E.
Qed.

Lemma token_converts (v : jsval) :
  Text.is_token (Js.text v) = true -> Js.converts v = true.
Proof.
  intros T. destruct v as [j|]; [|reflexivity].
  apply andb_true_iff in T as [_ T]. apply spaceless_converts. exact T.
Qed.

(** [trim_end] of an append. *)
Lemma trim_end_app (s t : string) :
  Text.trim_end (s ++ t)
  = match Text.trim_end t with
    | EmptyString => Text.trim_end s
    | t' => (s ++ t')%string
    end.
Proof.
  induction s as [|a s IH]; simpl.
  - destruct (Text.trim_end t); reflexivity.
  - rewrite IH. destruct (Text.trim_end t) as [|b t']; [reflexivity|].
    destruct s; reflexivity.
Qed.

Lemma trim_end_token (s : string) :
  Text.is_token s = true -> Text.trim_end s = s.
Proof.
  intros T. apply andb_true_iff in T as [_ T].
  induction s as [|a s IH]; simpl; [reflexivity|].
  simpl in T. apply andb_true_iff in T as [Ta Ts].
  rewrite (IH Ts). destruct s; [|reflexivity].
  apply negb_true_iff in Ta. rewrite Ta. reflexivity.
Qed.

Lemma trim_start_token (s t : string) :
  Text.is_token s = true -> Text.trim_start (s ++ t) = (s ++ t)%string.
Proof.
  intros T. apply andb_true_iff in T as [N T].
  destruct s as [|a s]; [discriminate|].
  simpl in *. apply andb_true_iff in T as [Ta _].
  apply negb_true_iff in Ta. rewrite Ta. reflexivity.
Qed.

(** [split] at the first separator. *)
Lemma split_app (c : ascii) (s t : string) :
  Text.free_of c s = true ->
  Text.split c (s ++ String c t) = s :: Text.split c t.
Proof.
  induction s as [|a s IH]; simpl; intros F.
  - rewrite Ascii.eqb_refl. reflexivity.
  - apply andb_true_iff in F as [Fa Fs]. apply negb_true_iff in Fa.
    rewrite Fa, (IH Fs). reflexivity.
Qed.

Lemma split_free (c : ascii) (s : string) :
  Text.free_of c s = true -> Text.split c s = [s].
Proof.
  induction s as [|a s IH]; simpl; intros F; [reflexivity|].
  apply andb_true_iff in F as [Fa Fs]. apply negb_true_iff in Fa.
  rewrite Fa, (IH Fs). reflexivity.
Qed.

End Lines.

Section Listing.

Lemma join_not_empty (l : string) (ls : list string) :
  l <> EmptyString -> Text.join Text.newline (l :: ls) <> EmptyString.
Proof.
  intros N. destruct ls; simpl; [exact N|].
  destruct l; [contradiction | discriminate].
Qed.

Lemma trim_end_lines (l : string) (ls : list string) :
  Forall Text.solid (l :: ls) ->
  Text.trim_end (Sim.lines (l :: ls)) = Text.join Text.newline (l :: ls).
Proof.
  revert l. induction ls as [|y rest IH]; intros l F.
  - inversion F as [|? ? (_ & E & _ & _) _]; subst.
    simpl. rewrite trim_end_app. simpl. exact E.
  - inversion F as [|? ? _ F']; subst.
    change (Sim.lines (l :: y :: rest))
      with (l ++ String Text.nl (Sim.lines (y :: rest)))%string.
    rewrite trim_end_app.
    change (Text.trim_end (String Text.nl (Sim.lines (y :: rest))))
      with (match Text.trim_end (Sim.lines (y :: rest)) with
            | EmptyString => EmptyString
            | t => String Text.nl t
            end).
    rewrite (IH y F').
    inversion F' as [|? ? (_ & _ & N & _) _]; subst.
    pose proof (join_not_empty y rest N) as J.
    change (Text.join Text.newline (l :: y :: rest))
      with (l ++ String Text.nl (Text.join Text.newline (y :: rest)))%string.
    destruct (Text.join Text.newline (y :: rest)) eqn:E; [contradiction|].
    reflexivity.
Qed.

Lemma split_join (l : string) (ls : list string) :
  Forall Text.solid (l :: ls) ->
  Text.split Text.nl (Text.join Text.newline (l :: ls)) = l :: ls.
Proof.
  revert l. induction ls as [|y rest IH]; intros l F.
  - inversion F as [|? ? (_ & _ & _ & E) _]; subst.
    simpl. apply split_free. exact E.
  - inversion F as [|? ? (_ & _ & _ & E) F']; subst.
    change (Text.join Text.newline (l :: y :: rest))
      with (l ++ String Text.nl (Text.join Text.newline (y :: rest)))%string.
    rewrite (split_app _ _ _ E), (IH y F'). reflexivity.
Qed.

(** [trim] and [split] give the lines of a listing back. *)
Lemma trim_lines (l : string) (ls : list string) :
  Forall Text.solid (l :: ls) ->
  Text.trim (Sim.lines (l :: ls)) <> EmptyString /\
  Text.split Text.nl (Text.trim (Sim.lines (l :: ls))) = l :: ls.
Proof.
  intros F. unfold Text.trim.
  assert (S : Text.trim_start (Sim.lines (l :: ls)) = Sim.lines (l :: ls)).
  { inversion F as [|? ? (E & _) _]; subst. apply E. }
  rewrite S, (trim_end_lines _ _ F). split.
  - apply join_not_empty. inversion F as [|? ? (_ & _ & N & _) _]; assumption.
  - apply split_join. exact F.
Qed.

Lemma token_solid (s : string) : Text.is_token s = true -> Text.solid s.
Proof.
  intros T. repeat split.
  - intros t. apply trim_start_token. exact T.
  - apply trim_end_token. exact T.
  - apply token_not_empty. exact T.
  - apply token_free_of; [reflexivity | exact T].
Qed.

Lemma pair_solid (i n : string) :
  Text.is_token i = true -> Text.is_token n = true ->
  Text.solid (i ++ " " ++ n).
Proof.
  intros Ti Tn. repeat split.
  - intros t. rewrite append_assoc. apply trim_start_token. exact Ti.
  - rewrite trim_end_app.
    change (Text.trim_end (" " ++ n))
      with (match Text.trim_end n with
            | EmptyString => EmptyString
            | t => String " " t
            end).
    rewrite (trim_end_token _ Tn).
    destruct n; [discriminate | reflexivity].
  - destruct i; discriminate.
  - unfold Text.free_of. rewrite all_chars_app.
    apply andb_true_iff. split.
    + apply (token_free_of Text.nl i eq_refl Ti).
    + apply (token_free_of Text.nl n eq_refl Tn).
Qed.

(** The identifiers the stop script reads out of the full listing. *)
Lemma container_ids_lines (cs : list Sim.container) :
  cs <> [] ->
  forallb (fun c => Text.is_token (Sim.cid c) && Text.is_token (Sim.cname c)) cs = true ->
  let out := Sim.lines (map Sim.full_line cs) in
  Text.trim out <> EmptyString /\
  WorldStop.container_ids (Text.trim out) = map Sim.cid cs.
Proof.
  intros N T out. subst out.
  destruct cs as [|c cs]; [contradiction|]. clear N.
  assert (F : Forall Text.solid (map Sim.full_line (c :: cs))).
  { apply Forall_map. apply Forall_forall. intros x Hx.
    rewrite forallb_forall in T. specialize (T x Hx).
    apply andb_true_iff in T as [T1 T2]. apply pair_solid; assumption. }
  cbn [map] in F |- *.
  destruct (trim_lines _ _ F) as [NE SP]. split; [exact NE|].
  unfold WorldStop.container_ids. rewrite SP.
  change (map ?f (?a :: map ?g cs)) with (map f (map g (c :: cs))).
  rewrite map_map. change (Sim.cid c :: map Sim.cid cs) with (map Sim.cid (c :: cs)).
  apply map_ext_in. intros x Hx.
  rewrite forallb_forall in T. specialize (T x Hx).
  apply andb_true_iff in T as [T1 _].
  change (Sim.full_line x)
    with (Sim.cid x ++ String Text.sp (Sim.cname x))%string.
  rewrite (split_app _ _ _ (token_free_of Text.sp _ eq_refl T1)). reflexivity.
Qed.

End Listing.

(** ** The simulated runtime reads the scripts' command lines *)

Section SimFacts.
Import Sim.

Lemma strip_prefix_app (p s : string) : strip_prefix p (p ++ s) = Some s.
Proof.
  induction p as [|a p IH]; simpl; [reflexivity|].
  rewrite Ascii.eqb_refl. exact IH.
Qed.

Lemma word_token (w rest : string) :
  Text.is_token w = true ->
  word (w ++ String Text.sp rest) = (w, String Text.sp rest).
Proof.
  intros T. pose proof (token_free_of Text.sp w eq_refl T) as F. clear T.
  induction w as [|a w IH]; simpl.
  - reflexivity.
  - simpl in F. apply andb_true_iff in F as [Fa Fw]. apply negb_true_iff in Fa.
    rewrite Fa, (IH Fw). reflexivity.
Qed.

(** The probe of [world-stop.js] lists the running containers of the
    image, and changes nothing. *)
Lemma sim_ps (d : docker) (imageName : jsval) :
  up d = true ->
  Text.is_token (Js.text imageName) = true ->
  exec_sync d (WorldStop.ps_command imageName)
  = (Some (lines (map full_line (matching (Js.text imageName) d))), d).
Proof.
  intros U T. cbn [exec_sync docker_runtime]. unfold exec. rewrite U. cbn [negb].
  unfold WorldStop.ps_command.
  change (strip_prefix "docker stop " ("docker ps --filter ancestor=" ++ ?x))
    with (@None string).
  rewrite strip_prefix_app. unfold ps.
  change (" --format " ++ Text.dq ++ "{{.ID}} {{.Names}}" ++ Text.dq)%string
    with (String Text.sp
            ("--format " ++ Text.dq ++ "{{.ID}} {{.Names}}" ++ Text.dq)).
  rewrite (word_token _ _ T).
  reflexivity.
Qed.

Lemma sim_stop (d : docker) (id : string) :
  up d = true ->
  exec_sync d (WorldStop.stop_command id) = stop id d.
Proof.
  intros U. cbn [exec_sync docker_runtime]. unfold exec. rewrite U. cbn [negb].
  unfold WorldStop.stop_command. rewrite strip_prefix_app. reflexivity.
Qed.

Lemma stop_up (d : docker) (id : string) : up (snd (stop id d)) = up d.
Proof. unfold stop. destruct (_ && _); reflexivity. Qed.

Lemma stop_stubborn (d : docker) (id : string) :
  stubborn (snd (stop id d)) = stubborn d.
Proof. unfold stop. destruct (_ && _); reflexivity. Qed.

Lemma mem_In (x : string) (l : list string) : mem x l = true <-> In x l.
Proof.
  unfold mem. rewrite existsb_exists. split.
  - intros (y & Hy & E). apply String.eqb_eq in E. subst. exact Hy.
  - intros Hx. exists x. split; [exact Hx | apply String.eqb_refl].
Qed.

(** What is left running after a stop request keeps another
    identifier, unless the container is stubborn. *)
Lemma stop_running (d : docker) (id : string) (c : container) :
  In c (running (snd (stop id d))) ->
  In c (running d) /\ (mem id (stubborn d) = false -> cid c <> id).
Proof.
  unfold stop.
  destruct (mem id (map cid (running d))) eqn:M;
    destruct (mem id (stubborn d)) eqn:S; cbn [andb negb snd running];
    intros I.
  - split; [exact I | discriminate].
  - apply filter_In in I as [I N]. split; [exact I|].
    intros _ E. rewrite E, String.eqb_refl in N. discriminate.
  - split; [exact I | discriminate].
  - split; [exact I|]. intros _ E.
    assert (In id (map cid (running d))) as X
        by (rewrite <- E; apply in_map; exact I).
    apply mem_In in X. rewrite X in M. discriminate.
Qed.

Lemma after_stops_running (ids : list string) (d : docker) (c : container) :
  up d = true ->
  In c (running (WorldStop.after_stops d ids)) ->
  In c (running d) /\
  (forall id, In id ids -> mem id (stubborn d) = false -> cid c <> id).
Proof.
  revert d. induction ids as [|id rest IH]; intros d U I.
  - split; [exact I | intros id []].
  - cbn [WorldStop.after_stops] in I. rewrite (sim_stop d id U) in I.
    apply IH in I; [|rewrite stop_up; exact U].
    destruct I as [I K]. apply stop_running in I as [I J].
    split; [exact I|]. intros x [E|Hx] S.
    + subst x. exact (J S).
    + apply K; [exact Hx|]. rewrite stop_stubborn. exact S.
Qed.

Lemma after_stops_up (ids : list string) (d : docker) :
  up d = true -> up (WorldStop.after_stops d ids) = true.
Proof.
  revert d. induction ids as [|id rest IH]; intros d U; [exact U|].
  cbn [WorldStop.after_stops]. apply IH. rewrite (sim_stop d id U), stop_up. exact U.
Qed.

(** Once every instance of the image has been asked to stop, and none
    of them is stubborn, none is left. *)
Lemma after_stops_none (d : docker) (image : string) :
  up d = true ->
  (forall c, In c (matching image d) -> mem (cid c) (stubborn d) = false) ->
  matching image (WorldStop.after_stops d (map cid (matching image d))) = [].
Proof.
  intros U S.
  destruct (matching image (WorldStop.after_stops d (map cid (matching image d))))
    as [|c l] eqn:E; [reflexivity|].
  assert (I : In c (matching image
                      (WorldStop.after_stops d (map cid (matching image d)))))
    by (rewrite E; left; reflexivity).
  unfold matching at 1 in I. apply filter_In in I as [I M].
  apply after_stops_running in I as [I K]; [|exact U].
  assert (C : In c (matching image d)) by (apply filter_In; split; assumption).
  exfalso. apply (K (cid c)); [apply in_map; exact C | apply S; exact C | reflexivity].
Qed.

End SimFacts.

(** ** Stopping a world *)

Section StopTwice.
Import Sim.
Variable fs : Files.

(** In the simulated runtime the probe of [world-stop.js] finds the
    running containers of the image: their identifiers, in order. *)
Lemma sim_probe (d : docker) (imageName : jsval) :
  up d = true -> tidy d = true ->
  Text.is_token (Js.text imageName) = true ->
  let out := lines (map full_line (matching (Js.text imageName) d)) in
  exec_sync d (WorldStop.ps_command imageName) = (Some out, d) /\
  (matching (Js.text imageName) d = [] -> Text.trim out = EmptyString) /\
  (matching (Js.text imageName) d <> [] ->
   Text.trim out <> EmptyString /\
   WorldStop.container_ids (Text.trim out)
   = map cid (matching (Js.text imageName) d)).
Proof.
  intros U T I out. split; [apply sim_ps; assumption|]. split.
  - intros E. subst out. rewrite E. reflexivity.
  - intros N. apply container_ids_lines; [exact N|].
    apply forallb_forall. intros c Hc. apply filter_In in Hc as [Hc _].
    unfold tidy in T. rewrite forallb_forall in T. exact (T c Hc).
Qed.

(** The state [world-stop.js] leaves the simulated runtime in has no
    running container of the image, when none of them is stubborn. *)
Lemma sim_stop_leaves_none (args : list string) (world : json)
    (imageName : jsval) (d : docker) :
  WorldStop.descriptor fs args world imageName ->
  up d = true -> tidy d = true ->
  Text.is_token (Js.text imageName) = true ->
  (forall c, In c (matching (Js.text imageName) d) ->
             mem (cid c) (stubborn d) = false) ->
  let d' := state_of (WorldStop.main fs args d) in
  up d' = true /\ matching (Js.text imageName) d' = [].
Proof.
  intros D U T I S d'. subst d'.
  destruct (sim_probe d imageName U T I) as (P & Z & N).
  rewrite (stop_main_probed fs args world imageName d d _ D (token_converts _ I) P).
  destruct (matching (Js.text imageName) d) as [|c cs] eqn:M.
  - rewrite (Z eq_refl). cbn. split; [exact U | exact M].
  - destruct N as [NE IDS]; [discriminate|].
    apply String.eqb_neq in NE. rewrite NE. rewrite IDS. cbn [state_of fst snd].
    rewrite <- M. split.
    + apply after_stops_up. exact U.
    + apply after_stops_none; [exact U|]. rewrite M. exact S.
Qed.

(** In the simulated runtime a world with running instances has each of
    them asked to stop, in the order of the listing. *)
Lemma sim_stop_asks_every_instance (args : list string) (world : json)
    (imageName : jsval) (d : docker) :
  WorldStop.descriptor fs args world imageName ->
  up d = true -> tidy d = true ->
  Text.is_token (Js.text imageName) = true ->
  matching (Js.text imageName) d <> [] ->
  result_of (WorldStop.main fs args d) = Ret tt /\
  stops (trace_of (WorldStop.main fs args d))
  = map (fun c => ExecSync (WorldStop.stop_command (cid c)))
        (matching (Js.text imageName) d).
Proof.
  intros D U T I M.
  destruct (sim_probe d imageName U T I) as (P & _ & N).
  destruct (N M) as [NE IDS].
  rewrite (stop_main_probed fs args world imageName d d _ D (token_converts _ I) P).
  apply String.eqb_neq in NE. rewrite NE, IDS.
  cbn [result_of trace_of fst snd]. split; [reflexivity|].
  unfold stops. cbn [app filter]. rewrite is_stop_ps_command, filter_app.
  cbn [filter is_stop]. rewrite app_nil_r.
  fold (stops (WorldStop.loop_trace d (map cid (matching (Js.text imageName) d)))).
  rewrite loop_trace_stops, map_map. reflexivity.
Qed.

End StopTwice.

(** C3, as amended.  A world without running instances whose image
    converts to text, so that the script gets as far as the probe: the
    probe answers and its answer is blank.  Then [world-stop.js] exits
    with status 0, the probe is the only command it issues (no terminate
    request), and the runtime is left as the probe left it.  Twice in
    succession: in the simulated runtime, where a terminate request that
    succeeds removes the container, the run that follows a run in which
    no instance refused to stop finds no instance and is this no-op,
    leaving the runtime unchanged.  An image that does not convert
    (an object with a [toString] key of its own) ends the script on the
    line that announces the probe: a TypeError, status 1, nothing
    printed and no command issued. *)
Theorem stop_without_instances_is_noop :
  (forall (R : Type) (H : Runtime R) (fs : Files) (args : list string)
          (world : json) (imageName : jsval) (r r1 : R) (out : string),
      WorldStop.descriptor fs args world imageName ->
      Js.converts imageName = true ->
      exec_sync r (WorldStop.ps_command imageName) = (Some out, r1) ->
      Text.trim out = EmptyString ->
      let run := WorldStop.main fs args r in
      result_of run = Exit 0%Z /\
      exit_status (result_of run) = 0%Z /\
      stops (trace_of run) = [] /\
      commands (trace_of run) = [ExecSync (WorldStop.ps_command imageName)] /\
      state_of run = r1)
  /\
  (forall (fs : Files) (args : list string) (world : json) (imageName : jsval)
          (d : Sim.docker),
      WorldStop.descriptor fs args world imageName ->
      Sim.up d = true -> Sim.tidy d = true ->
      Text.is_token (Js.text imageName) = true ->
      (forall c, In c (Sim.matching (Js.text imageName) d) ->
                 Sim.mem (Sim.cid c) (Sim.stubborn d) = false) ->
      let first := WorldStop.main fs args d in
      let again := WorldStop.main fs args (state_of first) in
      result_of again = Exit 0%Z /\
      stops (trace_of again) = [] /\
      commands (trace_of again) = [ExecSync (WorldStop.ps_command imageName)] /\
      state_of again = state_of first)
  /\
  (forall (R : Type) (H : Runtime R) (fs : Files) (args : list string)
          (world : json) (imageName : jsval) (r : R),
      WorldStop.descriptor fs args world imageName ->
      Js.converts imageName = false ->
      let run := WorldStop.main fs args r in
      result_of run = Throw Js.type_error /\
      exit_status (result_of run) = 1%Z /\
      trace_of run = [] /\
      state_of run = r).
Proof.
  assert (G : forall (R : Type) (H : Runtime R) (fs : Files) (args : list string)
          (world : json) (imageName : jsval) (r r1 : R) (out : string),
      WorldStop.descriptor fs args world imageName ->
      Js.converts imageName = true ->
      exec_sync r (WorldStop.ps_command imageName) = (Some out, r1) ->
      Text.trim out = EmptyString ->
      WorldStop.main fs args r
      = (Exit 0%Z, r1,
         [Print Log (LookingFor (Js.text imageName));
          ExecSync (WorldStop.ps_command imageName);
          Print Log (NoRunningContainer (Js.text imageName))])).
  { intros R H fs args world imageName r r1 out D C P Z.
    rewrite (stop_main_probed fs args world imageName r r1 out D C P), Z.
    reflexivity. }
  split; [|split].
  - intros R H fs args world imageName r r1 out D C P Z run. subst run.
    rewrite (G R H fs args world imageName r r1 out D C P Z).
    repeat split.
  - intros fs args world imageName d D U T I S first again.
    destruct (sim_stop_leaves_none fs args world imageName d D U T I S) as [U' M'].
    fold first in U', M'.
    assert (T' : Sim.tidy (state_of first) = true).
    { subst first.
      destruct (sim_probe d imageName U T I) as (P & Z & N).
      rewrite (stop_main_probed fs args world imageName d d _ D (token_converts _ I) P).
      destruct (String.eqb _ _); cbn [state_of fst snd]; [exact T|].
      unfold Sim.tidy in *. apply forallb_forall. intros c Hc.
      apply after_stops_running in Hc as [Hc _]; [|exact U].
      rewrite forallb_forall in T. exact (T c Hc). }
    destruct (sim_probe (state_of first) imageName U' T' I) as (P & Z & _).
    subst again.
    rewrite (G _ _ fs args world imageName _ _ _ D (token_converts _ I) P (Z M')).
    repeat split.
  - intros R H fs args world imageName r D C run. subst run.
    rewrite (stop_main_mute fs args world imageName r D C).
    repeat split.
Qed.

(** A world that does not run, a running world stopped twice (two
    instances of [x/demo], then none), and a world whose image is an
    object with a [toString] key. *)
Lemma stop_twice_witness :
  WorldStop.main Sample.files ["shell"] Sample.bare
  = (Exit 0%Z, Sample.bare,
     [Print Log (LookingFor "x/shell");
      ExecSync (WorldStop.ps_command (Some (JStr "x/shell")));
      Print Log (NoRunningContainer "x/shell")])
  /\
  (let first := WorldStop.main Sample.files ["demo"] Sample.calm in
   let again := WorldStop.main Sample.files ["demo"] (state_of first) in
   stops (trace_of first) = [ExecSync "docker stop a1"; ExecSync "docker stop d4"] /\
   result_of again = Exit 0%Z /\
   stops (trace_of again) = [] /\
   state_of again = state_of first)
  /\
  (let run := WorldStop.main More.odd ["masked"] Sample.calm in
   result_of run = Throw Js.type_error /\
   exit_status (result_of run) = 1%Z /\
   trace_of run = [] /\
   state_of run = Sample.calm).
Proof.
  split; [|split].
  - pose proof (proj1 stop_without_instances_is_noop Sim.docker _ Sample.files
                  ["shell"] Sample.shell (Some (JStr "x/shell")) Sample.bare
                  Sample.bare EmptyString) as W.
    cbv zeta in W.
    destruct W as (A & _ & _ & _ & B).
    + repeat split.
    + reflexivity.
    + reflexivity.
    + reflexivity.
    + reflexivity.
  - split; [reflexivity|].
    pose proof (proj1 (proj2 stop_without_instances_is_noop) Sample.files ["demo"]
                  Sample.demo (Some (JStr "x/demo")) Sample.calm) as W.
    cbv zeta in W.
    destruct W as (A & B & _ & C).
    + repeat split.
    + reflexivity.
    + reflexivity.
    + reflexivity.
    + intros c [E|[E|[]]]; subst c; reflexivity.
    + repeat split; assumption.
  - apply (proj2 (proj2 stop_without_instances_is_noop) Sim.docker _ More.odd
             ["masked"] More.masked (Some (JObj [("toString", JNull)])) Sample.calm).
    + repeat split.
    + reflexivity.
Defined.

(** C3, as stated, fails when an instance refuses to stop: the first run
    warns about it and leaves it running, and the run that follows finds
    it and asks it to stop again. *)
Lemma stop_again_asks_the_stubborn :
  let first := WorldStop.main Sample.files ["demo"] Sample.busy in
  let again := WorldStop.main Sample.files ["demo"] (state_of first) in
  diagnostics (trace_of first) = [Print Warn (FailedToStop "b2")] /\
  map Sim.cid (Sim.matching "x/demo" (state_of first)) = ["b2"] /\
  result_of again = Ret tt /\
  stops (trace_of again) = [ExecSync "docker stop b2"] /\
  diagnostics (trace_of again) = [Print Warn (FailedToStop "b2")].
Proof. repeat split. Qed.

(** C4.  A world with running instances: its image converts to text,
    as the reference of an image that runs does, the probe's answer is
    not blank and names the identifiers [ids].  Then [world-stop.js]
    issues one terminate request per identifier, in order, whichever of
    them fail; it warns once for each request that failed and for no
    other; it reports the count and ends normally. *)
Theorem stop_attempts_every_instance :
  forall (R : Type) (H : Runtime R) (fs : Files) (args : list string)
         (world : json) (imageName : jsval) (r r1 : R) (out : string),
    WorldStop.descriptor fs args world imageName ->
    Js.converts imageName = true ->
    exec_sync r (WorldStop.ps_command imageName) = (Some out, r1) ->
    Text.trim out <> EmptyString ->
    let ids := WorldStop.container_ids (Text.trim out) in
    let run := WorldStop.main fs args r in
    result_of run = Ret tt /\
    stops (trace_of run) = map (fun id => ExecSync (WorldStop.stop_command id)) ids /\
    diagnostics (trace_of run)
    = map (fun id => Print Warn (FailedToStop id)) (WorldStop.failures r1 ids) /\
    In (Print Log (Stopped (length ids))) (trace_of run) /\
    state_of run = WorldStop.after_stops r1 ids.
Proof.
  intros R H fs args world imageName r r1 out D C P N ids run. subst run.
  rewrite (stop_main_probed fs args world imageName r r1 out D C P).
  apply String.eqb_neq in N. rewrite N. fold ids.
  cbn [result_of state_of trace_of fst snd]. repeat split.
  - unfold stops. cbn [app filter].
    rewrite is_stop_ps_command, filter_app.
    change (filter is_stop [Print Log (Stopped (length ids))]) with (@nil event).
    rewrite app_nil_r. apply loop_trace_stops.
  - unfold diagnostics. cbn [app filter is_diagnostic].
    rewrite filter_app. cbn [filter is_diagnostic].
    rewrite app_nil_r. apply loop_trace_diagnostics.
  - apply in_or_app. right. apply in_or_app. right. left. reflexivity.
Qed.

(** Three instances of [x/demo], the second of which refuses to stop:
    all three are asked, one warning is printed. *)
Lemma stop_partial_failure_witness :
  let run := WorldStop.main Sample.files ["demo"] Sample.busy in
  result_of run = Ret tt /\
  stops (trace_of run)
  = [ExecSync "docker stop a1"; ExecSync "docker stop b2"; ExecSync "docker stop d4"] /\
  diagnostics (trace_of run) = [Print Warn (FailedToStop "b2")] /\
  In (Print Log (Stopped 3)) (trace_of run) /\
  map Sim.cid (Sim.running (state_of run)) = ["b2"; "c3"].
Proof.
  pose proof (stop_attempts_every_instance Sim.docker _ Sample.files ["demo"]
                Sample.demo (Some (JStr "x/demo")) Sample.busy Sample.busy
                (Sim.lines (map Sim.full_line
                              (Sim.matching "x/demo" Sample.busy)))) as W.
  cbv zeta in W.
  destruct W as (A & B & C & D & E).
  - repeat split.
  - reflexivity.
  - reflexivity.
  - discriminate.
  - cbv zeta. rewrite A, B, C, E. repeat split. exact D.
Defined.

(** ** [world-launch.js] *)

Section LaunchFacts.
Context {R : Type} `{Runtime R}.
Variable fs : Files.

Lemma get_field (world : json) (k : string) :
  world <> JNull -> @get R world k = ret (Js.field world k).
Proof.
  intros N. unfold get, Js.field. destruct world; try reflexivity. contradiction.
Qed.

(** Up to the image check the script only prints. *)
Lemma launch_main_banner (args : list string) (world : json) (r : R) :
  WorldLaunch.descriptor fs args world ->
  WorldLaunch.presentable args world = true ->
  WorldLaunch.main fs args r
  = pre (WorldLaunch.banner fs args world)
      (bind (WorldLaunch.ensureImage fs (Js.field world "image")
               (path_resolve fs (WorldLaunch.inputDir args)))
            (fun _ =>
               WorldLaunch.start fs world (Js.field world "type")
                 (Js.field world "image")
                 (WorldLaunch.launchPort (WorldLaunch.getArg args "--port")
                    (Js.field world "port"))
                 (path_resolve fs (WorldLaunch.inputDir args))
                 (WorldLaunch.effective_detached (Js.field world "type")
                    (WorldLaunch.detach_requested args)))
            r).
Proof.
  intros (Hex & Hrd & N) P. unfold WorldLaunch.main, WorldLaunch.banner.
  unfold WorldLaunch.presentable, WorldLaunch.interpolated in P.
  cbn [forallb] in P.
  apply andb_true_iff in P as [P1 P]. apply andb_true_iff in P as [P2 P].
  apply andb_true_iff in P as [P3 P]. apply andb_true_iff in P as [P4 P].
  apply andb_true_iff in P as [P5 _].
  rewrite Hex. cbn [negb]. unfold parse_file. rewrite Hrd. step.
  rewrite !(get_field world _ N). unfold_console.
  repeat step. rewrite bind_template, P1.
  repeat step. rewrite bind_template, P2.
  repeat step. rewrite bind_template, P3.
  repeat step. rewrite bind_template, P4.
  repeat step. rewrite bind_template, P5.
  repeat step.
  destruct (Js.truthy (WorldLaunch.getArg args "--port"));
    destruct (Js.is_str (Js.field world "type") "cli");
    destruct (WorldLaunch.effective_detached _ _);
    repeat step; rewrite ?pre_pre; reflexivity.
Qed.

(** A value that does not convert ends the script before the image
    check: by then it has printed lines of the banner at most. *)
Lemma launch_main_mute (args : list string) (world : json) (r : R) :
  WorldLaunch.descriptor fs args world ->
  WorldLaunch.presentable args world = false ->
  exists t,
    WorldLaunch.main fs args r = (Throw Js.type_error, r, t) /\
    commands t = [] /\ diagnostics t = [] /\ runs t = [] /\ builds t = [].
Proof.
  intros (Hex & Hrd & N) P. unfold WorldLaunch.main.
  unfold WorldLaunch.presentable, WorldLaunch.interpolated in P.
  cbn [forallb] in P.
  rewrite Hex. cbn [negb]. unfold parse_file. rewrite Hrd. step.
  rewrite !(get_field world _ N). unfold_console.
  repeat step. rewrite bind_template.
  destruct (Js.converts (Js.or _ _)); [|eexists; repeat split].
  repeat step. rewrite bind_template.
  destruct (Js.converts (Js.field world "name")); [|eexists; repeat split].
  repeat step. rewrite bind_template.
  destruct (Js.converts (Js.field world "image")); [|eexists; repeat split].
  repeat step. rewrite bind_template.
  destruct (Js.converts (Js.field world "type")); [|eexists; repeat split].
  repeat step. rewrite bind_template.
  destruct (Js.converts (Js.field world "entry")); [discriminate P|].
  eexists; repeat split.
Qed.

Lemma banner_silent (args : list string) (world : json) :
  commands (WorldLaunch.banner fs args world) = [] /\
  diagnostics (WorldLaunch.banner fs args world) = [] /\
  runs (WorldLaunch.banner fs args world) = [] /\
  builds (WorldLaunch.banner fs args world) = [].
Proof.
  unfold WorldLaunch.banner.
  destruct (Js.truthy (WorldLaunch.getArg args "--port"));
    destruct (Js.is_str (Js.field world "type") "cli");
    destruct (WorldLaunch.effective_detached _ _); repeat split.
Qed.

(** The four ways the image check ends. *)
Lemma ensureImage_cases (image : jsval) (worldDir : string) (r : R) :
  WorldLaunch.ensureImage fs image worldDir r
  = match exec_sync r (WorldLaunch.inspect_command image) with
    | (Some _, r1) => (Ret tt, r1, [ExecSync (WorldLaunch.inspect_command image)])
    | (None, r1) =>
        if existsSync fs (path_join fs [worldDir; "Dockerfile"]) then
          match spawn_sync r1 "docker" (WorldLaunch.build_args image worldDir) with
          | (Some 0%Z, r2) =>
              (Ret tt, r2,
               [ExecSync (WorldLaunch.inspect_command image);
                Print Log Building;
                SpawnSync "docker" (WorldLaunch.build_args image worldDir)])
          | (_, r2) =>
              (Exit 1%Z, r2,
               [ExecSync (WorldLaunch.inspect_command image);
                Print Log Building;
                SpawnSync "docker" (WorldLaunch.build_args image worldDir);
                Print Error BuildFailed])
          end
        else
          (Exit 1%Z, r1,
           [ExecSync (WorldLaunch.inspect_command image);
            Print Error DockerfileNotFound])
    end.
Proof.
  unfold WorldLaunch.ensureImage, try_catch.
  fold (WorldLaunch.inspect_command image). fold (WorldLaunch.build_args image worldDir).
  rewrite bind_execSync.
  destruct (exec_sync r (WorldLaunch.inspect_command image)) as [[out|] r1];
    [reflexivity|].
  cbn [pre app].
  destruct (existsSync fs (path_join fs [worldDir; "Dockerfile"])).
  - unfold_console. step. rewrite bind_spawnSync.
    destruct (spawn_sync r1 "docker" (WorldLaunch.build_args image worldDir))
      as [[[|p|p]|] r2]; cbn [fst snd]; try step; reflexivity.
  - unfold_console. step. reflexivity.
Qed.

(** The image check never runs a container. *)
Lemma ensureImage_no_run (image : jsval) (worldDir : string) (r : R) :
  runs (trace_of (WorldLaunch.ensureImage fs image worldDir r)) = [].
Proof.
  rewrite ensureImage_cases.
  destruct (exec_sync r _) as [[out|] r1]; [reflexivity|].
  destruct (existsSync fs _); [|reflexivity].
  destruct (spawn_sync r1 _ _) as [[[|p|p]|] r2]; reflexivity.
Qed.

(** An unknown type: the script stops at the type test. *)
Lemma start_unknown (world : json) (type image : jsval) (port : option Z)
    (dir : string) (detached : bool) (r : R) :
  world <> JNull ->
  Js.is_str type "web" = false -> Js.is_str type "cli" = false ->
  WorldLaunch.start fs world type image port dir detached r
  = (Exit 1%Z, r, [Print Error (UnknownWorldType (Js.text type))]).
Proof.
  intros N W C. unfold WorldLaunch.start. rewrite (get_field world _ N). step.
  unfold WorldLaunch.dockerArgs. rewrite W, C. unfold_console. step. reflexivity.
Qed.

(** [openBrowser] spawns the opener of the platform; the script lives
    on when the opener could be started. *)
Lemma openBrowser_spec (url : string) (r : R) :
  let (file, oargs) := WorldLaunch.opener fs url in
  WorldLaunch.openBrowser fs url r
  = match spawn r file oargs with
    | (ChildExit _, r') => (Ret tt, r', [Spawn file oargs])
    | (ChildError, r') => (Throw "Unhandled 'error' event", r', [Spawn file oargs])
    end.
Proof.
  unfold WorldLaunch.opener, WorldLaunch.openBrowser.
  destruct (String.eqb (platform fs) "win32");
    [|destruct (String.eqb (platform fs) "darwin")];
    rewrite bind_spawnChild;
    match goal with
    | |- context [spawn r ?f ?a] => destruct (spawn r f a) as [[code|] r']
    end; reflexivity.
Qed.

(** A known type, step by step: what is printed up to the spawn, how
    the container run ends, and the two callbacks in the order the
    runtime gives them. *)
Lemma start_steps (world : json) (type image : jsval) (port : option Z)
    (dir : string) (detached : bool) (r : R) (dockerArgs : list string) :
  world <> JNull ->
  WorldLaunch.dockerArgs type (Js.field world "volumeMount") image port dir detached
  = Some dockerArgs ->
  let url := ("http://localhost:" ++ Js.number_text port)%string in
  let web := Js.is_str type "web" in
  let t0 := (if web && Js.truthy (Js.field world "volumeMount")
             then [Print Log (MountingVolume dir)] else [])
            ++ [Print Log (CommandLine dockerArgs); Spawn "docker" dockerArgs]
            ++ (if web then [Print Log (OpeningBrowser url); BrowserTimer url]
                else []) in
  let file := fst (WorldLaunch.opener fs url) in
  let oargs := snd (WorldLaunch.opener fs url) in
  WorldLaunch.start fs world type image port dir detached r
  = match spawn r "docker" dockerArgs with
    | (ChildError, r1) => (Throw "Unhandled 'error' event", r1, t0)
    | (ChildExit code, r1) =>
        let said := Print Log (if detached
                               then DetachedRunning (Js.number_text port)
                               else DockerExited code) in
        if web then
          match spawn r1 file oargs with
          | (ChildExit _, r2) =>
              (Ret tt, r2,
               t0 ++ (if outlives_timer r "docker" dockerArgs
                      then [Spawn file oargs; said]
                      else [said; Spawn file oargs]))
          | (ChildError, r2) =>
              (Throw "Unhandled 'error' event", r2,
               t0 ++ (if outlives_timer r "docker" dockerArgs
                      then [Spawn file oargs]
                      else [said; Spawn file oargs]))
          end
        else (Ret tt, r1, t0 ++ [said])
    end.
Proof.
  intros N D url web t0 file oargs. subst t0 file oargs web.
  unfold WorldLaunch.start.
  rewrite (get_field world _ N). step. rewrite D.
  unfold_console. fold url.
  rewrite bind_when.
  assert (S0 : forall (k : unit -> Proc R unit) t,
             bind (bind (emit (Print Log (CommandLine dockerArgs))) (fun _ => ret tt)) k r = t
             -> True) by trivial. clear S0.
  destruct (Js.is_str type "web") eqn:W;
    destruct (Js.truthy (Js.field world "volumeMount")) eqn:V; cbn [andb];
    repeat step; rewrite bind_lingers; repeat step;
    destruct (spawn r "docker" dockerArgs) as [[code|] r1] eqn:S;
    cbn [fst snd]; repeat step; rewrite ?bind_on_exit; try reflexivity;
    unfold WorldLaunch.report; unfold_console.
  all: try (destruct detached; repeat step; reflexivity).
  all: pose proof (openBrowser_spec url r1) as O;
    destruct (WorldLaunch.opener fs url) as [file oargs]; cbn [fst snd];
    destruct (outlives_timer r "docker" dockerArgs);
    destruct detached; repeat step;
    unfold bind; rewrite O;
    destruct (spawn r1 file oargs) as [[c|] r2]; reflexivity.
Qed.

(** A known type: one container run, with the arguments built, as the
    first command; nothing is built and no diagnostic is printed.  A
    world that is not a web world has no other command, and ends as its
    container run does. *)
Lemma start_known (world : json) (type image : jsval) (port : option Z)
    (dir : string) (detached : bool) (r : R) (dockerArgs : list string) :
  world <> JNull ->
  WorldLaunch.dockerArgs type (Js.field world "volumeMount") image port dir detached
  = Some dockerArgs ->
  let run := WorldLaunch.start fs world type image port dir detached r in
  runs (trace_of run) = [Spawn "docker" dockerArgs] /\
  builds (trace_of run) = [] /\
  (exists rest, commands (trace_of run) = Spawn "docker" dockerArgs :: rest) /\
  diagnostics (trace_of run) = [] /\
  (Js.is_str type "web" = false ->
   commands (trace_of run) = [Spawn "docker" dockerArgs] /\
   forall code r', spawn r "docker" dockerArgs = (ChildExit code, r') ->
                   result_of run = Ret tt /\ state_of run = r').
Proof.
  intros N D run. subst run.
  rewrite (start_steps world type image port dir detached r dockerArgs N D).
  assert (HD : exists rest, dockerArgs = "run" :: rest).
  { unfold WorldLaunch.dockerArgs in D.
    destruct (Js.is_str type "web"); [|destruct (Js.is_str type "cli")];
      [destruct (Js.truthy _)| |discriminate];
      destruct detached; injection D as <-; eexists; reflexivity. }
  destruct HD as [rest ->].
  assert (NR : is_run (Spawn (fst (WorldLaunch.opener fs
                  ("http://localhost:" ++ Js.number_text port)))
                (snd (WorldLaunch.opener fs
                  ("http://localhost:" ++ Js.number_text port)))) = false).
  { unfold WorldLaunch.opener.
    destruct (String.eqb (platform fs) "win32");
      [|destruct (String.eqb (platform fs) "darwin")]; reflexivity. }
  destruct (WorldLaunch.opener fs _) as [file oargs]. cbn [fst snd] in *.
  destruct (spawn r "docker" ("run" :: rest)) as [[code|] r1] eqn:S;
    destruct (Js.is_str type "web") eqn:W;
    destruct (Js.truthy (Js.field world "volumeMount")); cbn [andb];
    try (destruct (spawn r1 file oargs) as [[c|] r2]);
    try (destruct (outlives_timer r "docker" ("run" :: rest)));
    destruct detached;
    assert (NB : is_build (Spawn file oargs) = false) by reflexivity;
    assert (NC : is_command (Spawn file oargs) = true) by reflexivity;
    assert (ND : is_diagnostic (Spawn file oargs) = false) by reflexivity;
    remember (Spawn file oargs) as o;
    cbn [app result_of state_of trace_of fst snd runs builds commands diagnostics
         filter is_run is_build is_command is_diagnostic String.eqb Ascii.eqb
         Bool.eqb];
    rewrite ?NR, ?NB, ?NC, ?ND;
    (split; [reflexivity|]); (split; [reflexivity|]);
    (split; [eexists; reflexivity|]); (split; [reflexivity|]);
    intros X; try discriminate X;
    (split; [reflexivity|]);
    intros c' r' E; try discriminate E; injection E as <- <-; split; reflexivity.
Qed.

End LaunchFacts.

Section LaunchTheorems.
Context {R : Type} `{Runtime R}.
Variable fs : Files.

Lemma dockerArgs_none (type vm image : jsval) (port : option Z) (dir : string)
    (detached : bool) :
  WorldLaunch.dockerArgs type vm image port dir detached = None <->
  Js.is_str type "web" = false /\ Js.is_str type "cli" = false.
Proof.
  unfold WorldLaunch.dockerArgs.
  destruct (Js.is_str type "web"), (Js.is_str type "cli"), (Js.truthy vm), detached;
    split; intros E;
    try discriminate; try (destruct E; discriminate); try (split; reflexivity);
    reflexivity.
Qed.


Lemma is_str_web_not_cli (type : jsval) :
  Js.is_str type "web" = true -> Js.is_str type "cli" = false.
Proof.
  destruct type as [[| | |s| |]|]; try discriminate. simpl.
  intros E. apply String.eqb_eq in E. subst s. reflexivity.
Qed.

Lemma port_is_no_flag (s : string) : (s ++ ":80")%string <> "-v".
Proof.
  destruct s as [|a [|b [|c s]]]; simpl; intros E; inversion E.
Qed.

(** The arguments of a web world. *)
Lemma dockerArgs_web (type vm image : jsval) (port : option Z) (dir : string)
    (detached : bool) :
  Js.is_str type "web" = true ->
  WorldLaunch.dockerArgs type vm image port dir detached
  = Some (["run"; "--rm"; "-p"; (Js.number_text port ++ ":80")%string]
            ++ (if Js.truthy vm then ["-v"; (dir ++ ":/app")%string] else [])
            ++ (if detached then ["-d"] else [])
            ++ [Js.text image]).
Proof.
  intros W. unfold WorldLaunch.dockerArgs. rewrite W.
  destruct (Js.truthy vm); destruct detached; reflexivity.
Qed.

(** The arguments of a cli world in [world-launch.js]: the request to
    detach is dropped. *)
Lemma dockerArgs_cli (type vm image : jsval) (port : option Z) (dir : string)
    (requested : bool) :
  Js.is_str type "cli" = true ->
  WorldLaunch.dockerArgs type vm image port dir
    (WorldLaunch.effective_detached type requested)
  = Some ["run"; "--rm"; "-it"; Js.text image].
Proof.
  intros C. unfold WorldLaunch.dockerArgs, WorldLaunch.effective_detached.
  rewrite C. destruct (Js.is_str type "web") eqn:W; [|reflexivity].
  rewrite (is_str_web_not_cli type W) in C. discriminate.
Qed.

End LaunchTheorems.

(** C1, as amended.  A descriptor whose type is neither [web] nor [cli]:
    [world-launch.js] ends with status 1 and runs no container, and no
    argument list is built for the type (nothing is defaulted).  When
    all that the banner interpolates converts to text, the image check
    comes first: the inspection is issued, followed by a build at most,
    and these are all the commands; when the check passes (image
    present, or built), the error printed is the unknown type; when it
    does not, the error is the image check's.  When a value of the
    banner does not convert (an object with a [toString] key of its
    own), the script ends on the TypeError of that line: no command is
    issued and no diagnostic printed, the unknown type included. *)
Theorem launch_unknown_type :
  forall (R : Type) (H : Runtime R) (fs : Files) (args : list string)
         (world : json) (r : R),
    WorldLaunch.descriptor fs args world ->
    let type := Js.field world "type" in
    Js.is_str type "web" = false ->
    Js.is_str type "cli" = false ->
    let image := Js.field world "image" in
    let worldDir := path_resolve fs (WorldLaunch.inputDir args) in
    let inspect := ExecSync (WorldLaunch.inspect_command image) in
    let build := SpawnSync "docker" (WorldLaunch.build_args image worldDir) in
    let check := WorldLaunch.ensureImage fs image worldDir r in
    let run := WorldLaunch.main fs args r in
    exit_status (result_of run) = 1%Z /\
    runs (trace_of run) = [] /\
    (forall vm port dir detached,
        WorldLaunch.dockerArgs type vm image port dir detached = None) /\
    (WorldLaunch.presentable args world = true ->
     result_of run = Exit 1%Z /\
     commands (trace_of run) = commands (trace_of check) /\
     (commands (trace_of run) = [inspect] \/
      commands (trace_of run) = [inspect; build]) /\
     (result_of check = Ret tt ->
      diagnostics (trace_of run) = [Print Error (UnknownWorldType (Js.text type))]) /\
     (result_of check <> Ret tt ->
      (diagnostics (trace_of run) = [Print Error DockerfileNotFound] /\
       commands (trace_of run) = [inspect]) \/
      (diagnostics (trace_of run) = [Print Error BuildFailed] /\
       commands (trace_of run) = [inspect; build]))) /\
    (WorldLaunch.presentable args world = false ->
     result_of run = Throw Js.type_error /\
     commands (trace_of run) = [] /\
     diagnostics (trace_of run) = [] /\
     state_of run = r).
Proof.
  intros R H fs args world r D type W C image worldDir inspect build check run.
  assert (N : world <> JNull) by apply D.
  assert (K : forall vm port dir detached,
             WorldLaunch.dockerArgs type vm image port dir detached = None)
    by (intros; apply dockerArgs_none; split; assumption).
  destruct (WorldLaunch.presentable args world) eqn:P.
  - subst run check. rewrite (launch_main_banner fs args world r D P).
    fold type image worldDir.
    destruct (banner_silent fs args world) as (BC & BD & BR & _).
    observe. unfold diagnostics, runs, commands in *.
    rewrite !filter_app, BC, BD, BR. cbn [app].
    unfold bind. rewrite ensureImage_cases.
    destruct (exec_sync r (WorldLaunch.inspect_command image)) as [[out|] r1].
    + rewrite (start_unknown fs world type image _ _ _ r1 N W C).
      do 3 (split; [trivial|]). split; [|intros X; discriminate X].
      intros _. split; [reflexivity|]. split; [reflexivity|].
      split; [left; reflexivity|]. split; [reflexivity|].
      intros X. exfalso. apply X. reflexivity.
    + destruct (existsSync fs (path_join fs [worldDir; "Dockerfile"])).
      * destruct (spawn_sync r1 "docker" (WorldLaunch.build_args image worldDir))
          as [[[|p|p]|] r2];
          try rewrite (start_unknown fs world type image _ _ _ r2 N W C);
          (do 3 (split; [trivial|])); (split; [|intros X; discriminate X]);
          intros _; (split; [reflexivity|]); (split; [reflexivity|]);
          (split; [right; reflexivity|]);
          (split; [intros X; try discriminate X; reflexivity|]);
          intros X; try (exfalso; apply X; reflexivity);
          right; split; reflexivity.
      * do 3 (split; [trivial|]). split; [|intros X; discriminate X].
        intros _. split; [reflexivity|]. split; [reflexivity|].
        split; [left; reflexivity|]. split; [intros X; discriminate X|].
        intros _. left. split; reflexivity.
  - destruct (launch_main_mute fs args world r D P) as (t & E & TC & TD & TR & _).
    subst run. rewrite E. cbn [result_of state_of trace_of fst snd exit_status].
    do 3 (split; [trivial|]). split; [intros X; discriminate X|].
    intros _. repeat split; assumption.
Qed.

(** A world of type [game] whose image is present: the launch stops at
    the type test, after the inspection.  A world whose type is an
    object with a [toString] key: the launch stops at the line of the
    banner that prints the type. *)
Lemma launch_unknown_type_witness :
  (let run := WorldLaunch.main Sample.files ["game"; "--detach"] Sample.busy in
   result_of run = Exit 1%Z /\
   runs (trace_of run) = [] /\
   commands (trace_of run) = [ExecSync "docker image inspect x/game"] /\
   diagnostics (trace_of run) = [Print Error (UnknownWorldType "game")])
  /\
  (let run := WorldLaunch.main More.lone ["untyped"] Sample.busy in
   result_of run = Throw Js.type_error /\
   exit_status (result_of run) = 1%Z /\
   commands (trace_of run) = [] /\
   diagnostics (trace_of run) = []).
Proof.
  split.
  - pose proof (launch_unknown_type Sim.docker _ Sample.files ["game"; "--detach"]
                  Sample.game Sample.busy) as W.
    cbv zeta in W.
    destruct W as (_ & B & _ & W & _).
    + repeat split. discriminate.
    + reflexivity.
    + reflexivity.
    + destruct W as (A & _ & [E|E] & C & _); [reflexivity| |discriminate E].
      cbv zeta. split; [exact A|]. split; [exact B|]. split; [exact E|].
      apply C. reflexivity.
  - pose proof (launch_unknown_type Sim.docker _ More.lone ["untyped"]
                  More.untyped Sample.busy) as W.
    cbv zeta in W.
    destruct W as (S & _ & _ & _ & W).
    + repeat split. discriminate.
    + reflexivity.
    + reflexivity.
    + destruct W as (A & B & C & _); [reflexivity|].
      cbv zeta. split; [exact A|]. split; [exact S|]. split; [exact B | exact C].
Defined.

(** C1, as stated, fails: the same kind of world without a local image.
    In a directory without Dockerfile the launch ends with the missing
    build file as its error, and the unknown type is never reported; in
    a directory with one, an image is built before the type is
    rejected. *)
Lemma launch_unknown_type_meets_image_check_first :
  (Js.is_str (Js.field Sample.game "type") "web" = false /\
   Js.is_str (Js.field Sample.game "type") "cli" = false /\
   result_of (WorldLaunch.main Sample.files ["game"] Sample.bare) = Exit 1%Z /\
   diagnostics (trace_of (WorldLaunch.main Sample.files ["game"] Sample.bare))
   = [Print Error DockerfileNotFound] /\
   (In (Print Error (UnknownWorldType "game"))
       (trace_of (WorldLaunch.main Sample.files ["game"] Sample.bare)) -> False) /\
   commands (trace_of (WorldLaunch.main Sample.files ["game"] Sample.bare))
   = [ExecSync "docker image inspect x/game"])
  /\
  (Js.is_str (Js.field Sample.arcade "type") "web" = false /\
   Js.is_str (Js.field Sample.arcade "type") "cli" = false /\
   result_of (WorldLaunch.main Sample.files ["arcade"] Sample.builder) = Exit 1%Z /\
   diagnostics (trace_of (WorldLaunch.main Sample.files ["arcade"] Sample.builder))
   = [Print Error (UnknownWorldType "game")] /\
   commands (trace_of (WorldLaunch.main Sample.files ["arcade"] Sample.builder))
   = [ExecSync "docker image inspect x/arcade";
      SpawnSync "docker" ["build"; "-t"; "x/arcade"; "/w/arcade"]] /\
   Sim.images (state_of (WorldLaunch.main Sample.files ["arcade"] Sample.builder))
   = ["x/arcade"]).
Proof.
  split; [|repeat split].
  do 4 (split; [reflexivity|]). split; [|reflexivity].
  cbn. intros I. repeat (destruct I as [I|I]; [discriminate I|]). exact I.
Qed.



(** C6.  A web world whose name, image, type, entry and port convert to
    text, whose numbers are exact, and whose image check passes:
    [world-launch.js] runs one container, with [-p port:80] and the
    image as last argument.  With [volumeMount: true] the options
    include [-v dir:/app], where [dir] is the resolved directory of the
    world; with [volumeMount: false], or without the key, no [-v] is
    among the options. *)
Theorem web_launch_bind_mount :
  forall (R : Type) (H : Runtime R) (fs : Files) (args : list string)
         (world : json) (r r1 : R) (t1 : list event),
    WorldLaunch.descriptor fs args world ->
    WorldLaunch.presentable args world = true ->
    WorldLaunch.exact args world = true ->
    Js.is_str (Js.field world "type") "web" = true ->
    let image := Js.field world "image" in
    let absoluteDir := path_resolve fs (WorldLaunch.inputDir args) in
    WorldLaunch.ensureImage fs image absoluteDir r = (Ret tt, r1, t1) ->
    let volumeMount := Js.field world "volumeMount" in
    let port :=
      (Js.number_text (WorldLaunch.launchPort (WorldLaunch.getArg args "--port")
                         (Js.field world "port")) ++ ":80")%string in
    let mount := ["-v"; (absoluteDir ++ ":/app")%string] in
    let detach := if WorldLaunch.detach_requested args then ["-d"] else [] in
    let run := WorldLaunch.main fs args r in
    exists options,
      runs (trace_of run) = [Spawn "docker" (options ++ [Js.text image])] /\
      (Js.truthy volumeMount = true ->
       options = ["run"; "--rm"; "-p"; port] ++ mount ++ detach) /\
      (Js.truthy volumeMount = false ->
       options = ["run"; "--rm"; "-p"; port] ++ detach /\ ~ In "-v" options) /\
      (volumeMount = Some (JBool true) ->
       options = ["run"; "--rm"; "-p"; port] ++ mount ++ detach) /\
      (volumeMount = Some (JBool false) \/ volumeMount = None ->
       options = ["run"; "--rm"; "-p"; port] ++ detach /\ ~ In "-v" options).
Proof.
  intros R H fs args world r r1 t1 D P X W image absoluteDir E volumeMount port
         mount detach run.
  assert (N : world <> JNull) by apply D.
  pose proof (ensureImage_no_run fs image absoluteDir r) as NR. rewrite E in NR.
  cbn [trace_of snd] in NR.
  subst run. rewrite (launch_main_banner fs args world r D P).
  fold image absoluteDir.
  destruct (banner_silent fs args world) as (_ & _ & BR & _).
  observe. unfold runs in *. rewrite filter_app, BR. cbn [app].
  unfold bind at 1. rewrite E.
  unfold WorldLaunch.effective_detached. rewrite (is_str_web_not_cli _ W).
  pose proof (dockerArgs_web (Js.field world "type") volumeMount image
                (WorldLaunch.launchPort (WorldLaunch.getArg args "--port")
                   (Js.field world "port"))
                absoluteDir (WorldLaunch.detach_requested args) W) as A.
  fold port mount detach in A.
  pose proof (start_known fs world (Js.field world "type") image _ absoluteDir
                (WorldLaunch.detach_requested args) r1 _ N A) as (SR & _).
  unfold runs in SR.
  destruct (WorldLaunch.start _ _ _ _ _ _ _ r1) as [[o r2] t2].
  cbn [trace_of snd] in SR |- *. rewrite filter_app, NR, SR. cbn [app].
  assert (NV : ~ In "-v" (["run"; "--rm"; "-p"; port] ++ detach)).
  { subst detach. destruct (WorldLaunch.detach_requested args); cbn [app In];
      intros [Y|[Y|[Y|[Y|Y]]]]; try discriminate Y;
      try (apply (port_is_no_flag _ Y));
      try (destruct Y as [Y|Y]; [discriminate Y | exact Y]);
      exact Y. }
  exists (["run"; "--rm"; "-p"; port]
            ++ (if Js.truthy volumeMount then mount else []) ++ detach).
  split; [rewrite <- !app_assoc; reflexivity|].
  destruct (Js.truthy volumeMount) eqn:T.
  - split; [reflexivity|]. split; [discriminate|]. split; [reflexivity|].
    intros [Y|Y]; rewrite Y in T; discriminate.
  - split; [discriminate|]. split; [intros _; split; [reflexivity | exact NV]|].
    split; [intros Y; rewrite Y in T; discriminate|].
    intros _. split; [reflexivity | exact NV].
Qed.

(** [live] has [volumeMount: true], [demo] has no such key; both images
    are present. *)
Lemma web_launch_bind_mount_witness :
  runs (trace_of (WorldLaunch.main Sample.files ["live"] Sample.busy))
  = [Spawn "docker" ["run"; "--rm"; "-p"; "8080:80"; "-v"; "/w/live:/app"; "x/live"]]
  /\
  runs (trace_of (WorldLaunch.main Sample.files ["demo"; "--detach"] Sample.busy))
  = [Spawn "docker" ["run"; "--rm"; "-p"; "9000:80"; "-d"; "x/demo"]].
Proof.
  split.
  - destruct (web_launch_bind_mount Sim.docker _ Sample.files ["live"]
                Sample.live Sample.busy Sample.busy
                [ExecSync "docker image inspect x/live"])
      as (options & A & _ & _ & B & _).
    + repeat split. discriminate.
    + reflexivity.
    + reflexivity.
    + reflexivity.
    + reflexivity.
    + cbv zeta in A, B. rewrite A, B; reflexivity.
  - destruct (web_launch_bind_mount Sim.docker _ Sample.files ["demo"; "--detach"]
                Sample.demo Sample.busy Sample.busy
                [ExecSync "docker image inspect x/demo"])
      as (options & A & _ & _ & _ & B).
    + repeat split. discriminate.
    + reflexivity.
    + reflexivity.
    + reflexivity.
    + reflexivity.
    + cbv zeta in A, B. destruct B as [B _]; [right; reflexivity|].
      rewrite A, B. reflexivity.
Defined.

(** [world-launch.js] on a cli world whose banner is printed: whatever
    was requested, the container run is [docker run --rm -it image]. *)
Lemma cli_launch_is_attached :
  forall (R : Type) (H : Runtime R) (fs : Files) (args : list string)
         (world : json) (r r1 : R) (t1 : list event),
    WorldLaunch.descriptor fs args world ->
    WorldLaunch.presentable args world = true ->
    Js.is_str (Js.field world "type") "cli" = true ->
    WorldLaunch.ensureImage fs (Js.field world "image")
      (path_resolve fs (WorldLaunch.inputDir args)) r = (Ret tt, r1, t1) ->
    runs (trace_of (WorldLaunch.main fs args r))
    = [Spawn "docker" ["run"; "--rm"; "-it"; Js.text (Js.field world "image")]].
Proof.
  intros R H fs args world r r1 t1 D P C E.
  assert (N : world <> JNull) by apply D.
  pose proof (ensureImage_no_run fs (Js.field world "image")
                (path_resolve fs (WorldLaunch.inputDir args)) r) as NR.
  rewrite E in NR. cbn [trace_of snd] in NR.
  rewrite (launch_main_banner fs args world r D P).
  destruct (banner_silent fs args world) as (_ & _ & BR & _).
  observe. unfold runs in *. rewrite filter_app, BR. cbn [app].
  unfold bind at 1. rewrite E.
  pose proof (dockerArgs_cli (Js.field world "type") (Js.field world "volumeMount")
                (Js.field world "image")
                (WorldLaunch.launchPort (WorldLaunch.getArg args "--port")
                   (Js.field world "port"))
                (path_resolve fs (WorldLaunch.inputDir args))
                (WorldLaunch.detach_requested args) C) as A.
  pose proof (start_known fs world (Js.field world "type") (Js.field world "image")
                _ _ _ r1 _ N A) as (SR & _).
  unfold runs in SR.
  destruct (WorldLaunch.start _ _ _ _ _ _ _ r1) as [[o r2] t2].
  cbn [trace_of snd] in SR |- *. rewrite filter_app, NR, SR. reflexivity.
Qed.

(** The second launcher on a web world: no bind mount, whatever the
    descriptor says. *)
Lemma second_launcher_web_args (type image : jsval) (port : option Z)
    (detached : bool) :
  Js.is_str type "web" = true ->
  AltLaunch.dockerArgs type image port detached
  = Some (["run"; "--rm"; "-p"; (Js.number_text port ++ ":80")%string]
            ++ (if detached then ["-d"] else []) ++ [Js.text image]).
Proof.
  intros W. unfold AltLaunch.dockerArgs. rewrite W. destruct detached; reflexivity.
Qed.

(** C5, where the code departs from it.  The second launcher has no
    [cli] case for [detached]: asked to detach a cli world it builds
    [docker run --rm -it -d image] and runs it, where [world-launch.js]
    on the same command line runs [docker run --rm -it image]. *)
Theorem second_launcher_detaches_cli :
  (forall (image : jsval) (port : option Z),
      AltLaunch.dockerArgs (Some (JStr "cli")) image port true
      = Some ["run"; "--rm"; "-it"; "-d"; Js.text image])
  /\
  runs (trace_of (AltLaunch.main Sample.files ["shell"; "--detach"] Sample.busy))
  = [SpawnSync "docker" ["run"; "--rm"; "-it"; "-d"; "x/shell"]]
  /\
  runs (trace_of (WorldLaunch.main Sample.files ["shell"; "--detach"] Sample.busy))
  = [Spawn "docker" ["run"; "--rm"; "-it"; "x/shell"]].
Proof. repeat split. Qed.

(** ** Discovery *)

Section PortalScan.
Context {R : Type} `{Runtime R}.
Variable fs : Files.

(** The probe answers whatever the runtime does; an image that does not
    convert is not asked about. *)
Lemma probe_spec (worldData : json) (r : R) :
  worldData <> JNull ->
  Portal.probe worldData r
  = (Ret (Portal.observed worldData r), Portal.after_probe worldData r,
     if Discovery.probed worldData
     then [ExecSync (Portal.probe_command (Js.field worldData "image"))]
     else []).
Proof.
  intros N. unfold Portal.probe, try_catch, Portal.observed, Portal.after_probe,
    Discovery.probed.
  rewrite (get_field worldData _ N). step. rewrite bind_template.
  destruct (Js.converts (Js.field worldData "image")); [|reflexivity].
  cbv beta. rewrite bind_execSync.
  destruct (exec_sync r (Portal.probe_command (Js.field worldData "image")))
    as [[out|] r']; reflexivity.
Qed.

Lemma probe_null (r : R) : Portal.probe JNull r = (Ret false, r, []).
Proof. reflexivity. Qed.

(** One directory of the scan, by what its descriptor is. *)
Lemma load_dir_spec (dir : string) (ws : list Portal.world_view) (r : R) :
  Portal.load_dir fs dir ws r
  = match classify fs (Portal.worldPath fs dir) with
    | WellFormed v =>
        (Ret (if Discovery.named v
              then ws ++ [{| Portal.data := v; Portal.directory := dir;
                             Portal.isRunning := Portal.observed v r |}]
              else ws),
         Portal.after_probe v r,
         (if Discovery.probed v
          then [ExecSync (Portal.probe_command (Js.field v "image"))] else [])
           ++ (if Discovery.named v then []
               else [Print Error (FailedToLoad dir Js.type_error)]))
    | Malformed err => (Ret ws, r, [Print Error (FailedToLoad dir err)])
    | Missing => (Ret ws, r, [])
    end.
Proof.
  unfold Portal.load_dir, classify.
  destruct (existsSync fs (Portal.worldPath fs dir)); [|reflexivity].
  unfold try_catch, parse_file.
  destruct (read_json fs (Portal.worldPath fs dir)) as [err|v]; [reflexivity|].
  step.
  assert (G : v <> JNull ->
    try_catch
      (running <- Portal.probe v;;
       name <- get v "name";;
       _ <- template name;;
       ret (ws ++ [{| Portal.data := v; Portal.directory := dir;
                      Portal.isRunning := running |}]))
      (fun e => console_error (FailedToLoad dir e);; ret ws) r
    = (Ret (if Discovery.named v
            then ws ++ [{| Portal.data := v; Portal.directory := dir;
                           Portal.isRunning := Portal.observed v r |}]
            else ws),
       Portal.after_probe v r,
       (if Discovery.probed v
        then [ExecSync (Portal.probe_command (Js.field v "image"))] else [])
         ++ (if Discovery.named v then []
             else [Print Error (FailedToLoad dir Js.type_error)]))).
  { intros N. unfold try_catch. unfold bind at 1. rewrite (probe_spec v r N).
    rewrite (get_field v _ N). step. rewrite bind_template.
    unfold Discovery.named.
    destruct (Js.converts (Js.field v "name")); destruct (Discovery.probed v);
      unfold ret, console_error, emit, bind; cbn [pre app];
      rewrite ?app_nil_r; reflexivity. }
  destruct v; try (apply G; discriminate). reflexivity.
Qed.

(** The scan never throws and never exits: it returns what it was given
    followed by one view per well-formed descriptor whose name
    converts. *)
Lemma load_dirs_spec (dirs : list string) (ws : list Portal.world_view) (r : R) :
  Portal.load_dirs fs dirs ws r
  = (Ret (ws ++ Portal.scanned fs dirs r), Portal.scan_state fs dirs r,
     Portal.scan_trace fs dirs r).
Proof.
  revert ws r. induction dirs as [|dir rest IH]; intros ws r.
  - cbn. rewrite app_nil_r. reflexivity.
  - cbn [Portal.load_dirs Portal.scanned Portal.scan_state Portal.scan_trace].
    unfold bind. rewrite load_dir_spec.
    destruct (classify fs (Portal.worldPath fs dir)) as [|err|v];
      rewrite IH; cbn [app]; try reflexivity.
    destruct (Discovery.named v); rewrite <- ?app_assoc; reflexivity.
Qed.

Lemma scanned_accepted (dirs : list string) (r : R) :
  map (fun w => (Portal.directory w, Portal.data w)) (Portal.scanned fs dirs r)
  = Discovery.accepted fs Discovery.named (Portal.worldPath fs) dirs.
Proof.
  unfold Discovery.accepted.
  revert r. induction dirs as [|dir rest IH]; intros r; [reflexivity|].
  cbn [Portal.scanned Discovery.well_formed].
  destruct (classify fs (Portal.worldPath fs dir)) as [|err|v];
    cbn [map filter snd]; try apply IH.
  destruct (Discovery.named v); cbn [map]; rewrite IH; reflexivity.
Qed.

Lemma scan_trace_diagnostics (dirs : list string) (r : R) :
  diagnostics (Portal.scan_trace fs dirs r)
  = map (fun e => Print Error (FailedToLoad (fst e) (snd e)))
        (Discovery.refused fs Discovery.named Js.type_error (Portal.worldPath fs) dirs).
Proof.
  revert r. induction dirs as [|dir rest IH]; intros r; [reflexivity|].
  cbn [Portal.scan_trace Discovery.refused].
  destruct (classify fs (Portal.worldPath fs dir)) as [|err|v];
    unfold diagnostics in *;
    cbn [filter is_diagnostic map fst snd]; rewrite ?IH; try reflexivity.
  rewrite !filter_app.
  destruct (Discovery.probed v); destruct (Discovery.named v);
    cbn [filter is_diagnostic map fst snd app]; rewrite IH; reflexivity.
Qed.

(** [loadWorlds] appends what it derives to the list it finds. *)
Lemma loadWorlds_spec (st : Portal.portal) (r : R) (dirs : list string) :
  readdir_dirs fs (cwd fs) = Some dirs ->
  let ws := Portal.worlds st ++ Portal.scanned fs dirs r in
  Portal.loadWorlds fs st r
  = pre (Print Log LoadingWorlds :: Portal.scan_trace fs dirs r)
      (if (length ws =? 0)%nat
       then (Exit 0%Z, Portal.scan_state fs dirs r, [Print Log NoWorldsFound])
       else (Ret {| Portal.worlds := ws;
                    Portal.selectedIndex := Portal.selectedIndex st |},
             Portal.scan_state fs dirs r, [])).
Proof.
  intros E ws. unfold Portal.loadWorlds. unfold_console. step. rewrite E.
  unfold bind at 1. rewrite load_dirs_spec. fold ws.
  destruct (length ws =? 0)%nat.
  - step. cbn. rewrite ?app_nil_r. reflexivity.
  - cbn. rewrite ?app_nil_r. reflexivity.
Qed.

Lemma derive_spec (r : R) (dirs : list string) :
  readdir_dirs fs (cwd fs) = Some dirs ->
  Portal.derive fs r
  = (Ret (Portal.scanned fs dirs r), Portal.scan_state fs dirs r,
     Portal.scan_trace fs dirs r).
Proof. intros E. unfold Portal.derive. rewrite E. apply load_dirs_spec. Qed.

End PortalScan.

Section CatalogScan.
Context {R : Type} `{Runtime R}.
Variable fs : Files.

Lemma scan_dir_spec (name : string) (entries : list json) (r : R) :
  GenerateCatalog.scan_dir fs name entries r
  = match classify fs (GenerateCatalog.worldJsonPath fs name) with
    | WellFormed v =>
        (Ret (entries ++ [GenerateCatalog.entry_of name v]), r,
         [if Discovery.named v
          then Print Log (Found (Js.text (Js.field v "name")))
          else Print Warn (FailedToParse name Js.type_error)])
    | Malformed err => (Ret entries, r, [Print Warn (FailedToParse name err)])
    | Missing => (Ret entries, r, [Print Log (Skipped name)])
    end.
Proof.
  unfold GenerateCatalog.scan_dir, classify.
  destruct (existsSync fs (GenerateCatalog.worldJsonPath fs name));
    [|reflexivity].
  unfold try_catch, parse_file.
  destruct (read_json fs (GenerateCatalog.worldJsonPath fs name)) as [err|v];
    [reflexivity|].
  step.
  destruct v; try reflexivity.
  unfold Discovery.named, template, get, bind, ret, throw, console_log,
    console_warn, emit.
  cbn [Js.prop Js.field].
  destruct (Js.converts (Js.lookup "name" fields)); reflexivity.
Qed.

Lemma scan_spec (names : list string) (entries : list json) (r : R) :
  GenerateCatalog.scan fs names entries r
  = (Ret (entries
            ++ map (fun e => GenerateCatalog.entry_of (fst e) (snd e))
                   (Discovery.well_formed fs (GenerateCatalog.worldJsonPath fs) names)),
     r, GenerateCatalog.scan_trace fs names).
Proof.
  revert entries. induction names as [|name rest IH]; intros entries.
  - cbn. rewrite app_nil_r. reflexivity.
  - cbn [GenerateCatalog.scan GenerateCatalog.scan_trace Discovery.well_formed].
    unfold bind. rewrite scan_dir_spec.
    destruct (classify fs (GenerateCatalog.worldJsonPath fs name)) as [|err|v];
      rewrite IH; cbn [app map fst snd]; try reflexivity.
    rewrite <- app_assoc. reflexivity.
Qed.

Lemma catalog_scan_trace_diagnostics (names : list string) :
  diagnostics (GenerateCatalog.scan_trace fs names)
  = map (fun e => Print Warn (FailedToParse (fst e) (snd e)))
        (Discovery.refused fs Discovery.named Js.type_error
           (GenerateCatalog.worldJsonPath fs) names).
Proof.
  induction names as [|name rest IH]; [reflexivity|].
  cbn [GenerateCatalog.scan_trace Discovery.refused].
  destruct (classify fs (GenerateCatalog.worldJsonPath fs name)) as [|err|v];
    [| |destruct (Discovery.named v)];
    unfold diagnostics in *; cbn [filter is_diagnostic map fst snd];
    rewrite IH; reflexivity.
Qed.

End CatalogScan.

Section Partition.
Variable fs : Files.

(** Every directory of a listing is in exactly one class. *)
Lemma classes_partition (path : string -> string) (dirs : list string) :
  length (Discovery.well_formed fs path dirs)
  + length (Discovery.malformed fs path dirs)
  + length (Discovery.missing fs path dirs)
  = length dirs.
Proof.
  induction dirs as [|dir rest IH]; [reflexivity|].
  cbn [Discovery.well_formed Discovery.malformed Discovery.missing].
  destruct (classify fs (path dir)); cbn [length]; lia.
Qed.

Lemma catalog_scan_trace_skips (names : list string) :
  filter is_skip (GenerateCatalog.scan_trace fs names)
  = map (fun d => Print Log (Skipped d))
        (Discovery.missing fs (GenerateCatalog.worldJsonPath fs) names).
Proof.
  induction names as [|name rest IH]; [reflexivity|].
  cbn [GenerateCatalog.scan_trace Discovery.missing].
  destruct (classify fs (GenerateCatalog.worldJsonPath fs name)) as [|err|v];
    [| |destruct (Discovery.named v)];
    cbn [filter is_skip map]; rewrite IH; reflexivity.
Qed.

(** When every descriptor is one the scans take, the directories
    accepted are the well-formed ones and the ones refused the
    malformed ones. *)
Lemma accepted_all (ok : json -> bool) (path : string -> string)
    (dirs : list string) :
  Forall (fun e => ok (snd e) = true) (Discovery.well_formed fs path dirs) ->
  Discovery.accepted fs ok path dirs = Discovery.well_formed fs path dirs.
Proof.
  unfold Discovery.accepted. intros F.
  induction F as [|e l E F IH]; [reflexivity|].
  cbn [filter]. rewrite E, IH. reflexivity.
Qed.

Lemma refused_all (ok : json -> bool) (err : string) (path : string -> string)
    (dirs : list string) :
  Forall (fun e => ok (snd e) = true) (Discovery.well_formed fs path dirs) ->
  Discovery.refused fs ok err path dirs = Discovery.malformed fs path dirs.
Proof.
  induction dirs as [|dir rest IH]; [reflexivity|].
  cbn [Discovery.well_formed Discovery.refused Discovery.malformed].
  destruct (classify fs (path dir)) as [|e|v]; intros F.
  - apply IH. exact F.
  - rewrite (IH F). reflexivity.
  - inversion F as [|x l E F' X]. subst. cbn [snd] in E. rewrite E. apply IH. exact F'.
Qed.

End Partition.

(** C9, as amended.  Over any listing of directories, in any state of
    the runtime, both scans return normally.  The portal returns exactly
    the directories that hold a well-formed descriptor whose name
    converts to text, in enumeration order, each with its descriptor;
    the catalog script returns an entry for every directory that holds a
    well-formed descriptor.  A directory whose descriptor is malformed
    is left out with one diagnostic ([console.error] in the portal,
    [console.warn] in the catalog script); a well-formed descriptor
    whose name does not convert (an object with a [toString] key of its
    own) gets the same diagnostic, with the message of the TypeError: the
    portal leaves it out, the catalog script has its entry already; and
    these are the only diagnostics.  A directory without descriptor is
    left out without any: the portal prints nothing for it, the catalog
    script logs that it skipped it.  So when the names of the
    well-formed descriptors all convert, the portal returns the
    well-formed descriptors and the diagnostics are those of the
    malformed ones. *)
Theorem discovery_keeps_well_formed :
  forall (R : Type) (H : Runtime R) (fs : Files) (dirs : list string) (r : R),
    let listing := Portal.load_dirs fs dirs [] r in
    let catalog := GenerateCatalog.scan fs dirs [] r in
    let listed := Discovery.well_formed fs (Portal.worldPath fs) dirs in
    let entered := Discovery.well_formed fs (GenerateCatalog.worldJsonPath fs) dirs in
    (exists ws,
        result_of listing = Ret ws /\
        map (fun w => (Portal.directory w, Portal.data w)) ws
        = Discovery.accepted fs Discovery.named (Portal.worldPath fs) dirs /\
        (Forall (fun e => Discovery.named (snd e) = true) listed ->
         map (fun w => (Portal.directory w, Portal.data w)) ws = listed)) /\
    diagnostics (trace_of listing)
    = map (fun e => Print Error (FailedToLoad (fst e) (snd e)))
          (Discovery.refused fs Discovery.named Js.type_error
             (Portal.worldPath fs) dirs) /\
    (Forall (fun e => Discovery.named (snd e) = true) listed ->
     diagnostics (trace_of listing)
     = map (fun e => Print Error (FailedToLoad (fst e) (snd e)))
           (Discovery.malformed fs (Portal.worldPath fs) dirs)) /\
    result_of catalog
    = Ret (map (fun e => GenerateCatalog.entry_of (fst e) (snd e)) entered) /\
    diagnostics (trace_of catalog)
    = map (fun e => Print Warn (FailedToParse (fst e) (snd e)))
          (Discovery.refused fs Discovery.named Js.type_error
             (GenerateCatalog.worldJsonPath fs) dirs) /\
    (Forall (fun e => Discovery.named (snd e) = true) entered ->
     diagnostics (trace_of catalog)
     = map (fun e => Print Warn (FailedToParse (fst e) (snd e)))
           (Discovery.malformed fs (GenerateCatalog.worldJsonPath fs) dirs)) /\
    filter is_skip (trace_of catalog)
    = map (fun d => Print Log (Skipped d))
          (Discovery.missing fs (GenerateCatalog.worldJsonPath fs) dirs) /\
    filter is_skip (trace_of listing) = [].
Proof.
  intros R H fs dirs r listing catalog listed entered.
  subst listing catalog listed entered.
  rewrite load_dirs_spec, scan_spec. cbn [result_of trace_of fst snd app].
  split.
  { eexists. split; [reflexivity|]. split; [apply scanned_accepted|].
    intros F. rewrite scanned_accepted. apply accepted_all. exact F. }
  split; [apply scan_trace_diagnostics|].
  split.
  { intros F. rewrite scan_trace_diagnostics, (refused_all _ _ _ _ _ F). reflexivity. }
  split; [reflexivity|].
  split; [apply catalog_scan_trace_diagnostics|].
  split.
  { intros F. rewrite catalog_scan_trace_diagnostics, (refused_all _ _ _ _ _ F).
    reflexivity. }
  split; [apply catalog_scan_trace_skips|].
  revert r. induction dirs as [|dir rest IH]; intros r; [reflexivity|].
  cbn [Portal.scan_trace].
  destruct (classify fs (Portal.worldPath fs dir)) as [|err|v];
    [| |destruct (Discovery.probed v); destruct (Discovery.named v)];
    cbn [app filter is_skip]; apply IH.
Qed.

(** Two descriptors, one of which does not parse: the portal returns
    the other, and reports the one; so does the catalog script, in the
    home directory. *)
Lemma discovery_keeps_well_formed_witness :
  (exists ws,
      result_of (Portal.load_dirs Sample.two ["demo"; "broken"] [] Sample.busy)
      = Ret ws /\
      map (fun w => (Portal.directory w, Portal.data w)) ws
      = [("demo", Sample.demo)]) /\
  diagnostics (trace_of (Portal.load_dirs Sample.two ["demo"; "broken"] []
                           Sample.busy))
  = [Print Error (FailedToLoad "broken" "Unexpected token } in JSON")] /\
  diagnostics (trace_of (GenerateCatalog.scan More.home
                           ["demo"; "notes"; "broken"; "shell"] [] Sample.busy))
  = [Print Warn (FailedToParse "broken" "Unexpected token")].
Proof.
  destruct (discovery_keeps_well_formed Sim.docker _ Sample.two ["demo"; "broken"]
              Sample.busy) as ((ws & A & _ & B) & _ & C & _).
  destruct (discovery_keeps_well_formed Sim.docker _ More.home
              ["demo"; "notes"; "broken"; "shell"] Sample.busy)
    as (_ & _ & _ & _ & _ & D & _).
  split; [|split].
  - exists ws. split; [exact A|]. apply B. repeat constructor.
  - apply C. repeat constructor.
  - apply D. repeat constructor.
Defined.

(** Three descriptors that parse: one whose image is no text, which the
    portal lists without a probe; one whose name is no text, which the
    portal refuses and the catalog script enters with a warning; and
    [demo]. *)
Example descriptors_that_are_no_text :
  result_of (Portal.derive More.odd Sample.busy)
  = Ret [{| Portal.data := More.masked; Portal.directory := "masked";
            Portal.isRunning := false |};
         {| Portal.data := Sample.demo; Portal.directory := "demo";
            Portal.isRunning := true |}]
  /\
  trace_of (Portal.derive More.odd Sample.busy)
  = [ExecSync (Portal.probe_command (Some (JStr "x/demo")));
     Print Error (FailedToLoad "unnamed" Js.type_error);
     ExecSync (Portal.probe_command (Some (JStr "x/demo")))]
  /\
  result_of (GenerateCatalog.main More.odd_home Sample.busy)
  = Ret [GenerateCatalog.entry_of "masked" More.masked;
         GenerateCatalog.entry_of "unnamed" More.unnamed;
         GenerateCatalog.entry_of "demo" Sample.demo]
  /\
  diagnostics (trace_of (GenerateCatalog.main More.odd_home Sample.busy))
  = [Print Warn (FailedToParse "unnamed" Js.type_error)].
Proof. repeat split. Qed.

(** The scenario of the specification: two descriptors, one of which does
    not parse. *)
Example two_descriptors_one_malformed :
  result_of (Portal.derive Sample.two Sample.busy)
  = Ret [{| Portal.data := Sample.demo; Portal.directory := "demo";
            Portal.isRunning := true |}]
  /\
  diagnostics (trace_of (Portal.derive Sample.two Sample.busy))
  = [Print Error (FailedToLoad "broken" "Unexpected token } in JSON")].
Proof. split; reflexivity. Qed.

(** C9, as stated, fails: a directory without descriptor is left out of
    the portal's list and nothing at all is printed about it: the trace
    of the scan is the probe of the other directory. *)
Lemma missing_descriptor_is_silent :
  classify Sample.one (Portal.worldPath Sample.one "empty") = Missing /\
  result_of (Portal.derive Sample.one Sample.busy)
  = Ret [{| Portal.data := Sample.demo; Portal.directory := "demo";
            Portal.isRunning := true |}] /\
  diagnostics (trace_of (Portal.derive Sample.one Sample.busy)) = [] /\
  trace_of (Portal.derive Sample.one Sample.busy)
  = [ExecSync (Portal.probe_command (Some (JStr "x/demo")))].
Proof. repeat split. Qed.

(** With the daemon out of reach the simulated runtime changes nothing
    and every world is listed as not running. *)
Lemma sim_down_lists_all_stopped (fs : Files) (dirs : list string) (d : Sim.docker) :
  Sim.up d = false ->
  Forall (fun w => Portal.isRunning w = false) (Portal.scanned fs dirs d) /\
  Portal.scan_state fs dirs d = d.
Proof.
  intros U.
  assert (E : forall cmd, exec_sync d cmd = (None, d)).
  { intros cmd. cbn [exec_sync Sim.docker_runtime]. unfold Sim.exec. rewrite U.
    reflexivity. }
  induction dirs as [|dir rest [IH1 IH2]]; [split; [constructor | reflexivity]|].
  cbn [Portal.scanned Portal.scan_state].
  destruct (classify fs (Portal.worldPath fs dir)) as [|err|v]; try (split; assumption).
  unfold Portal.after_probe, Portal.observed. rewrite E. cbn [fst snd].
  destruct (Discovery.probed v); destruct (Discovery.named v);
    split; try exact IH2; try exact IH1;
    (constructor; [reflexivity | exact IH1]).
Qed.

(** C2, as amended.  The probe of the listing pass, for a world with a
    well-formed descriptor whose image converts to text, so that a
    query is made, and whose name converts, so that the portal lists
    it: when the query errors, the world is listed as not running, no
    diagnostic is printed, and the pass goes on: it returns the worlds
    of all the directories that follow.  The probe of [world-stop.js],
    for an image that converts, so that the script gets as far as the
    query: when the query errors, the script prints that [docker ps]
    failed and exits with status 1, without a terminate request. *)
Theorem probe_failure_policy :
  forall (R : Type) (H : Runtime R) (fs : Files)
         (dir : string) (rest : list string) (ws : list Portal.world_view)
         (worldData : json) (r r' : R)
         (args : list string) (world : json) (imageName : jsval) (q q1 : R),
    classify fs (Portal.worldPath fs dir) = WellFormed worldData ->
    Discovery.probed worldData = true ->
    Discovery.named worldData = true ->
    exec_sync r (Portal.probe_command (Js.field worldData "image")) = (None, r') ->
    WorldStop.descriptor fs args world imageName ->
    Js.converts imageName = true ->
    exec_sync q (WorldStop.ps_command imageName) = (None, q1) ->
    let view := {| Portal.data := worldData; Portal.directory := dir;
                   Portal.isRunning := false |} in
    Portal.load_dir fs dir ws r
    = (Ret (ws ++ [view]), r',
       [ExecSync (Portal.probe_command (Js.field worldData "image"))]) /\
    result_of (Portal.load_dirs fs (dir :: rest) ws r)
    = Ret (ws ++ view :: Portal.scanned fs rest r') /\
    map (fun w => (Portal.directory w, Portal.data w))
        (view :: Portal.scanned fs rest r')
    = Discovery.accepted fs Discovery.named (Portal.worldPath fs) (dir :: rest) /\
    stops (trace_of (WorldStop.main fs args q)) = [] /\
    WorldStop.main fs args q
    = (Exit 1%Z, q1,
       [Print Log (LookingFor (Js.text imageName));
        ExecSync (WorldStop.ps_command imageName);
        Print Error FailedDockerPs]).
Proof.
  intros R H fs dir rest ws worldData r r' args world imageName q q1 C PB NM E D
         CV P view.
  assert (S : WorldStop.main fs args q
              = (Exit 1%Z, q1,
                 [Print Log (LookingFor (Js.text imageName));
                  ExecSync (WorldStop.ps_command imageName);
                  Print Error FailedDockerPs])).
  { destruct D as (Hex & Hrd & Him).
    unfold WorldStop.main. rewrite Hex. cbn [negb].
    unfold parse_file, get. rewrite Hrd. step. rewrite Him. step.
    rewrite bind_template, CV.
    unfold_console. step.
    unfold try_catch at 1. unfold bind at 1.
    unfold bind at 1, execSync at 1. rewrite P. step. reflexivity. }
  split; [|split; [|split; [|split]]].
  - rewrite load_dir_spec, C. unfold Portal.observed, Portal.after_probe.
    rewrite PB, NM, E. reflexivity.
  - rewrite load_dirs_spec. cbn [Portal.scanned result_of fst]. rewrite C.
    unfold Portal.observed, Portal.after_probe. rewrite PB, NM, E. reflexivity.
  - unfold Discovery.accepted. cbn [map Discovery.well_formed]. rewrite C.
    cbn [filter snd]. rewrite NM. fold (Discovery.accepted fs Discovery.named
                                          (Portal.worldPath fs) rest).
    rewrite scanned_accepted. reflexivity.
  - rewrite S. unfold stops. cbn [trace_of snd filter].
    rewrite is_stop_ps_command. reflexivity.
  - exact S.
Qed.

(** The daemon is out of reach while an instance of [x/demo] runs: the
    portal lists [demo] as not running and goes on to [live] and
    [shell]; [world-stop.js] gives up. *)
Lemma probe_failure_policy_witness :
  result_of (Portal.derive Sample.three Sample.down)
  = Ret [{| Portal.data := Sample.demo; Portal.directory := "demo";
            Portal.isRunning := false |};
         {| Portal.data := Sample.live; Portal.directory := "live";
            Portal.isRunning := false |};
         {| Portal.data := Sample.shell; Portal.directory := "shell";
            Portal.isRunning := false |}]
  /\
  exit_status (result_of (WorldStop.main Sample.three ["demo"] Sample.down)) = 1%Z.
Proof.
  pose proof (probe_failure_policy Sim.docker _ Sample.three
                "demo" ["live"; "shell"] [] Sample.demo Sample.down Sample.down
                ["demo"] Sample.demo (Some (JStr "x/demo")) Sample.down Sample.down)
    as W.
  cbv zeta in W.
  destruct W as (_ & A & _ & _ & B).
  - reflexivity.
  - reflexivity.
  - reflexivity.
  - reflexivity.
  - repeat split.
  - reflexivity.
  - reflexivity.
  - split.
    + exact A.
    + rewrite B. reflexivity.
Defined.

(** C2, as stated, fails at the probe of [world-stop.js]: with the
    daemon out of reach the script exits with status 1 on the failed
    query, where a world found not running ends it with status 0. *)
Lemma stop_probe_failure_is_fatal :
  fst (exec_sync Sample.down (WorldStop.ps_command (Some (JStr "x/demo")))) = None /\
  WorldStop.main Sample.files ["demo"] Sample.down
  = (Exit 1%Z, Sample.down,
     [Print Log (LookingFor "x/demo");
      ExecSync (WorldStop.ps_command (Some (JStr "x/demo")));
      Print Error FailedDockerPs]) /\
  WorldStop.main Sample.files ["demo"] Sample.bare
  = (Exit 0%Z, Sample.bare,
     [Print Log (LookingFor "x/demo");
      ExecSync (WorldStop.ps_command (Some (JStr "x/demo")));
      Print Log (NoRunningContainer "x/demo")]).
Proof. repeat split. Qed.

(** C8, where the code departs from it.  The scan loop returns the list
    it was given followed by the fresh views, and [loadWorlds] gives it
    [this.worlds]: after [init] the portal lists [demo] once, after a
    refresh twice, while a scan from nothing in the same state derives
    it once. *)
Theorem refresh_appends_to_the_list :
  (forall (R : Type) (H : Runtime R) (fs : Files) (dirs : list string)
          (ws : list Portal.world_view) (r : R),
      result_of (Portal.load_dirs fs dirs ws r) = Ret (ws ++ Portal.scanned fs dirs r))
  /\
  result_of (Portal.session Sample.one [] Sample.busy)
  = Ret {| Portal.worlds :=
             [{| Portal.data := Sample.demo; Portal.directory := "demo";
                 Portal.isRunning := true |}];
           Portal.selectedIndex := 0 |}
  /\
  result_of (Portal.session Sample.one [Portal.KeyR] Sample.busy)
  = Ret {| Portal.worlds :=
             [{| Portal.data := Sample.demo; Portal.directory := "demo";
                 Portal.isRunning := true |};
              {| Portal.data := Sample.demo; Portal.directory := "demo";
                 Portal.isRunning := true |}];
           Portal.selectedIndex := 0 |}
  /\
  result_of (Portal.derive Sample.one
               (state_of (Portal.session Sample.one [Portal.KeyR] Sample.busy)))
  = Ret [{| Portal.data := Sample.demo; Portal.directory := "demo";
            Portal.isRunning := true |}].
Proof.
  split; [intros; rewrite load_dirs_spec; reflexivity|].
  repeat split.
Qed.

(** ** The cursor *)

Section Inversion.
Context {R : Type} `{Runtime R}.

Lemma bind_Ret_inv {A B} (m : Proc R A) (k : A -> Proc R B) (r : R) (b : B) :
  result_of (bind m k r) = Ret b ->
  exists a r1 t1, m r = (Ret a, r1, t1) /\ result_of (k a r1) = Ret b.
Proof.
  unfold bind. destruct (m r) as [[[a|c|e] r1] t1]; try discriminate.
  destruct (k a r1) as [[o r2] t2] eqn:K. cbn. intros ->.
  exists a, r1, t1. rewrite K. split; reflexivity.
Qed.

Lemma try_catch_Ret_inv {A} (m : Proc R A) (h : string -> Proc R A) (r : R) (a : A) :
  result_of (try_catch m h r) = Ret a ->
  result_of (m r) = Ret a \/
  exists e r1 t1, m r = (Throw e, r1, t1) /\ result_of (h e r1) = Ret a.
Proof.
  unfold try_catch. destruct (m r) as [[[x|c|e] r1] t1]; cbn; try discriminate.
  - intros E. left. exact E.
  - destruct (h e r1) as [[o r2] t2] eqn:K. cbn. intros ->. right.
    exists e, r1, t1. rewrite K. split; reflexivity.
Qed.

Lemma ret_Ret_inv {A} (a b : A) (r : R) : result_of (ret a r) = Ret b -> a = b.
Proof. cbn. intros E. injection E as E. exact E. Qed.

End Inversion.

Section Cursor.
Context {R : Type} `{Runtime R}.
Variable fs : Files.

(** The screen is printed or a render method throws; either way nothing
    is asked of the runtime. *)
Lemma showPortal_cases (st : Portal.portal) (r : R) :
  Portal.showPortal st r
  = (Ret tt, r, [Print Log (Screen (Portal.selectedIndex st))]) \/
  exists e, Portal.showPortal st r = (Throw e, r, []).
Proof.
  unfold Portal.showPortal.
  destruct (forallb Portal.listable (Portal.worlds st)); [|right; eexists; reflexivity].
  destruct (Portal.selected st) as [w|]; [|right; eexists; reflexivity].
  destruct (Portal.previewable w); [left | right; eexists]; reflexivity.
Qed.

Lemma selected_in_range (st : Portal.portal) :
  Portal.in_range st ->
  exists w, Portal.selected st = Some w /\ In w (Portal.worlds st).
Proof.
  unfold Portal.in_range, Portal.selected. intros [L U].
  destruct (Z.ltb_spec (Portal.selectedIndex st) 0); [lia|].
  destruct (nth_error (Portal.worlds st) (Z.to_nat (Portal.selectedIndex st)))
    as [w|] eqn:E.
  - exists w. split; [reflexivity | eapply nth_error_In; exact E].
  - apply nth_error_None in E. lia.
Qed.

Lemma showPortal_renders (st : Portal.portal) (r : R) :
  Portal.in_range st ->
  forallb Portal.listable (Portal.worlds st) = true ->
  forallb Portal.previewable (Portal.worlds st) = true ->
  Portal.showPortal st r
  = (Ret tt, r, [Print Log (Screen (Portal.selectedIndex st))]).
Proof.
  intros I L P. unfold Portal.showPortal. rewrite L.
  destruct (selected_in_range st I) as (w & -> & Hw).
  rewrite forallb_forall in P. rewrite (P w Hw). reflexivity.
Qed.

Lemma handleKey_cursor (k : Portal.key) (st : Portal.portal) :
  k = Portal.Up \/ k = Portal.Down ->
  Portal.handleKey fs k st
  = (Portal.showPortal (Portal.cursor k st) ;; ret (Portal.cursor k st)).
Proof. intros [->| ->]; reflexivity. Qed.

Lemma cursor_in_range (k : Portal.key) (st : Portal.portal) :
  Portal.in_range st -> Portal.in_range (Portal.cursor k st).
Proof.
  unfold Portal.in_range. destruct k; cbn [Portal.cursor Portal.worlds Portal.selectedIndex];
    lia.
Qed.

Lemma grows_refl (st : Portal.portal) : Portal.grows st st.
Proof. unfold Portal.grows. split; [reflexivity | exists []; rewrite app_nil_r; reflexivity]. Qed.

Lemma grows_in_range (st st' : Portal.portal) :
  Portal.grows st st' -> Portal.in_range st -> Portal.in_range st'.
Proof.
  unfold Portal.in_range, Portal.grows. intros [E [more M]] I. rewrite E, M, length_app. lia.
Qed.

Lemma loadWorlds_grows (st st' : Portal.portal) (r : R) :
  result_of (Portal.loadWorlds fs st r) = Ret st' ->
  Portal.grows st st' /\ Portal.worlds st' <> [].
Proof.
  destruct (readdir_dirs fs (cwd fs)) as [dirs|] eqn:E.
  - rewrite (loadWorlds_spec fs st r dirs E). cbv zeta. observe.
    destruct (length _ =? 0)%nat eqn:L; [discriminate|].
    cbn. intros X. injection X as <-. split.
    + split; [reflexivity | eexists; reflexivity].
    + cbn. intros Z. rewrite Z in L. discriminate.
  - unfold Portal.loadWorlds. unfold_console. step. rewrite E. discriminate.
Qed.

Lemma show_then_ret (st x st' : Portal.portal) (r : R) :
  result_of ((Portal.showPortal x ;; ret st) r) = Ret st' -> st = st'.
Proof.
  intros E. apply bind_Ret_inv in E as (a & r1 & t1 & _ & E).
  apply ret_Ret_inv in E. exact E.
Qed.

Lemma load_show_grows (st st' : Portal.portal) (r : R) :
  result_of ((s <- Portal.loadWorlds fs st ;; Portal.showPortal s ;; ret s) r)
  = Ret st' ->
  Portal.grows st st'.
Proof.
  intros E. apply bind_Ret_inv in E as (s & r1 & t1 & L & E).
  apply show_then_ret in E. subst s.
  apply (loadWorlds_grows st st' r). rewrite L. reflexivity.
Qed.

(** Every key that returns a state returns one whose list extends the
    old one, with the old index, unless it is a cursor move. *)
Lemma handleKey_grows (k : Portal.key) (st st' : Portal.portal) (r : R) :
  k <> Portal.Up -> k <> Portal.Down ->
  result_of (Portal.handleKey fs k st r) = Ret st' ->
  Portal.grows st st'.
Proof.
  intros NU ND E. destruct k; try contradiction; cbn [Portal.handleKey] in E.
  - (* return *)
    unfold Portal.launchWorld in E.
    apply bind_Ret_inv in E as (w & r1 & t1 & _ & E).
    unfold_console. rewrite bind_emit, result_pre in E.
    apply bind_Ret_inv in E as (c & r2 & t2 & _ & E).
    apply bind_Ret_inv in E as (x & r3 & t3 & _ & E).
    rewrite bind_emit, result_pre in E.
    apply load_show_grows in E. exact E.
  - (* s *)
    unfold Portal.stopWorld in E.
    apply bind_Ret_inv in E as (w & r1 & t1 & _ & E).
    destruct (negb (Portal.isRunning w)).
    + unfold_console. rewrite bind_emit, result_pre in E.
      apply show_then_ret in E. subst st'. apply grows_refl.
    + unfold_console. rewrite bind_emit, result_pre in E.
      apply try_catch_Ret_inv in E as [E|(e & r2 & t2 & _ & E)].
      * apply bind_Ret_inv in E as (o & r2 & t2 & _ & E).
        apply load_show_grows in E. exact E.
      * rewrite bind_emit, result_pre in E.
        apply show_then_ret in E. subst st'. apply grows_refl.
  - (* i *)
    unfold Portal.injectData in E.
    apply bind_Ret_inv in E as (w & r1 & t1 & _ & E).
    destruct (negb (Portal.isRunning w)); unfold_console;
      rewrite bind_emit, result_pre in E;
      apply show_then_ret in E; subst st'; apply grows_refl.
  - (* l *)
    unfold Portal.viewLogs in E.
    apply bind_Ret_inv in E as (w & r1 & t1 & _ & E).
    destruct (negb (Portal.isRunning w)); unfold_console;
      rewrite bind_emit, result_pre in E.
    + apply show_then_ret in E. subst st'. apply grows_refl.
    + apply try_catch_Ret_inv in E as [E|(e & r2 & t2 & _ & E)].
      * apply bind_Ret_inv in E as (o & r2 & t2 & _ & E).
        destruct (String.eqb (Text.trim o) EmptyString).
        -- apply ret_Ret_inv in E. subst st'. apply grows_refl.
        -- apply bind_Ret_inv in E as (c & r3 & t3 & _ & E).
           apply bind_Ret_inv in E as (x & r4 & t4 & _ & E).
           apply show_then_ret in E. subst st'. apply grows_refl.
      * rewrite bind_emit, result_pre in E.
        apply show_then_ret in E. subst st'. apply grows_refl.
  - (* r *) apply load_show_grows in E. exact E.
  - (* q *) unfold Portal.quit in E. unfold_console.
    rewrite bind_emit, result_pre in E. discriminate.
  - (* escape *) unfold Portal.quit in E. unfold_console.
    rewrite bind_emit, result_pre in E. discriminate.
  - apply ret_Ret_inv in E. subst st'. apply grows_refl.
  - apply ret_Ret_inv in E. subst st'. apply grows_refl.
Qed.

(** The return from the log stream shows the list as it was: nothing is
    scanned or probed again. *)
Lemma logs_return_keeps_list (st st' : Portal.portal) (r : R) :
  result_of (Portal.handleKey fs Portal.KeyL st r) = Ret st' -> st' = st.
Proof.
  cbn [Portal.handleKey]. unfold Portal.viewLogs. intros E.
  apply bind_Ret_inv in E as (w & r1 & t1 & _ & E).
  destruct (negb (Portal.isRunning w)); unfold_console;
    rewrite bind_emit, result_pre in E.
  - apply show_then_ret in E. symmetry. exact E.
  - apply try_catch_Ret_inv in E as [E|(e & r2 & t2 & _ & E)].
    + apply bind_Ret_inv in E as (o & r2 & t2 & _ & E).
      destruct (String.eqb (Text.trim o) EmptyString).
      * apply ret_Ret_inv in E. symmetry. exact E.
      * apply bind_Ret_inv in E as (c & r3 & t3 & _ & E).
        apply bind_Ret_inv in E as (x & r4 & t4 & _ & E).
        apply show_then_ret in E. symmetry. exact E.
    + rewrite bind_emit, result_pre in E.
      apply show_then_ret in E. symmetry. exact E.
Qed.

Lemma handleKey_in_range (k : Portal.key) (st st' : Portal.portal) (r : R) :
  Portal.in_range st ->
  result_of (Portal.handleKey fs k st r) = Ret st' ->
  Portal.in_range st'.
Proof.
  intros I E.
  assert (D : (k = Portal.Up \/ k = Portal.Down)
              \/ (k <> Portal.Up /\ k <> Portal.Down))
    by (destruct k; (left; auto; fail) || (right; split; discriminate)).
  destruct D as [D|[NU ND]].
  - rewrite (handleKey_cursor k st D) in E.
    apply show_then_ret in E. subst st'. apply cursor_in_range. exact I.
  - apply (grows_in_range st st'); [|exact I].
    apply (handleKey_grows k st st' r NU ND E).
Qed.

(** The invariant of the navigation loop: in every state a session
    reaches, [selectedIndex] is an index of [worlds]. *)
Lemma session_in_range (ks : list Portal.key) (st : Portal.portal) (r : R) :
  result_of (Portal.session fs ks r) = Ret st -> Portal.in_range st.
Proof.
  unfold Portal.session. intros E.
  apply bind_Ret_inv in E as (s0 & r0 & t0 & I & E).
  assert (I0 : Portal.in_range s0).
  { unfold Portal.init in I.
    assert (X : result_of ((s <- Portal.loadWorlds fs Portal.fresh ;;
                            Portal.showPortal s ;; ret s) r) = Ret s0)
      by (rewrite I; reflexivity).
    apply bind_Ret_inv in X as (s & r1 & t1 & L & X).
    apply show_then_ret in X. subst s.
    destruct (loadWorlds_grows Portal.fresh s0 r) as [[G _] NE];
      [rewrite L; reflexivity|].
    unfold Portal.in_range. rewrite G. cbn.
    destruct (Portal.worlds s0); [contradiction | cbn [length]; lia]. }
  clear I. revert s0 r0 I0 E.
  induction ks as [|k rest IH]; intros s0 r0 I0 E.
  - apply ret_Ret_inv in E. subst st. exact I0.
  - cbn [Portal.handleKeys] in E.
    apply bind_Ret_inv in E as (s1 & r1 & t1 & K & E).
    apply (IH s1 r1); [|exact E].
    apply (handleKey_in_range k s0 s1 r0 I0). rewrite K. reflexivity.
Qed.

End Cursor.

(** C10.  A cursor move in a state whose index is in range (so the list
    is not empty): the index assigned is in range again, the list is the
    same, the runtime is not touched (its state is the same and no
    command is issued), and the handler returns the new state whenever
    the screen renders; otherwise it ends in the TypeError of the
    render method.  The screen renders when every world can be listed
    (its name and description are strings, its type converts to text)
    and previewed (its name is not a key that the table of drawings
    inherits, its image and port convert, its tags are absent or an
    array of values that convert).  Up at index 0 stays at 0 and down at
    the last index stays there; with three worlds, from index 0, two
    moves down reach index 2 and a third stays at 2. *)
Theorem cursor_stays_in_range :
  forall (R : Type) (H : Runtime R) (fs : Files) (k : Portal.key)
         (st : Portal.portal) (r : R),
    k = Portal.Up \/ k = Portal.Down ->
    Portal.in_range st ->
    let last := (Z.of_nat (length (Portal.worlds st)) - 1)%Z in
    let st' := Portal.cursor k st in
    let run := Portal.handleKey fs k st r in
    (0 <= Portal.selectedIndex st' <= last)%Z /\
    Portal.worlds st' = Portal.worlds st /\
    (result_of run = Ret st' \/ exists e, result_of run = Throw e) /\
    (forallb Portal.listable (Portal.worlds st) = true ->
     forallb Portal.previewable (Portal.worlds st) = true ->
     result_of run = Ret st') /\
    state_of run = r /\
    commands (trace_of run) = [] /\
    (k = Portal.Up -> Portal.selectedIndex st = 0%Z -> Portal.selectedIndex st' = 0%Z) /\
    (k = Portal.Down -> Portal.selectedIndex st = last -> Portal.selectedIndex st' = last) /\
    (length (Portal.worlds st) = 3%nat -> Portal.selectedIndex st = 0%Z ->
     Portal.selectedIndex (Portal.cursor Portal.Down (Portal.cursor Portal.Down st)) = 2%Z /\
     Portal.selectedIndex
       (Portal.cursor Portal.Down
          (Portal.cursor Portal.Down (Portal.cursor Portal.Down st))) = 2%Z).
Proof.
  intros R H fs k st r K I last st' run.
  pose proof (cursor_in_range k st I) as I'. fold st' in I'.
  assert (W : Portal.worlds st' = Portal.worlds st)
    by (subst st'; destruct k; reflexivity).
  split; [unfold Portal.in_range in I'; rewrite W in I'; exact I'|].
  split; [exact W|].
  subst run. rewrite (handleKey_cursor fs k st K). fold st'.
  split; [|split; [|split; [|split]]].
  - destruct (showPortal_cases st' r) as [E|[e E]]; unfold bind; rewrite E;
      [left | right; exists e]; reflexivity.
  - intros L P. unfold bind.
    rewrite (showPortal_renders st' r I'); rewrite ?W; trivial.
  - destruct (showPortal_cases st' r) as [E|[e E]]; unfold bind; rewrite E; reflexivity.
  - destruct (showPortal_cases st' r) as [E|[e E]]; unfold bind; rewrite E; reflexivity.
  - unfold Portal.in_range in I. subst st' last.
    split; [intros -> E; cbn; lia|].
    split; [intros -> E; cbn; lia|].
    intros L E. cbn. rewrite L, E. split; reflexivity.
Qed.

(** A world named [constructor] is listed, and [renderPreview] throws
    when the cursor reaches it: the table of drawings gives a function
    for that key. *)
Example inherited_name_has_no_preview :
  (exists st, result_of (Portal.session More.heirs [] Sample.busy) = Ret st /\
              length (Portal.worlds st) = 2%nat /\
              forallb Portal.listable (Portal.worlds st) = true /\
              forallb Portal.previewable (Portal.worlds st) = false)
  /\
  result_of (Portal.session More.heirs [Portal.Down] Sample.busy)
  = Throw "TypeError in renderPreview".
Proof.
  split; [eexists; repeat split | reflexivity].
Qed.

(** The scenario of the specification, in a session: three worlds, the
    cursor at index 0 after [init]; two moves down, then a third. *)
Lemma cursor_stays_in_range_witness :
  (exists st, result_of (Portal.session Sample.three [Portal.Down; Portal.Down]
                           Sample.busy) = Ret st /\
              length (Portal.worlds st) = 3%nat /\
              Portal.selectedIndex st = 2%Z /\
              result_of (Portal.handleKey Sample.three Portal.Down st Sample.busy)
              = Ret st)
  /\
  state_of (Portal.handleKey Sample.three Portal.Down
              {| Portal.worlds := Portal.scanned Sample.three
                                    ["demo"; "live"; "shell"] Sample.busy;
                 Portal.selectedIndex := 0 |} Sample.busy) = Sample.busy.
Proof.
  split.
  - eexists. split; [reflexivity|]. split; [reflexivity|]. split; [reflexivity|].
    match goal with
    | |- result_of (Portal.handleKey _ _ ?s _) = _ =>
        pose proof (cursor_stays_in_range Sim.docker _ Sample.three Portal.Down
                      s Sample.busy) as W
    end.
    cbv zeta in W.
    destruct W as (_ & _ & _ & W & _).
    + right. reflexivity.
    + unfold Portal.in_range. cbn. lia.
    + apply W; reflexivity.
  - match goal with
    | |- state_of (Portal.handleKey _ _ ?s _) = _ =>
        pose proof (cursor_stays_in_range Sim.docker _ Sample.three Portal.Down
                      s Sample.busy) as W
    end.
    cbv zeta in W.
    destruct W as (_ & _ & _ & _ & W & _).
    + right. reflexivity.
    + unfold Portal.in_range. cbn. lia.
    + exact W.
Defined.

(* ================================================================== *)
(** * Further properties of the scripts *)
(* ================================================================== *)

(** ** Numbers as text and back *)

Section Decimal.

Ltac digit :=
  match goal with
  | |- context [Js.digit_of 10 ?c] =>
      let v := eval vm_compute in (Js.digit_of 10 c) in
      change (Js.digit_of 10 c) with v
  end; cbv iota beta.

Lemma digits_pos (d : Decimal.uint) (acc : positive) :
  Js.digits 10 (Some (Z.pos acc)) (NilEmpty.string_of_uint d)
  = Some (Z.pos (Pos.of_uint_acc d acc)).
Proof.
  revert acc.
  induction d; intros acc;
    cbn [NilEmpty.string_of_uint Pos.of_uint_acc Js.digits];
    [reflexivity|..]; digit;
    match goal with
    | |- Js.digits 10 (Some ?z) _ = Some (Z.pos (Pos.of_uint_acc _ ?p)) =>
        replace z with (Z.pos p) by lia; apply IHd
    end.
Qed.

Lemma digits_zero (d : Decimal.uint) :
  Js.digits 10 (Some 0%Z) (NilEmpty.string_of_uint d)
  = Some (Z.of_N (Pos.of_uint d)).
Proof.
  induction d; cbn [NilEmpty.string_of_uint Pos.of_uint Js.digits];
    [reflexivity|..]; digit; cbn [Z.of_N Z.mul Z.add];
    try exact IHd; apply digits_pos.
Qed.

Lemma digits_none (d : Decimal.uint) :
  d <> Decimal.Nil ->
  Js.digits 10 None (NilEmpty.string_of_uint d)
  = Some (Z.of_N (Pos.of_uint d)).
Proof.
  intros N. destruct d; [contradiction|..];
    cbn [NilEmpty.string_of_uint Pos.of_uint Js.digits]; digit;
    cbn [Z.of_N]; try apply digits_zero; apply digits_pos.
Qed.

Lemma unsigned_int_decimal (d : Decimal.uint) :
  Js.unsigned_int (NilEmpty.string_of_uint d)
  = Js.digits 10 None (NilEmpty.string_of_uint d).
Proof.
  destruct d; try reflexivity. destruct d; reflexivity.
Qed.

Lemma parseInt_text_decimal (d : Decimal.uint) :
  d <> Decimal.Nil ->
  Js.parseInt_text (NilEmpty.string_of_uint d)
  = Some (Z.of_N (Pos.of_uint d)).
Proof.
  intros N. rewrite <- (digits_none d N), <- unsigned_int_decimal.
  destruct d; [contradiction|..]; reflexivity.
Qed.

(** [parseInt] of an integer printed in decimal is the integer. *)
Lemma parseInt_of_Z (n : Z) : Js.parseInt_text (Text.of_Z n) = Some n.
Proof.
  unfold Text.of_Z. destruct n as [|p|p]; cbn [Z.to_int NilZero.string_of_int].
  - reflexivity.
  - unfold NilZero.string_of_uint.
    pose proof (DecimalPos.Unsigned.to_uint_nonnil p) as N.
    destruct (Pos.to_uint p) eqn:E; [contradiction|..]; rewrite <- E in *;
      rewrite (parseInt_text_decimal _ N), DecimalPos.Unsigned.of_to; reflexivity.
  - unfold NilZero.string_of_uint.
    pose proof (DecimalPos.Unsigned.to_uint_nonnil p) as N.
    assert (X : Js.parseInt_text
                  (String "-" (NilEmpty.string_of_uint (Pos.to_uint p)))
                = option_map Z.opp
                    (Js.unsigned_int
                       (NilEmpty.string_of_uint (Pos.to_uint p))))
      by reflexivity.
    destruct (Pos.to_uint p) eqn:E; [contradiction|..]; rewrite <- E in *;
      rewrite X, unsigned_int_decimal, (digits_none _ N),
        DecimalPos.Unsigned.of_to; reflexivity.
Qed.

End Decimal.

(* ================================================================== *)
(** ** Descriptors that cannot be read *)
(* ================================================================== *)

Section Unreadable.
Context {R : Type} `{Runtime R}.
Variable fs : Files.

Lemma parse_file_classified {B} (p : string) (k : json -> Proc R B) (r : R) :
  existsSync fs p = true ->
  bind (parse_file fs p) k r
  = match classify fs p with
    | Malformed err =>
        match read_json fs p with
        | inl _ => (Throw err, r, [])
        | inr _ => k JNull r
        end
    | WellFormed v => k v r
    | Missing => k JNull r
    end.
Proof.
  intros E. unfold classify, parse_file. rewrite E.
  destruct (read_json fs p) as [err|v].
  - apply bind_throw.
  - rewrite bind_ret. destruct v; reflexivity.
Qed.

Lemma launch_unreadable (args : list string) (r : R) :
  let p := path_join fs [path_resolve fs (WorldLaunch.inputDir args); "world.json"] in
  match classify fs p with
  | Missing => WorldLaunch.main fs args r = (Exit 1%Z, r, [Print Error (NoWorldJson p)])
  | Malformed err => WorldLaunch.main fs args r = (Throw err, r, [])
  | WellFormed _ => True
  end.
Proof.
  intros p. unfold WorldLaunch.main. cbv zeta. fold p.
  destruct (classify fs p) eqn:C; [| |exact I].
  - unfold classify in C. destruct (existsSync fs p) eqn:E.
    + destruct (read_json fs p) as [?|[]]; discriminate.
    + reflexivity.
  - destruct (existsSync fs p) eqn:E.
    + cbn [negb]. rewrite (parse_file_classified _ _ _ E), C.
      unfold classify in C. rewrite E in C.
      destruct (read_json fs p) as [e|v]; [reflexivity|].
      destruct v; try discriminate. injection C as <-. reflexivity.
    + unfold classify in C. rewrite E in C. discriminate.
Qed.

Lemma second_launcher_unreadable (args : list string) (r : R) :
  let p := path_join fs [path_resolve fs (WorldLaunch.inputDir args); "world.json"] in
  match classify fs p with
  | Missing => AltLaunch.main fs args r = (Exit 1%Z, r, [Print Error (NoWorldJson p)])
  | Malformed err => AltLaunch.main fs args r = (Throw err, r, [])
  | WellFormed _ => True
  end.
Proof.
  intros p. unfold AltLaunch.main. cbv zeta. fold p.
  destruct (classify fs p) eqn:C; [| |exact I].
  - unfold classify in C. destruct (existsSync fs p) eqn:E.
    + destruct (read_json fs p) as [?|[]]; discriminate.
    + reflexivity.
  - destruct (existsSync fs p) eqn:E.
    + cbn [negb]. rewrite (parse_file_classified _ _ _ E), C.
      unfold classify in C. rewrite E in C.
      destruct (read_json fs p) as [e|v]; [reflexivity|].
      destruct v; try discriminate. injection C as <-. reflexivity.
    + unfold classify in C. rewrite E in C. discriminate.
Qed.

Lemma stop_unreadable (args : list string) (r : R) :
  let p := WorldStop.configPath fs args in
  match classify fs p with
  | Missing => WorldStop.main fs args r = (Exit 1%Z, r, [Print Error (NoWorldJson p)])
  | Malformed err => WorldStop.main fs args r = (Throw err, r, [])
  | WellFormed _ => True
  end.
Proof.
  intros p. unfold WorldStop.main. fold p.
  destruct (classify fs p) eqn:C; [| |exact I].
  - unfold classify in C. destruct (existsSync fs p) eqn:E.
    + destruct (read_json fs p) as [?|[]]; discriminate.
    + reflexivity.
  - destruct (existsSync fs p) eqn:E.
    + cbn [negb]. rewrite (parse_file_classified _ _ _ E), C.
      unfold classify in C. rewrite E in C.
      destruct (read_json fs p) as [e|v]; [reflexivity|].
      destruct v; try discriminate. injection C as <-. reflexivity.
    + unfold classify in C. rewrite E in C. discriminate.
Qed.

End Unreadable.

(** X1.  A descriptor that cannot be read ends each of the three
    command-line scripts with exit status 1 before anything is handed
    to the container runtime.  When the file is missing the script says
    so on the error stream and exits; when the file does not parse, or
    parses to [null], the exception is not caught: the script prints
    nothing of its own and the state of the runtime is untouched. *)
Theorem unreadable_descriptor_is_fatal :
  forall (R : Type) (H : Runtime R) (fs : Files) (args : list string) (r : R),
    let launchPath :=
      path_join fs [path_resolve fs (WorldLaunch.inputDir args); "world.json"] in
    let stopPath := WorldStop.configPath fs args in
    (classify fs launchPath = Missing ->
     WorldLaunch.main fs args r
     = (Exit 1%Z, r, [Print Error (NoWorldJson launchPath)]) /\
     AltLaunch.main fs args r
     = (Exit 1%Z, r, [Print Error (NoWorldJson launchPath)]))
    /\
    (forall err, classify fs launchPath = Malformed err ->
     WorldLaunch.main fs args r = (Throw err, r, []) /\
     AltLaunch.main fs args r = (Throw err, r, []) /\
     exit_status (result_of (WorldLaunch.main fs args r)) = 1%Z)
    /\
    (classify fs stopPath = Missing ->
     WorldStop.main fs args r = (Exit 1%Z, r, [Print Error (NoWorldJson stopPath)]))
    /\
    (forall err, classify fs stopPath = Malformed err ->
     WorldStop.main fs args r = (Throw err, r, []) /\
     exit_status (result_of (WorldStop.main fs args r)) = 1%Z).
Proof.
  intros R H fs args r launchPath stopPath.
  pose proof (launch_unreadable fs args r) as L.
  pose proof (second_launcher_unreadable fs args r) as A.
  pose proof (stop_unreadable fs args r) as S.
  cbv zeta in L, A, S. fold launchPath in L, A. fold stopPath in S.
  split; [|split; [|split]].
  - intros C. rewrite C in L, A. split; assumption.
  - intros err C. rewrite C in L, A. rewrite L, A. repeat split.
  - intros C. rewrite C in S. exact S.
  - intros err C. rewrite C in S. rewrite S. split; reflexivity.
Qed.

(** A descriptor that does not parse, and a directory without one. *)
Lemma unreadable_descriptor_is_fatal_witness :
  WorldLaunch.main Sample.files ["broken"] Sample.busy
  = (Throw "Unexpected token } in JSON", Sample.busy, []) /\
  WorldStop.main Sample.files ["empty"] Sample.busy
  = (Exit 1%Z, Sample.busy, [Print Error (NoWorldJson "/w/empty/world.json")]).
Proof.
  destruct (unreadable_descriptor_is_fatal Sim.docker _ Sample.files ["broken"]
              Sample.busy) as (_ & A & _).
  destruct (unreadable_descriptor_is_fatal Sim.docker _ Sample.files ["empty"]
              Sample.busy) as (_ & _ & B & _).
  cbv zeta in A, B.
  split; [apply (A _ eq_refl) | apply (B eq_refl)].
Defined.

(* ================================================================== *)
(** ** The port of a launch *)
(* ================================================================== *)

Section Port.

Lemma decimal_free_of_equals (d : Decimal.uint) :
  Text.free_of "="%char (NilEmpty.string_of_uint d) = true.
Proof.
  unfold Text.free_of.
  induction d; cbn [NilEmpty.string_of_uint Text.all_chars]; [reflexivity|..];
    rewrite IHd; reflexivity.
Qed.

Lemma of_Z_free_of_equals (n : Z) :
  (0 <= n)%Z -> Text.free_of "="%char (Text.of_Z n) = true /\ Text.of_Z n <> EmptyString.
Proof.
  intros P. unfold Text.of_Z. destruct n as [|p|p]; [split; [reflexivity|discriminate]| |lia].
  cbn [Z.to_int NilZero.string_of_int]. unfold NilZero.string_of_uint.
  pose proof (Unsigned.to_uint_nonnil p) as N.
  destruct (Pos.to_uint p) eqn:E; [contradiction|..]; rewrite <- E;
    (split; [apply decimal_free_of_equals|]); rewrite E; discriminate.
Qed.

Lemma getArg_first (flag v : string) (rest : list string) :
  Text.free_of "="%char flag = true ->
  Text.free_of "="%char v = true ->
  WorldLaunch.getArg ((flag ++ "=" ++ v)%string :: rest) flag = Some (JStr v).
Proof.
  intros F V. unfold WorldLaunch.getArg. cbn [find].
  unfold Text.startsWith.
  replace (flag ++ "=" ++ v)%string with ((flag ++ "=") ++ v)%string
    by apply append_assoc.
  rewrite prefix_append.
  replace ((flag ++ "=") ++ v)%string with (flag ++ String "=" v)%string
    by (symmetry; apply append_assoc).
  rewrite (split_app _ _ _ F), (split_free _ _ V).
  destruct (String.eqb_spec (flag ++ String "=" v) EmptyString) as [E|_].
  - destruct flag; discriminate.
  - reflexivity.
Qed.

End Port.

(** X2.  The host port of a launch is [parseInt(portOverride ||
    world.port || 8080)].  A [--port=N] argument placed first wins over
    the descriptor, also for [N = 0], since its value is a non-empty
    string; without a usable override a descriptor port that is a
    non-zero integer is used as it is; and a descriptor port that is
    absent, [null], [0] or the empty string gives 8080. *)
Theorem launch_port_resolution :
  (forall (n : Z) (rest : list string) (port : jsval),
      (0 <= n)%Z -> safe_integer n ->
      WorldLaunch.launchPort
        (WorldLaunch.getArg (("--port=" ++ Text.of_Z n)%string :: rest) "--port") port
      = Some n)
  /\
  (forall (args : list string) (n : Z),
      Js.truthy (WorldLaunch.getArg args "--port") = false ->
      n <> 0%Z -> safe_integer n ->
      WorldLaunch.launchPort (WorldLaunch.getArg args "--port") (Some (JNum n))
      = Some n)
  /\
  (forall (args : list string) (port : jsval),
      Js.truthy (WorldLaunch.getArg args "--port") = false ->
      Js.truthy port = false ->
      WorldLaunch.launchPort (WorldLaunch.getArg args "--port") port = Some 8080%Z).
Proof.
  split; [|split].
  - intros n rest port P _.
    destruct (of_Z_free_of_equals n P) as [F N].
    change ("--port=" ++ Text.of_Z n)%string
      with ("--port" ++ "=" ++ Text.of_Z n)%string.
    rewrite (getArg_first "--port" _ rest eq_refl F).
    unfold WorldLaunch.launchPort, Js.or.
    assert (T : Js.truthy (Some (JStr (Text.of_Z n))) = true).
    { cbn. destruct (String.eqb_spec (Text.of_Z n) EmptyString); [contradiction|reflexivity]. }
    rewrite T. cbv iota. rewrite T.
    apply parseInt_of_Z.
  - intros args n F N _. unfold WorldLaunch.launchPort, Js.or. rewrite F.
    assert (T : Js.truthy (Some (JNum n)) = true).
    { cbn. destruct (Z.eqb_spec n 0); [contradiction|reflexivity]. }
    cbv iota. rewrite T. apply parseInt_of_Z.
  - intros args port F P. unfold WorldLaunch.launchPort, Js.or. rewrite F, P.
    reflexivity.
Qed.

(** A launch of [demo], whose descriptor names port 9000. *)
Lemma launch_port_resolution_witness :
  WorldLaunch.launchPort (WorldLaunch.getArg ["--port=0"; "demo"] "--port")
    (Js.field Sample.demo "port") = Some 0%Z
  /\
  WorldLaunch.launchPort (WorldLaunch.getArg ["demo"; "--port="] "--port")
    (Js.field Sample.demo "port") = Some 9000%Z
  /\
  WorldLaunch.launchPort (WorldLaunch.getArg ["live"] "--port")
    (Js.field Sample.live "port") = Some 8080%Z.
Proof.
  split; [|split].
  - apply (proj1 launch_port_resolution 0%Z ["demo"] _); [lia|unfold safe_integer; lia].
  - apply (proj1 (proj2 launch_port_resolution) ["demo"; "--port="] 9000%Z);
      [reflexivity|lia|unfold safe_integer; lia].
  - apply (proj2 (proj2 launch_port_resolution) ["live"]); reflexivity.
Defined.

(* ================================================================== *)
(** ** A launch that reaches the container run *)
(* ================================================================== *)

Section LaunchRun.
Context {R : Type} `{Runtime R}.
Variable fs : Files.

Lemma bind_ran {A B} (m : Proc R A) (k : A -> Proc R B) (r r1 : R) (a : A)
    (t1 : list event) :
  m r = (Ret a, r1, t1) -> bind m k r = pre t1 (k a r1).
Proof.
  intros E. unfold bind. rewrite E. reflexivity.
Qed.

Lemma ensureImage_quiet (image : jsval) (dir : string) (r r1 : R) (t1 : list event) :
  WorldLaunch.ensureImage fs image dir r = (Ret tt, r1, t1) ->
  diagnostics t1 = [] /\ filter is_browser t1 = [] /\ filter is_opener t1 = [] /\
  exists rest, commands t1 = ExecSync (WorldLaunch.inspect_command image) :: rest.
Proof.
  rewrite ensureImage_cases.
  destruct (exec_sync r _) as [[out|] r0].
  - intros [= <- <-]. repeat split. eexists; reflexivity.
  - destruct (existsSync fs _); [|discriminate].
    destruct (spawn_sync r0 _ _) as [[[|p|p]|] r2]; try discriminate.
    intros [= <- <-]. repeat split. eexists; reflexivity.
Qed.

(** The whole run of the script when the banner is printed and the
    image check passes. *)
Lemma launch_main_run (args : list string) (world : json) (r r1 : R)
    (t1 : list event) :
  WorldLaunch.descriptor fs args world ->
  WorldLaunch.presentable args world = true ->
  let type := Js.field world "type" in
  let image := Js.field world "image" in
  let dir := path_resolve fs (WorldLaunch.inputDir args) in
  let port := WorldLaunch.launchPort (WorldLaunch.getArg args "--port")
                (Js.field world "port") in
  let detached := WorldLaunch.effective_detached type
                    (WorldLaunch.detach_requested args) in
  WorldLaunch.ensureImage fs image dir r = (Ret tt, r1, t1) ->
  WorldLaunch.main fs args r
  = pre (WorldLaunch.banner fs args world ++ t1)
      (WorldLaunch.start fs world type image port dir detached r1).
Proof.
  intros Hd P type image dir port detached E.
  rewrite (launch_main_banner fs args world r Hd P).
  fold type image dir port detached.
  rewrite (bind_ran _ _ r r1 tt t1 E).
  rewrite !pre_pre. reflexivity.
Qed.

Lemma banner_sets_no_timer (args : list string) (world : json) :
  filter is_browser (WorldLaunch.banner fs args world) = [] /\
  filter is_opener (WorldLaunch.banner fs args world) = [].
Proof.
  unfold WorldLaunch.banner.
  destruct (Js.truthy (WorldLaunch.getArg args "--port"));
    destruct (Js.is_str (Js.field world "type") "cli");
    destruct (WorldLaunch.effective_detached _ _); split; reflexivity.
Qed.

(** Only [docker] runs a container. *)
Lemma is_run_docker (file : string) (args : list string) :
  String.eqb file "docker" = false -> is_run (Spawn file args) = false.
Proof.
  intros E. unfold is_run.
  repeat match goal with
         | |- context [match ?x with _ => _ end] => is_var x; destruct x
         end; try reflexivity; exact E.
Qed.

(** The opener is a command that is neither a container run nor a
    build. *)
Lemma opener_event (url : string) :
  let o := Spawn (fst (WorldLaunch.opener fs url)) (snd (WorldLaunch.opener fs url)) in
  is_opener o = true /\ is_run o = false /\ is_build o = false /\
  is_command o = true /\ is_diagnostic o = false /\ is_browser o = false.
Proof.
  cbv zeta. unfold WorldLaunch.opener.
  destruct (String.eqb (platform fs) "win32");
    [|destruct (String.eqb (platform fs) "darwin")]; cbn [fst snd];
    repeat split; apply is_run_docker; reflexivity.
Qed.

(** The arguments of a container run start with [run]. *)
Lemma dockerArgs_run (type vm image : jsval) (port : option Z) (dir : string)
    (detached : bool) (dockerArgs : list string) :
  WorldLaunch.dockerArgs type vm image port dir detached = Some dockerArgs ->
  exists rest, dockerArgs = "run" :: rest.
Proof.
  unfold WorldLaunch.dockerArgs.
  destruct (Js.is_str type "web"); [|destruct (Js.is_str type "cli")];
    [destruct (Js.truthy _)| |discriminate];
    destruct detached; intros D; injection D as <-; eexists; reflexivity.
Qed.

(** The trace of a launch that gets to the container run, piece by
    piece. *)
Lemma launch_trace (args : list string) (world : json) (r r1 : R)
    (t1 : list event) (dockerArgs : list string) :
  WorldLaunch.descriptor fs args world ->
  WorldLaunch.presentable args world = true ->
  let type := Js.field world "type" in
  let image := Js.field world "image" in
  let dir := path_resolve fs (WorldLaunch.inputDir args) in
  let port := WorldLaunch.launchPort (WorldLaunch.getArg args "--port")
                (Js.field world "port") in
  let detached := WorldLaunch.effective_detached type
                    (WorldLaunch.detach_requested args) in
  let url := ("http://localhost:" ++ Js.number_text port)%string in
  let web := Js.is_str type "web" in
  let opener := Spawn (fst (WorldLaunch.opener fs url))
                      (snd (WorldLaunch.opener fs url)) in
  let opened := spawn (snd (spawn r1 "docker" dockerArgs))
                  (fst (WorldLaunch.opener fs url))
                  (snd (WorldLaunch.opener fs url)) in
  let said code := Print Log (if detached
                              then DetachedRunning (Js.number_text port)
                              else DockerExited code) in
  WorldLaunch.ensureImage fs image dir r = (Ret tt, r1, t1) ->
  WorldLaunch.dockerArgs type (Js.field world "volumeMount") image port dir detached
  = Some dockerArgs ->
  exists t0 : list event,
    commands t0 = commands t1 /\ diagnostics t0 = [] /\ runs t0 = [] /\
    builds t0 = builds t1 /\
    filter is_browser t0 = [] /\ filter is_opener t0 = [] /\
    incl t1 t0 /\
    WorldLaunch.main fs args r
    = match fst (spawn r1 "docker" dockerArgs) with
      | ChildError =>
          (Throw "Unhandled 'error' event", snd (spawn r1 "docker" dockerArgs),
           t0 ++ [Spawn "docker" dockerArgs]
              ++ (if web then [Print Log (OpeningBrowser url); BrowserTimer url]
                  else []))
      | ChildExit code =>
          if web then
            (match fst opened with
             | ChildExit _ => Ret tt
             | ChildError => Throw "Unhandled 'error' event"
             end,
             snd opened,
             t0 ++ [Spawn "docker" dockerArgs;
                    Print Log (OpeningBrowser url); BrowserTimer url]
                ++ (if outlives_timer r1 "docker" dockerArgs
                    then opener :: match fst opened with
                                   | ChildExit _ => [said code]
                                   | ChildError => []
                                   end
                    else [said code; opener]))
          else
            (Ret tt, snd (spawn r1 "docker" dockerArgs),
             t0 ++ [Spawn "docker" dockerArgs; said code])
      end.
Proof.
  intros Hd P type image dir port detached url web opener opened said E D.
  rewrite (launch_main_run args world r r1 t1 Hd P E).
  fold type image dir port detached.
  assert (N : world <> JNull) by apply Hd.
  rewrite (start_steps fs world type image port dir detached r1 dockerArgs N D).
  fold url web. cbv zeta.
  destruct (banner_silent fs args world) as (Bc & Bd & Br & Bb).
  destruct (banner_sets_no_timer args world) as (Bt & Bo).
  destruct (ensureImage_quiet image dir r r1 t1 E) as (Qd & Qb & Qo & _).
  pose proof (ensureImage_no_run fs image dir r) as Qr. rewrite E in Qr.
  cbn [trace_of snd] in Qr.
  exists ((WorldLaunch.banner fs args world ++ t1)
          ++ (if web && Js.truthy (Js.field world "volumeMount")
              then [Print Log (MountingVolume dir)] else [])
          ++ [Print Log (CommandLine dockerArgs)]).
  unfold commands, diagnostics, runs, builds in *.
  rewrite !filter_app, Bc, Bd, Br, Bb, Bt, Bo, Qd, Qb, Qo, Qr.
  split; [destruct (web && _); cbn; rewrite app_nil_r; reflexivity|].
  split; [destruct (web && _); reflexivity|].
  split; [destruct (web && _); reflexivity|].
  split; [destruct (web && _); cbn; rewrite app_nil_r; reflexivity|].
  split; [destruct (web && _); reflexivity|].
  split; [destruct (web && _); reflexivity|].
  split; [intros e He; apply in_or_app; left; apply in_or_app; right; exact He|].
  fold opened. fold opener.
  destruct (spawn r1 "docker" dockerArgs) as [[code|] r2]; cbn [fst snd] in *.
  - destruct web eqn:W.
    + subst opened. cbn [fst snd].
      destruct (spawn r2 (fst (WorldLaunch.opener fs url))
                  (snd (WorldLaunch.opener fs url))) as [[c|] r3];
        cbn [fst snd pre];
        destruct (outlives_timer r1 "docker" dockerArgs);
        rewrite <- !app_assoc; reflexivity.
    + cbn [pre]. rewrite <- !app_assoc. reflexivity.
  - cbn [pre]. rewrite <- !app_assoc.
    destruct web; rewrite ?app_nil_r; reflexivity.
Qed.

End LaunchRun.

(** X3.  A launch whose name, image, type, entry and port convert to
    text, whose numbers are exact, whose image check passes and whose
    type is known starts the container exactly once, after the image
    check, with the arguments built, and prints no diagnostic.  A cli
    world has no other command: when the container ends, the script
    prints its last line and ends with status 0; the code the container
    exited with is printed but never becomes the exit status of the
    launcher.  A web world sets the browser timer once, for the host
    port of the [-p] option; when the timer fires, the opener of the
    platform ([xdg-open], [open] or [cmd /c start]) is spawned with the
    address, before the last line when the container outlives the
    timer and after it otherwise.  An opener that cannot be started is
    an unhandled [error] event: the launcher ends with status 1, and
    the last line is lost when the container was still running.  A
    container run that cannot be started at all is such an event too,
    and then no opener is spawned. *)
Theorem launch_reaches_the_run :
  forall (R : Type) (H : Runtime R) (fs : Files) (args : list string)
         (world : json) (r r1 : R) (t1 : list event) (dockerArgs : list string),
    WorldLaunch.descriptor fs args world ->
    WorldLaunch.presentable args world = true ->
    WorldLaunch.exact args world = true ->
    let type := Js.field world "type" in
    let image := Js.field world "image" in
    let dir := path_resolve fs (WorldLaunch.inputDir args) in
    let port := WorldLaunch.launchPort (WorldLaunch.getArg args "--port")
                  (Js.field world "port") in
    let detached := WorldLaunch.effective_detached type
                      (WorldLaunch.detach_requested args) in
    let url := ("http://localhost:" ++ Js.number_text port)%string in
    WorldLaunch.ensureImage fs image dir r = (Ret tt, r1, t1) ->
    WorldLaunch.dockerArgs type (Js.field world "volumeMount") image port dir detached
    = Some dockerArgs ->
    let run := WorldLaunch.main fs args r in
    let container := Spawn "docker" dockerArgs in
    let opener := Spawn (fst (WorldLaunch.opener fs url))
                        (snd (WorldLaunch.opener fs url)) in
    let r2 := snd (spawn r1 "docker" dockerArgs) in
    let opened := spawn r2 (fst (WorldLaunch.opener fs url))
                    (snd (WorldLaunch.opener fs url)) in
    let said code := Print Log (if detached
                                then DetachedRunning (Js.number_text port)
                                else DockerExited code) in
    runs (trace_of run) = [container] /\
    diagnostics (trace_of run) = [] /\
    (Js.is_str type "web" = true ->
     filter is_browser (trace_of run) = [BrowserTimer url] /\
     In (Js.number_text port ++ ":80")%string dockerArgs) /\
    (Js.is_str type "web" = false ->
     filter is_browser (trace_of run) = [] /\
     filter is_opener (trace_of run) = [] /\
     commands (trace_of run) = commands t1 ++ [container] /\
     state_of run = r2 /\
     forall code, fst (spawn r1 "docker" dockerArgs) = ChildExit code ->
       result_of run = Ret tt /\
       exit_status (result_of run) = 0%Z /\
       exists t, trace_of run = t ++ [said code]) /\
    (fst (spawn r1 "docker" dockerArgs) = ChildError ->
     result_of run = Throw "Unhandled 'error' event" /\
     exit_status (result_of run) = 1%Z /\
     commands (trace_of run) = commands t1 ++ [container] /\
     filter is_opener (trace_of run) = [] /\
     state_of run = r2) /\
    (Js.is_str type "web" = true ->
     forall code, fst (spawn r1 "docker" dockerArgs) = ChildExit code ->
       commands (trace_of run) = commands t1 ++ [container; opener] /\
       filter is_opener (trace_of run) = [opener] /\
       state_of run = snd opened /\
       (exists t,
           trace_of run
           = t ++ BrowserTimer url
                  :: (if outlives_timer r1 "docker" dockerArgs
                      then opener :: match fst opened with
                                     | ChildExit _ => [said code]
                                     | ChildError => []
                                     end
                      else [said code; opener])) /\
       (forall c, fst opened = ChildExit c ->
          result_of run = Ret tt /\ exit_status (result_of run) = 0%Z) /\
       (fst opened = ChildError ->
          result_of run = Throw "Unhandled 'error' event" /\
          exit_status (result_of run) = 1%Z)).
Proof.
  intros R H fs args world r r1 t1 da Hd P X type image dir port detached url E D
         run container opener r2 opened said.
  destruct (launch_trace fs args world r r1 t1 da Hd P E D)
    as (t0 & Tc & Td & Tr & _ & Tb & To & _ & M).
  fold type image dir port detached url in M. cbv zeta in M.
  fold opener r2 in M. fold opened in M.
  destruct (dockerArgs_run _ _ _ _ _ _ _ D) as [rest HD].
  destruct (opener_event fs url) as (Oo & Or & _ & Oc & Od & Ob).
  cbv zeta in Oo, Or, Oc, Od, Ob. fold opener in Oo, Or, Oc, Od, Ob.
  assert (Cr : is_run container = true) by (subst container; rewrite HD; reflexivity).
  assert (Cc : is_command container = true) by reflexivity.
  assert (Cd : is_diagnostic container = false) by reflexivity.
  assert (Cb : is_browser container = false) by reflexivity.
  assert (Co : is_opener container = false) by reflexivity.
  assert (PORT : Js.is_str type "web" = true ->
                 In (Js.number_text port ++ ":80")%string da).
  { intros W. unfold WorldLaunch.dockerArgs in D. rewrite W in D.
    destruct (Js.truthy _), detached; injection D as <-; cbn; auto. }
  fold container in M.
  subst run. rewrite M. clear M.
  unfold commands, diagnostics, runs in *.
  subst said. cbv beta.
  clearbody container opener.
  destruct (spawn r1 "docker" da) as [[code|] r2'] eqn:S; cbn [fst snd] in *;
    subst r2;
    destruct (Js.is_str type "web") eqn:W;
    try (destruct opened as [[c|] r3] eqn:O; cbn [fst snd]);
    try (destruct (outlives_timer r1 "docker" da));
    cbn [result_of state_of trace_of fst snd exit_status];
    repeat (progress (rewrite ?filter_app;
                      cbn [filter app is_browser is_command is_run
                           is_diagnostic is_opener];
                      rewrite ?Tc, ?Td, ?Tr, ?Tb, ?To, ?Cr, ?Cc, ?Cd, ?Cb, ?Co,
                        ?Oo, ?Or, ?Oc, ?Od, ?Ob));
    (split; [reflexivity|]); (split; [reflexivity|]);
    (split; [intros Y;
             first [discriminate Y
                   | split; [reflexivity | apply PORT; reflexivity]]|]);
    (split; [intros Y;
             first [discriminate Y
                   | do 4 (split; [reflexivity|]);
                     intros k K;
                     first [discriminate K
                           | injection K as <-;
                             split; [reflexivity|]; split; [reflexivity|];
                             exists (t0 ++ [container]);
                             rewrite <- app_assoc; reflexivity]]|]);
    (split; [intros Y; first [discriminate Y | repeat split]|]);
    intros Y; first [discriminate Y | idtac];
    intros k K; first [discriminate K | idtac]; injection K as <-;
    (split; [reflexivity|]); (split; [reflexivity|]); (split; [reflexivity|]);
    (split; [exists (t0 ++ [container; Print Log (OpeningBrowser url)]);
             rewrite <- app_assoc; reflexivity|]);
    (split; [intros k K; first [discriminate K | split; reflexivity]|]);
    intros K; first [discriminate K | split; reflexivity].
Qed.

(** A cli world whose image is present; a web world launched on another
    port, whose container is still running when the browser opens; the
    same on a machine where nothing opens a link, detached: the last
    line is printed and the launcher dies all the same; and on a Mac
    without [open], attached: the launcher dies before the last
    line. *)
Lemma launch_reaches_the_run_witness :
  (result_of (WorldLaunch.main Sample.files ["shell"; "-d"] Sample.busy) = Ret tt /\
   commands (trace_of (WorldLaunch.main Sample.files ["shell"; "-d"] Sample.busy))
   = [ExecSync "docker image inspect x/shell";
      Spawn "docker" ["run"; "--rm"; "-it"; "x/shell"]] /\
   filter is_browser
     (trace_of (WorldLaunch.main Sample.files ["shell"; "-d"] Sample.busy)) = [])
  /\
  (filter is_browser
     (trace_of (WorldLaunch.main Sample.files ["demo"; "--port=3000"] Sample.busy))
   = [BrowserTimer "http://localhost:3000"] /\
   commands (trace_of (WorldLaunch.main Sample.files ["demo"; "--port=3000"] Sample.busy))
   = [ExecSync "docker image inspect x/demo";
      Spawn "docker" ["run"; "--rm"; "-p"; "3000:80"; "x/demo"];
      Spawn "xdg-open" ["http://localhost:3000"]] /\
   result_of (WorldLaunch.main Sample.files ["demo"; "--port=3000"] Sample.busy)
   = Ret tt)
  /\
  (exit_status
     (result_of (WorldLaunch.main Sample.files ["demo"; "-d"] More.headless)) = 1%Z /\
   In (Print Log (DetachedRunning "9000"))
      (trace_of (WorldLaunch.main Sample.files ["demo"; "-d"] More.headless)))
  /\
  (exit_status (result_of (WorldLaunch.main More.mac ["demo"] Sample.busy)) = 1%Z /\
   commands (trace_of (WorldLaunch.main More.mac ["demo"] Sample.busy))
   = [ExecSync "docker image inspect x/demo";
      Spawn "docker" ["run"; "--rm"; "-p"; "9000:80"; "x/demo"];
      Spawn "open" ["http://localhost:9000"]] /\
   (In (Print Log (DockerExited (Some 0%Z)))
       (trace_of (WorldLaunch.main More.mac ["demo"] Sample.busy)) -> False)).
Proof.
  split; [|split; [|split]].
  - pose proof (launch_reaches_the_run Sim.docker _ Sample.files ["shell"; "-d"]
                  Sample.shell Sample.busy Sample.busy
                  [ExecSync "docker image inspect x/shell"]
                  ["run"; "--rm"; "-it"; "x/shell"]) as W.
    cbv zeta in W.
    destruct W as (_ & _ & _ & W & _).
    + repeat split. discriminate.
    + reflexivity.
    + reflexivity.
    + reflexivity.
    + reflexivity.
    + destruct W as (B & _ & C & _ & X); [reflexivity|].
      destruct (X (Some 0%Z) eq_refl) as (Y & _).
      split; [exact Y|]. split; [exact C | exact B].
  - pose proof (launch_reaches_the_run Sim.docker _ Sample.files
                  ["demo"; "--port=3000"]
                  Sample.demo Sample.busy Sample.busy
                  [ExecSync "docker image inspect x/demo"]
                  ["run"; "--rm"; "-p"; "3000:80"; "x/demo"]) as W.
    cbv zeta in W.
    destruct W as (_ & _ & B & _ & _ & W).
    + repeat split. discriminate.
    + reflexivity.
    + reflexivity.
    + reflexivity.
    + reflexivity.
    + destruct B as (B & _); [reflexivity|].
      destruct (W eq_refl (Some 0%Z) eq_refl) as (C & _ & _ & _ & Y & _).
      split; [exact B|]. split; [exact C|]. apply (Y (Some 0%Z)). reflexivity.
  - pose proof (launch_reaches_the_run Sim.docker _ Sample.files ["demo"; "-d"]
                  Sample.demo More.headless More.headless
                  [ExecSync "docker image inspect x/demo"]
                  ["run"; "--rm"; "-p"; "9000:80"; "-d"; "x/demo"]) as W.
    cbv zeta in W.
    destruct W as (_ & _ & _ & _ & _ & W).
    + repeat split. discriminate.
    + reflexivity.
    + reflexivity.
    + reflexivity.
    + reflexivity.
    + destruct (W eq_refl (Some 0%Z) eq_refl) as (_ & _ & _ & (t & T) & _ & Y).
      split; [apply Y; reflexivity|].
      rewrite T. apply in_or_app. right. right. left. reflexivity.
  - pose proof (launch_reaches_the_run Sim.docker _ More.mac ["demo"]
                  Sample.demo Sample.busy Sample.busy
                  [ExecSync "docker image inspect x/demo"]
                  ["run"; "--rm"; "-p"; "9000:80"; "x/demo"]) as W.
    cbv zeta in W.
    destruct W as (_ & _ & _ & _ & _ & W).
    + repeat split. discriminate.
    + reflexivity.
    + reflexivity.
    + reflexivity.
    + reflexivity.
    + destruct (W eq_refl (Some 0%Z) eq_refl) as (C & _ & _ & _ & _ & Y).
      split; [apply Y; reflexivity|]. split; [exact C|].
      cbn. intros I. repeat (destruct I as [I|I]; [discriminate I|]). exact I.
Defined.

(** X4.  When the name, image, type, entry and port convert to text,
    the image is absent, the Dockerfile is there and the build ends with
    status 0, the launcher goes on: it hands the runtime the inspection,
    the build and the container run, in this order, and the container
    is started in the state the build left behind.  For a cli world,
    and when the container run cannot be started, these are all the
    commands; for a web world whose container run was started, the
    opener of the browser follows as the fourth and last, in the state
    the container run left behind. *)
Theorem launch_builds_then_runs :
  forall (R : Type) (H : Runtime R) (fs : Files) (args : list string)
         (world : json) (r r1 r2 : R) (dockerArgs : list string),
    WorldLaunch.descriptor fs args world ->
    WorldLaunch.presentable args world = true ->
    WorldLaunch.exact args world = true ->
    let type := Js.field world "type" in
    let image := Js.field world "image" in
    let dir := path_resolve fs (WorldLaunch.inputDir args) in
    let port := WorldLaunch.launchPort (WorldLaunch.getArg args "--port")
                  (Js.field world "port") in
    let detached := WorldLaunch.effective_detached type
                      (WorldLaunch.detach_requested args) in
    let url := ("http://localhost:" ++ Js.number_text port)%string in
    let inspect := ExecSync (WorldLaunch.inspect_command image) in
    let build := SpawnSync "docker" (WorldLaunch.build_args image dir) in
    exec_sync r (WorldLaunch.inspect_command image) = (None, r1) ->
    existsSync fs (path_join fs [dir; "Dockerfile"]) = true ->
    spawn_sync r1 "docker" (WorldLaunch.build_args image dir) = (Some 0%Z, r2) ->
    WorldLaunch.dockerArgs type (Js.field world "volumeMount") image port dir detached
    = Some dockerArgs ->
    let run := WorldLaunch.main fs args r in
    let container := Spawn "docker" dockerArgs in
    let opener := Spawn (fst (WorldLaunch.opener fs url))
                        (snd (WorldLaunch.opener fs url)) in
    let r3 := snd (spawn r2 "docker" dockerArgs) in
    builds (trace_of run) = [build] /\
    runs (trace_of run) = [container] /\
    In (Print Log Building) (trace_of run) /\
    (exists rest,
        commands (trace_of run) = inspect :: build :: container :: rest /\
        (rest = [] \/ rest = [opener])) /\
    (Js.is_str type "web" = false ->
     commands (trace_of run) = [inspect; build; container] /\
     state_of run = r3) /\
    (fst (spawn r2 "docker" dockerArgs) = ChildError ->
     commands (trace_of run) = [inspect; build; container] /\
     state_of run = r3) /\
    (Js.is_str type "web" = true ->
     forall code, fst (spawn r2 "docker" dockerArgs) = ChildExit code ->
       commands (trace_of run) = [inspect; build; container; opener] /\
       state_of run
       = snd (spawn r3 (fst (WorldLaunch.opener fs url))
                (snd (WorldLaunch.opener fs url)))).
Proof.
  intros R H fs args world r r1 r2 da Hd P X type image dir port detached url
         inspect build I F B D run container opener r3.
  assert (E : WorldLaunch.ensureImage fs image dir r
              = (Ret tt, r2, [inspect; Print Log Building; build])).
  { rewrite ensureImage_cases, I, F, B. reflexivity. }
  destruct (launch_trace fs args world r r2 _ da Hd P E D)
    as (t0 & Tc & _ & Tr & Tb & _ & _ & Ti & M).
  fold type image dir port detached url in M. cbv zeta in M.
  fold opener r3 container in M.
  assert (Tl : In (Print Log Building) t0)
    by (apply Ti; right; left; reflexivity).
  change (commands [inspect; Print Log Building; build]) with [inspect; build] in Tc.
  change (builds [inspect; Print Log Building; build]) with [build] in Tb.
  destruct (dockerArgs_run _ _ _ _ _ _ _ D) as [rest HD].
  destruct (opener_event fs url) as (_ & Or & Ob & Oc & _ & _).
  cbv zeta in Or, Ob, Oc. fold opener in Or, Ob, Oc.
  assert (Cr : is_run container = true) by (subst container; rewrite HD; reflexivity).
  assert (Cc : is_command container = true) by reflexivity.
  assert (Cb : is_build container = false) by reflexivity.
  subst run. rewrite M. clear M.
  unfold commands, builds, runs in *.
  clearbody container opener.
  destruct (spawn r2 "docker" da) as [[code|] r3'] eqn:S; cbn [fst snd] in *;
    subst r3;
    destruct (Js.is_str type "web") eqn:W;
    try (destruct (spawn r3' (fst (WorldLaunch.opener fs url))
                     (snd (WorldLaunch.opener fs url))) as [[c|] r4] eqn:O;
         cbn [fst snd]);
    try (destruct (outlives_timer r2 "docker" da));
    cbn [result_of state_of trace_of fst snd];
    repeat (progress (rewrite ?filter_app;
                      cbn [filter app is_command is_run is_build];
                      rewrite ?Tc, ?Tr, ?Tb, ?Cr, ?Cc, ?Cb, ?Or, ?Ob, ?Oc));
    (split; [reflexivity|]); (split; [reflexivity|]);
    (split; [apply in_or_app; left; exact Tl|]);
    (split; [eexists; split; [reflexivity|]; first [left; reflexivity | right; reflexivity]|]);
    (split; [intros Y; first [discriminate Y | split; reflexivity]|]);
    (split; [intros Y; first [discriminate Y | split; reflexivity]|]);
    intros Y; first [discriminate Y | idtac];
    intros k K; first [discriminate K | split; reflexivity].
Qed.

(** [live] has a Dockerfile and no image yet. *)
Lemma launch_builds_then_runs_witness :
  commands (trace_of (WorldLaunch.main Sample.files ["live"] Sample.builder))
  = [ExecSync "docker image inspect x/live";
     SpawnSync "docker" ["build"; "-t"; "x/live"; "/w/live"];
     Spawn "docker" ["run"; "--rm"; "-p"; "8080:80"; "-v"; "/w/live:/app"; "x/live"];
     Spawn "xdg-open" ["http://localhost:8080"]]
  /\
  Sim.images (state_of (WorldLaunch.main Sample.files ["live"] Sample.builder))
  = ["x/live"].
Proof.
  pose proof (launch_builds_then_runs Sim.docker _ Sample.files ["live"]
                Sample.live Sample.builder Sample.builder
                (snd (Sim.run_sync Sample.builder "docker"
                        ["build"; "-t"; "x/live"; "/w/live"]))
                ["run"; "--rm"; "-p"; "8080:80"; "-v"; "/w/live:/app"; "x/live"]) as W.
  cbv zeta in W.
  destruct W as (_ & _ & _ & _ & _ & _ & W).
  - repeat split. discriminate.
  - reflexivity.
  - reflexivity.
  - reflexivity.
  - reflexivity.
  - reflexivity.
  - reflexivity.
  - destruct (W eq_refl (Some 0%Z) eq_refl) as (C & S).
    split; [exact C|]. rewrite S. reflexivity.
Defined.

(* ================================================================== *)
(** ** The second launcher to its end *)
(* ================================================================== *)

Section SecondLauncher.
Context {R : Type} `{Runtime R}.
Variable fs : Files.

(** The image check of the second launcher sets no timer and opens no
    browser. *)
Lemma second_ensureImage_quiet (image : jsval) (dir : string) (r r1 : R)
    (t1 : list event) :
  AltLaunch.ensureImage fs image dir r = (Ret tt, r1, t1) ->
  filter is_browser t1 = [] /\ filter is_opener t1 = [].
Proof.
  unfold AltLaunch.ensureImage, try_catch. rewrite bind_execSync.
  destruct (exec_sync r _) as [[out|] r0]; cbn [pre app].
  - intros [= <- <-]. split; reflexivity.
  - unfold_console. step.
    destruct (existsSync fs _).
    + step. rewrite bind_spawnSync.
      destruct (spawn_sync r0 _ _) as [[[|p|p]|] r2]; cbn [fst snd];
        try step; cbn [pre app]; try discriminate.
      intros [= <- <-]. split; reflexivity.
    + step. discriminate.
Qed.

(** The last line of the second launcher. *)
Lemma second_launcher_run (args : list string) (world : json) (r r1 : R)
    (t1 : list event) (dockerArgs : list string) :
  WorldLaunch.descriptor fs args world ->
  AltLaunch.presentable args world = true ->
  let type := Js.field world "type" in
  let image := Js.field world "image" in
  let dir := path_resolve fs (WorldLaunch.inputDir args) in
  let port := WorldLaunch.launchPort (AltLaunch.portOverride args)
                (Js.field world "port") in
  let detached := WorldLaunch.detach_requested args in
  AltLaunch.ensureImage fs image dir r = (Ret tt, r1, t1) ->
  AltLaunch.dockerArgs type image port detached = Some dockerArgs ->
  exists t0,
    commands t0 = [] /\ diagnostics t0 = [] /\ filter is_browser t0 = [] /\
    filter is_opener t0 = [] /\
    AltLaunch.main fs args r
    = (Ret tt, snd (spawn_sync r1 "docker" dockerArgs),
       t0 ++ t1
          ++ [Print Log (CommandLine dockerArgs); SpawnSync "docker" dockerArgs;
              match fst (spawn_sync r1 "docker" dockerArgs) with
              | Some 0%Z =>
                  Print Log (if detached then DetachedRunning (Js.number_text port)
                             else ExitedSuccessfully)
              | status =>
                  if detached then Print Log (DetachedRunning (Js.number_text port))
                  else Print Warn (ExitedWithWarning status)
              end]).
Proof.
  intros (Hex & Hrd & N) P type image dir port detached E D.
  unfold AltLaunch.presentable, AltLaunch.interpolated in P.
  cbn [forallb] in P.
  apply andb_true_iff in P as [P1 P]. apply andb_true_iff in P as [P2 P].
  apply andb_true_iff in P as [P3 P]. apply andb_true_iff in P as [P4 P].
  apply andb_true_iff in P as [P5 _].
  unfold AltLaunch.main. cbv zeta. rewrite Hex. cbn [negb].
  unfold parse_file. rewrite Hrd. step.
  rewrite !(get_field world _ N). unfold_console.
  repeat step. rewrite bind_template, P1.
  repeat step. rewrite bind_template, P2.
  repeat step. rewrite bind_template, P3.
  repeat step. rewrite bind_template, P4.
  repeat step. rewrite bind_template, P5.
  repeat step.
  fold type image dir port detached.
  exists ([Print Log (Launching (Js.text (Js.field world "name")) dir);
           Print Log (ImageLine (Js.text image));
           Print Log (TypeLine (Js.text type));
           Print Log (EntryLine (Js.text (Js.field world "entry")))]
          ++ (if Js.truthy (AltLaunch.portOverride args)
              then [Print Log (PortOverride (Js.number_text port))] else [])
          ++ (if detached then [Print Log DetachedMode] else [])
          ++ [Print Log BlankLine]).
  split; [|split; [|split; [|split]]];
    try (destruct (Js.truthy (AltLaunch.portOverride args)), detached; reflexivity).
  destruct (Js.truthy (AltLaunch.portOverride args)); destruct detached eqn:Det;
    repeat step; rewrite (bind_ran _ _ _ r1 tt t1 E), D; repeat step;
    destruct (spawn_sync r1 "docker" dockerArgs) as [[[|p|p]|] r2];
    cbn [fst snd negb]; repeat step;
    cbn [pre app]; rewrite ?app_nil_r, <- ?app_assoc; reflexivity.
Qed.

End SecondLauncher.

(** X5.  When the name, image, type, entry and port of the descriptor
    convert to text and its numbers are exact, so that the banner is
    printed, and the image check passes, the second launcher waits for
    [docker run] and comes to its end with exit status 0, whatever
    status the run returned.  A status other than 0 is a warning when
    the run was attached; with [--detach] it is not reported at all: the
    world is announced as running on its port.  No browser is opened by
    this script: no timer is set and no opener spawned. *)
Theorem second_launcher_reports_the_run :
  forall (R : Type) (H : Runtime R) (fs : Files) (args : list string)
         (world : json) (r r1 : R) (t1 : list event) (dockerArgs : list string),
    WorldLaunch.descriptor fs args world ->
    AltLaunch.presentable args world = true ->
    Js.exact_json world = true ->
    Js.exact_number (WorldLaunch.launchPort (AltLaunch.portOverride args)
                       (Js.field world "port")) = true ->
    let type := Js.field world "type" in
    let image := Js.field world "image" in
    let dir := path_resolve fs (WorldLaunch.inputDir args) in
    let port := WorldLaunch.launchPort (AltLaunch.portOverride args)
                  (Js.field world "port") in
    let detached := WorldLaunch.detach_requested args in
    AltLaunch.ensureImage fs image dir r = (Ret tt, r1, t1) ->
    AltLaunch.dockerArgs type image port detached = Some dockerArgs ->
    let status := fst (spawn_sync r1 "docker" dockerArgs) in
    let run := AltLaunch.main fs args r in
    result_of run = Ret tt /\
    exit_status (result_of run) = 0%Z /\
    commands (trace_of run) = commands t1 ++ [SpawnSync "docker" dockerArgs] /\
    filter is_browser (trace_of run) = [] /\
    filter is_opener (trace_of run) = [] /\
    (status <> Some 0%Z -> detached = false ->
     diagnostics (trace_of run)
     = diagnostics t1 ++ [Print Warn (ExitedWithWarning status)]) /\
    (status <> Some 0%Z -> detached = true ->
     diagnostics (trace_of run) = diagnostics t1 /\
     exists t, trace_of run
               = t ++ [Print Log (DetachedRunning (Js.number_text port))]) /\
    (status = Some 0%Z -> diagnostics (trace_of run) = diagnostics t1).
Proof.
  intros R H fs args world r r1 t1 da Hd P X1 X2 type image dir port detached E D
         status run.
  destruct (second_launcher_run fs args world r r1 t1 da Hd P E D)
    as (t0 & Tc & Td & Tb & To & M).
  destruct (second_ensureImage_quiet fs image dir r r1 t1 E) as (Qb & Qo).
  fold type image dir port detached in M. subst run. rewrite M.
  fold status. unfold result_of, trace_of, commands, diagnostics in *.
  cbn [fst snd]. rewrite !filter_app, Tc, Td, Tb, To, Qb, Qo. cbn [app].
  split; [reflexivity|]. split; [reflexivity|].
  split; [|split; [|split; [|split; [|split]]]].
  - destruct status as [[|p|p]|]; destruct detached; reflexivity.
  - destruct status as [[|p|p]|]; destruct detached; reflexivity.
  - destruct status as [[|p|p]|]; destruct detached; reflexivity.
  - intros S Det. rewrite Det.
    destruct status as [[|p|p]|]; try reflexivity. contradiction.
  - intros S Det. rewrite Det. split.
    + destruct status as [[|p|p]|]; cbn; rewrite app_nil_r; reflexivity.
    + exists (t0 ++ t1 ++ [Print Log (CommandLine da); SpawnSync "docker" da]).
      rewrite <- !app_assoc. cbn [app].
      destruct status as [[|p|p]|]; reflexivity.
  - intros ->. destruct detached; cbn; rewrite app_nil_r; reflexivity.
Qed.

(** [live] is built, then run to its end. *)
Lemma second_launcher_reports_the_run_witness :
  (exit_status (result_of (AltLaunch.main Sample.files ["live"] Sample.builder)) = 0%Z /\
   commands (trace_of (AltLaunch.main Sample.files ["live"] Sample.builder))
   = [ExecSync "docker image inspect x/live";
      SpawnSync "docker" ["build"; "-t"; "x/live"; "/w/live"];
      SpawnSync "docker" ["run"; "--rm"; "-p"; "8080:80"; "x/live"]]).
Proof.
  pose proof (second_launcher_reports_the_run Sim.docker _ Sample.files ["live"]
                Sample.live Sample.builder
                (snd (Sim.run_sync Sample.builder "docker"
                        ["build"; "-t"; "x/live"; "/w/live"]))
                [ExecSync "docker image inspect x/live";
                 Print Warn (ImageNotFound "x/live");
                 Print Log Building;
                 SpawnSync "docker" ["build"; "-t"; "x/live"; "/w/live"]]
                ["run"; "--rm"; "-p"; "8080:80"; "x/live"]) as W.
  cbv zeta in W.
  destruct W as (_ & X & C & _).
  - repeat split. discriminate.
  - reflexivity.
  - reflexivity.
  - reflexivity.
  - reflexivity.
  - reflexivity.
  - split; [exact X | exact C].
Defined.

(* ================================================================== *)
(** ** The portal: what a scan asks, and what the keys need *)
(* ================================================================== *)

Section PortalKeys.
Context {R : Type} `{Runtime R}.
Variable fs : Files.

Lemma scan_trace_commands (dirs : list string) (r : R) :
  commands (Portal.scan_trace fs dirs r)
  = map (fun e => ExecSync (Portal.probe_command (Js.field (snd e) "image")))
        (Discovery.accepted fs Discovery.probed (Portal.worldPath fs) dirs).
Proof.
  unfold Discovery.accepted.
  revert r. induction dirs as [|dir rest IH]; intros r; [reflexivity|].
  cbn [Portal.scan_trace Discovery.well_formed].
  destruct (classify fs (Portal.worldPath fs dir)) as [|err|v];
    [| |destruct (Discovery.probed v) eqn:P; destruct (Discovery.named v)];
    unfold commands in *; rewrite ?filter_app;
    cbn [app filter is_command map snd]; rewrite ?P; cbn [map snd];
    rewrite IH; reflexivity.
Qed.

Lemma scanned_length (dirs : list string) (r : R) :
  length (Portal.scanned fs dirs r)
  = length (Discovery.accepted fs Discovery.named (Portal.worldPath fs) dirs).
Proof.
  rewrite <- (scanned_accepted fs dirs r). symmetry. apply length_map.
Qed.

Lemma scan_trace_no_screen (dirs : list string) (r : R) :
  filter is_screen (Portal.scan_trace fs dirs r) = [].
Proof.
  revert r. induction dirs as [|dir rest IH]; intros r; [reflexivity|].
  cbn [Portal.scan_trace].
  destruct (classify fs (Portal.worldPath fs dir)) as [|err|v];
    [| |destruct (Discovery.probed v); destruct (Discovery.named v)];
    cbn [app filter is_screen]; apply IH.
Qed.

(** Where no descriptor is well-formed the scan leaves the runtime
    alone. *)
Lemma scan_state_idle (dirs : list string) (r : R) :
  Discovery.well_formed fs (Portal.worldPath fs) dirs = [] ->
  Portal.scan_state fs dirs r = r.
Proof.
  induction dirs as [|dir rest IH]; [reflexivity|].
  cbn [Discovery.well_formed Portal.scan_state].
  destruct (classify fs (Portal.worldPath fs dir)); try discriminate; exact IH.
Qed.

Lemma init_spec (r : R) (dirs : list string) :
  readdir_dirs fs (cwd fs) = Some dirs ->
  let ws := Portal.scanned fs dirs r in
  let st := {| Portal.worlds := ws; Portal.selectedIndex := 0 |} in
  Portal.init fs r
  = pre (Print Log LoadingWorlds :: Portal.scan_trace fs dirs r)
      (if (length ws =? 0)%nat
       then (Exit 0%Z, Portal.scan_state fs dirs r, [Print Log NoWorldsFound])
       else (bind (Portal.showPortal st) (fun _ => ret st))
              (Portal.scan_state fs dirs r)).
Proof.
  intros E ws st. unfold Portal.init.
  rewrite (bind_pre _ _ _ _ _ (loadWorlds_spec fs Portal.fresh r dirs E)).
  cbn [Portal.fresh Portal.worlds Portal.selectedIndex app]. fold ws.
  destruct (length ws =? 0)%nat; [reflexivity|].
  rewrite pre_nil. reflexivity.
Qed.

Lemma handle_idle (k : Portal.key) (st : Portal.portal) (w : Portal.world_view) (r : R) :
  k = Portal.KeyS \/ k = Portal.KeyI \/ k = Portal.KeyL ->
  Portal.selected st = Some w -> Portal.isRunning w = false ->
  Portal.handleKey fs k st r
  = pre [Print Log (match k with
                    | Portal.KeyS => WorldNotRunning
                    | Portal.KeyI => MustRunToInject
                    | _ => MustRunForLogs
                    end)]
      (bind (Portal.showPortal st) (fun _ => ret st) r).
Proof.
  intros K S N.
  destruct K as [->|[->| ->]]; cbn [Portal.handleKey];
    unfold Portal.stopWorld, Portal.injectData, Portal.viewLogs, Portal.current;
    rewrite S; step; rewrite N; cbn [negb]; unfold_console; repeat step; reflexivity.
Qed.

Lemma show_ret (st : Portal.portal) (r : R) :
  let run := bind (Portal.showPortal st) (fun _ => ret st) r in
  state_of run = r /\ commands (trace_of run) = [] /\
  (result_of run = Ret st \/ exists e, result_of run = Throw e) /\
  (forallb Portal.listable (Portal.worlds st) = false ->
   exists e, run = (Throw e, r, [])).
Proof.
  cbv zeta. unfold bind, Portal.showPortal.
  destruct (forallb Portal.listable (Portal.worlds st)).
  - destruct (Portal.selected st) as [w|]; [destruct (Portal.previewable w)|];
      cbn; repeat split; try discriminate; eauto.
  - cbn. repeat split; eauto.
Qed.

End PortalKeys.

(** X6.  A scan of the portal asks the runtime once for every
    well-formed descriptor whose image converts to text, in the order of
    the directory listing, with the probe built from the image; it asks
    nothing for a directory without descriptor or with a malformed one,
    and nothing for an image that does not convert (an object with a
    [toString] key of its own), whose world it takes as not running.  It
    returns the list it was given followed by one view for every
    well-formed descriptor whose name converts, in the same order.  So
    when images and names all convert, there is one probe and one view
    for each well-formed descriptor. *)
Theorem portal_scan_probes_each_world_once :
  forall (R : Type) (H : Runtime R) (fs : Files) (dirs : list string)
         (ws : list Portal.world_view) (r : R),
    let run := Portal.load_dirs fs dirs ws r in
    let found := Discovery.well_formed fs (Portal.worldPath fs) dirs in
    let probe e := ExecSync (Portal.probe_command (Js.field (snd e) "image")) in
    commands (trace_of run)
    = map probe (Discovery.accepted fs Discovery.probed (Portal.worldPath fs) dirs) /\
    (exists more,
        result_of run = Ret (ws ++ more) /\
        map (fun w => (Portal.directory w, Portal.data w)) more
        = Discovery.accepted fs Discovery.named (Portal.worldPath fs) dirs /\
        Forall (fun w => Portal.isRunning w = true -> Discovery.probed (Portal.data w) = true)
               more) /\
    (Forall (fun e => Discovery.probed (snd e) = true) found ->
     commands (trace_of run) = map probe found) /\
    (Forall (fun e => Discovery.named (snd e) = true) found ->
     exists more,
       result_of run = Ret (ws ++ more) /\
       map (fun w => (Portal.directory w, Portal.data w)) more = found).
Proof.
  intros R H fs dirs ws r run found probe. subst run found probe.
  rewrite (load_dirs_spec fs dirs ws r).
  cbn [trace_of result_of fst snd].
  rewrite scan_trace_commands.
  split; [reflexivity|]. split; [|split].
  - exists (Portal.scanned fs dirs r). split; [reflexivity|].
    split; [apply scanned_accepted|].
    clear ws. revert r. induction dirs as [|dir rest IH]; intros r; [constructor|].
    cbn [Portal.scanned].
    destruct (classify fs (Portal.worldPath fs dir)) as [|err|v]; try apply IH.
    destruct (Discovery.named v); [|apply IH].
    constructor; [|apply IH].
    cbn [Portal.isRunning Portal.data]. unfold Portal.observed.
    destruct (Discovery.probed v); [reflexivity | discriminate].
  - intros F. rewrite (accepted_all fs _ _ _ F). reflexivity.
  - intros F. exists (Portal.scanned fs dirs r). split; [reflexivity|].
    rewrite scanned_accepted. apply accepted_all. exact F.
Qed.

(** Three worlds whose images and names are texts: three probes, three
    views. *)
Lemma portal_scan_probes_each_world_once_witness :
  commands (trace_of (Portal.load_dirs Sample.three ["demo"; "live"; "shell"] []
                        Sample.busy))
  = [ExecSync (Portal.probe_command (Some (JStr "x/demo")));
     ExecSync (Portal.probe_command (Some (JStr "x/live")));
     ExecSync (Portal.probe_command (Some (JStr "x/shell")))] /\
  exists more,
    result_of (Portal.load_dirs Sample.three ["demo"; "live"; "shell"] []
                 Sample.busy) = Ret more /\
    map Portal.directory more = ["demo"; "live"; "shell"].
Proof.
  destruct (portal_scan_probes_each_world_once Sim.docker _ Sample.three
              ["demo"; "live"; "shell"] [] Sample.busy) as (_ & _ & A & B).
  split; [apply A; repeat constructor|].
  destruct B as (more & E & M); [repeat constructor|].
  exists more. split; [exact E|].
  rewrite <- (map_map (fun w => (Portal.directory w, Portal.data w)) fst), M.
  reflexivity.
Defined.

(** X7.  The keys [s], [i] and [l] act on a running world only.  On a
    selected world that was not found running the portal says so, draws
    the screen again and keeps its state: nothing is handed to the
    runtime, whose state is unchanged.  The key [i] never hands
    anything to the runtime. *)
Theorem portal_keys_need_a_running_world :
  forall (R : Type) (H : Runtime R) (fs : Files) (k : Portal.key)
         (st : Portal.portal) (w : Portal.world_view) (r : R),
    k = Portal.KeyS \/ k = Portal.KeyI \/ k = Portal.KeyL ->
    Portal.selected st = Some w ->
    let run := Portal.handleKey fs k st r in
    (Portal.isRunning w = false ->
     commands (trace_of run) = [] /\
     state_of run = r /\
     (result_of run = Ret st \/ exists e, result_of run = Throw e) /\
     hd_error (trace_of run)
     = Some (Print Log (match k with
                        | Portal.KeyS => WorldNotRunning
                        | Portal.KeyI => MustRunToInject
                        | _ => MustRunForLogs
                        end))) /\
    (k = Portal.KeyI -> commands (trace_of run) = [] /\ state_of run = r).
Proof.
  intros R H fs k st w r K S run. subst run. split.
  - intros N. rewrite (handle_idle fs k st w r K S N).
    destruct (show_ret st r) as (A & B & C & _). cbv zeta in A, B, C.
    observe. rewrite A. unfold commands in *. cbn [app filter is_command].
    rewrite B. repeat split; assumption.
  - intros ->. cbn [Portal.handleKey]. unfold Portal.injectData, Portal.current.
    rewrite S. step. unfold_console.
    destruct (show_ret st r) as (A & B & _). cbv zeta in A, B.
    destruct (negb (Portal.isRunning w)); repeat step; observe;
      rewrite A; unfold commands in *; cbn [app filter is_command]; rewrite B;
      split; reflexivity.
Qed.

(** On a host where nothing runs, [s] on the first of three worlds. *)
Lemma portal_keys_need_a_running_world_witness :
  commands (trace_of
    (Portal.handleKey Sample.three Portal.KeyS
       {| Portal.worlds := Portal.scanned Sample.three ["demo"; "live"; "shell"]
                             Sample.bare;
          Portal.selectedIndex := 0 |} Sample.bare)) = []
  /\
  state_of
    (Portal.handleKey Sample.three Portal.KeyS
       {| Portal.worlds := Portal.scanned Sample.three ["demo"; "live"; "shell"]
                             Sample.bare;
          Portal.selectedIndex := 0 |} Sample.bare) = Sample.bare.
Proof.
  pose proof (portal_keys_need_a_running_world Sim.docker _ Sample.three Portal.KeyS
                {| Portal.worlds := Portal.scanned Sample.three
                                      ["demo"; "live"; "shell"] Sample.bare;
                   Portal.selectedIndex := 0 |}
                {| Portal.data := Sample.demo; Portal.directory := "demo";
                   Portal.isRunning := false |}
                Sample.bare) as W.
  cbv zeta in W.
  destruct W as [W _].
  - left. reflexivity.
  - reflexivity.
  - destruct W as (A & B & _); [reflexivity|]. split; [exact A | exact B].
Defined.

(** X8.  A portal started where no directory holds a well-formed
    descriptor says so and exits with status 0: no screen is drawn and
    nothing is handed to the runtime; the malformed descriptors have
    each been reported before. *)
Theorem portal_without_worlds_exits :
  forall (R : Type) (H : Runtime R) (fs : Files) (dirs : list string) (r : R),
    readdir_dirs fs (cwd fs) = Some dirs ->
    Discovery.well_formed fs (Portal.worldPath fs) dirs = [] ->
    let run := Portal.init fs r in
    result_of run = Exit 0%Z /\
    state_of run = r /\
    commands (trace_of run) = [] /\
    filter is_screen (trace_of run) = [] /\
    diagnostics (trace_of run)
    = map (fun e => Print Error (FailedToLoad (fst e) (snd e)))
          (Discovery.malformed fs (Portal.worldPath fs) dirs) /\
    exists t, trace_of run = t ++ [Print Log NoWorldsFound].
Proof.
  intros R H fs dirs r E W run. subst run.
  rewrite (init_spec fs r dirs E). cbv zeta.
  assert (F : forall ok : json -> bool,
             Forall (fun e => ok (snd e) = true)
                    (Discovery.well_formed fs (Portal.worldPath fs) dirs))
    by (intros ok; rewrite W; constructor).
  assert (L : length (Portal.scanned fs dirs r) = 0%nat)
    by (rewrite scanned_length, (accepted_all fs _ _ _ (F _)), W; reflexivity).
  rewrite L. cbn [Nat.eqb]. observe.
  cbn [result_of state_of trace_of fst snd].
  pose proof (scan_state_idle fs dirs r W) as S.
  split; [reflexivity|]. split; [exact S|].
  unfold commands, diagnostics.
  cbn [app filter is_command is_screen is_diagnostic].
  rewrite !filter_app. cbn [filter is_command is_screen is_diagnostic].
  rewrite !app_nil_r.
  fold (commands (Portal.scan_trace fs dirs r)).
  fold (diagnostics (Portal.scan_trace fs dirs r)).
  rewrite scan_trace_commands, (accepted_all fs _ _ _ (F _)), W,
    scan_trace_no_screen, scan_trace_diagnostics, (refused_all fs _ _ _ _ (F _)).
  repeat split.
  exists (Print Log LoadingWorlds :: Portal.scan_trace fs dirs r). reflexivity.
Qed.

(** A directory without descriptor and one whose descriptor is cut short. *)
Lemma portal_without_worlds_exits_witness :
  result_of (Portal.init More.barren Sample.busy) = Exit 0%Z /\
  state_of (Portal.init More.barren Sample.busy) = Sample.busy /\
  diagnostics (trace_of (Portal.init More.barren Sample.busy))
  = [Print Error (FailedToLoad "broken" "Unexpected end of JSON input")].
Proof.
  destruct (portal_without_worlds_exits Sim.docker _ More.barren ["empty"; "broken"]
              Sample.busy eq_refl eq_refl) as (A & B & _ & _ & D & _).
  split; [exact A|]. split; [exact B | exact D].
Defined.

(** X9.  The world list prints [world.name.padEnd], [world.type] and
    [world.description.substring] for every world the scan loaded: one
    loaded world whose [name] or [description] is not a string, or whose
    [type] does not convert to text, makes the first screen fail with a
    TypeError, so the portal ends with exit status 1 after the scan.
    (A descriptor whose name does not convert is not among them: the
    scan has refused it.)  The launcher only prints the name and does
    not read the description: it starts a world without description all
    the same. *)
Theorem portal_needs_name_and_description :
  forall (R : Type) (H : Runtime R) (fs : Files) (dirs : list string) (r : R),
    readdir_dirs fs (cwd fs) = Some dirs ->
    forallb Portal.listable (Portal.scanned fs dirs r) = false ->
    let run := Portal.init fs r in
    (exists e, result_of run = Throw e) /\
    exit_status (result_of run) = 1%Z /\
    filter is_screen (trace_of run) = [] /\
    state_of run = Portal.scan_state fs dirs r.
Proof.
  intros R H fs dirs r E U run. subst run.
  rewrite (init_spec fs r dirs E). cbv zeta.
  destruct (Portal.scanned fs dirs r) as [|w ws] eqn:S; [discriminate U|].
  cbn [length Nat.eqb].
  destruct (show_ret {| Portal.worlds := w :: ws; Portal.selectedIndex := 0 |}
              (Portal.scan_state fs dirs r)) as (_ & _ & _ & X).
  destruct (X U) as [e Y]. rewrite Y. observe.
  cbn [result_of state_of trace_of fst snd exit_status].
  split; [exists e; reflexivity|]. split; [reflexivity|]. split; [|reflexivity].
  rewrite app_nil_r. cbn [filter is_screen]. apply scan_trace_no_screen.
Qed.

(** [terse] has no description: the launcher starts it, the portal
    cannot list it. *)
Lemma portal_needs_name_and_description_witness :
  exit_status (result_of (Portal.init More.with_terse Sample.busy)) = 1%Z
  /\
  runs (trace_of (WorldLaunch.main More.with_terse ["terse"] More.ready))
  = [Spawn "docker" ["run"; "--rm"; "-it"; "x/terse"]].
Proof.
  split.
  - apply (portal_needs_name_and_description Sim.docker _ More.with_terse
             ["demo"; "terse"] Sample.busy eq_refl eq_refl).
  - reflexivity.
Defined.

(** X10.  Whatever keys are pressed, a portal that is still alive has a
    list that is not empty and a selection that is an index of it: the
    list only grows, up and down clamp the index to it, and every other
    key keeps the index. *)
Theorem portal_session_keeps_selection :
  forall (R : Type) (H : Runtime R) (fs : Files) (ks : list Portal.key)
         (st : Portal.portal) (r : R),
    result_of (Portal.session fs ks r) = Ret st ->
    Portal.in_range st /\
    Portal.worlds st <> [] /\
    exists w, Portal.selected st = Some w /\ In w (Portal.worlds st).
Proof.
  intros R H fs ks st r E.
  pose proof (session_in_range fs ks st r E) as I.
  split; [exact I|]. split; [|apply selected_in_range; exact I].
  intros N. unfold Portal.in_range in I. rewrite N in I. cbn in I. lia.
Qed.

(** Down twice, a refresh, and up once over three worlds. *)
Lemma portal_session_keeps_selection_witness :
  exists st,
    result_of (Portal.session Sample.three
                 [Portal.Down; Portal.Down; Portal.KeyR; Portal.Up] Sample.busy)
    = Ret st /\
    Portal.selectedIndex st = 1%Z /\
    length (Portal.worlds st) = 6%nat /\
    Portal.in_range st.
Proof.
  eexists. split; [reflexivity|]. split; [reflexivity|]. split; [reflexivity|].
  eapply (portal_session_keeps_selection Sim.docker _ Sample.three
            [Portal.Down; Portal.Down; Portal.KeyR; Portal.Up] _ Sample.busy).
  reflexivity.
Defined.

(* ================================================================== *)
(** ** The catalog: written by one script, listed by another *)
(* ================================================================== *)

Section Catalog.
Context {R : Type} `{Runtime R}.
Variable fs : Files.

Lemma catalog_scan_trace_quiet (names : list string) :
  commands (GenerateCatalog.scan_trace fs names) = [] /\
  filter is_write (GenerateCatalog.scan_trace fs names) = [].
Proof.
  induction names as [|name rest [IC IW]]; [split; reflexivity|].
  cbn [GenerateCatalog.scan_trace].
  destruct (classify fs (GenerateCatalog.worldJsonPath fs name)) as [|err|v];
    [| |destruct (Discovery.named v)]; split; assumption.
Qed.

Lemma catalog_main_spec (names : list string) (r : R) :
  readdir_dirs fs (GenerateCatalog.dockerWorldsPath fs) = Some names ->
  let entries :=
    map (fun e => GenerateCatalog.entry_of (fst e) (snd e))
        (Discovery.well_formed fs (GenerateCatalog.worldJsonPath fs) names) in
  GenerateCatalog.main fs r
  = (Ret entries, r,
     Print Log (Scanning (GenerateCatalog.dockerWorldsPath fs))
       :: GenerateCatalog.scan_trace fs names
       ++ [WriteFile (GenerateCatalog.catalogPath fs) entries;
           Print Log (CatalogWritten (GenerateCatalog.catalogPath fs));
           Print Log (TotalWorlds (length entries))]).
Proof.
  intros E entries. unfold GenerateCatalog.main. unfold_console. step. rewrite E.
  rewrite (bind_ran _ _ _ _ _ _ (scan_spec fs names [] r)).
  cbn [app]. fold entries. repeat step. reflexivity.
Qed.

End Catalog.

(** X11.  [generate-catalog.js] needs no container runtime: it hands it
    nothing.  When the root can be listed it writes the catalog exactly
    once, after the scan, also when no world was found; the array
    written holds one entry per well-formed descriptor, in the order of
    the listing, and the total printed is its length.  When the root
    cannot be listed the script ends on the exception and writes
    nothing. *)
Theorem catalog_is_written_once :
  forall (R : Type) (H : Runtime R) (fs : Files) (r : R),
    let run := GenerateCatalog.main fs r in
    let root := GenerateCatalog.dockerWorldsPath fs in
    (forall names, readdir_dirs fs root = Some names ->
       let entries :=
         map (fun e => GenerateCatalog.entry_of (fst e) (snd e))
             (Discovery.well_formed fs (GenerateCatalog.worldJsonPath fs) names) in
       result_of run = Ret entries /\
       state_of run = r /\
       commands (trace_of run) = [] /\
       filter is_write (trace_of run)
       = [WriteFile (GenerateCatalog.catalogPath fs) entries] /\
       (exists t, trace_of run
                  = t ++ [WriteFile (GenerateCatalog.catalogPath fs) entries;
                          Print Log (CatalogWritten (GenerateCatalog.catalogPath fs));
                          Print Log (TotalWorlds (length entries))]) /\
       (length entries <= length names)%nat)
    /\
    (readdir_dirs fs root = None ->
       exit_status (result_of run) = 1%Z /\
       state_of run = r /\
       commands (trace_of run) = [] /\
       filter is_write (trace_of run) = []).
Proof.
  intros R H fs r run root. split.
  - intros names E entries. subst run.
    rewrite (catalog_main_spec fs names r E). fold entries.
    destruct (catalog_scan_trace_quiet fs names) as [C W].
    unfold commands in *. cbn [result_of state_of trace_of fst snd].
    cbn [filter is_command is_write]. rewrite !filter_app, C, W.
    do 4 (split; [reflexivity|]). split.
    + eexists (_ :: _). reflexivity.
    + subst entries. rewrite length_map.
      pose proof (classes_partition fs (GenerateCatalog.worldJsonPath fs) names).
      lia.
  - intros E. subst run root. unfold GenerateCatalog.main. unfold_console. step.
    rewrite E. repeat split.
Qed.

(** Four directories, two of them with a well-formed descriptor. *)
Lemma catalog_is_written_once_witness :
  filter is_write (trace_of (GenerateCatalog.main More.home Sample.busy))
  = [WriteFile "/home/u/docker-worlds/catalog.json"
       [GenerateCatalog.entry_of "demo" Sample.demo;
        GenerateCatalog.entry_of "shell" Sample.shell]] /\
  commands (trace_of (GenerateCatalog.main More.home Sample.busy)) = [] /\
  exit_status (result_of (GenerateCatalog.main Sample.three Sample.busy)) = 1%Z.
Proof.
  destruct (catalog_is_written_once Sim.docker _ More.home Sample.busy) as (A & _).
  destruct (catalog_is_written_once Sim.docker _ Sample.three Sample.busy) as (_ & B).
  cbv zeta in A, B.
  destruct (A ["demo"; "notes"; "broken"; "shell"] eq_refl) as (_ & _ & C & W & _).
  destruct (B eq_refl) as (X & _).
  split; [exact W|]. split; [exact C | exact X].
Defined.

Section CatalogListing.

Lemma cell_defined (v : jsval) (n : nat) :
  WorldList.has_text (WorldList.cell v n) = WorldList.text_or_falsy v.
Proof.
  unfold WorldList.cell, WorldList.text_or_falsy.
  destruct v as [[| | |s| |]|]; destruct (Js.truthy _) eqn:T; try reflexivity;
    cbn in T |- *; congruence.
Qed.

Lemma port_cell_defined (v : jsval) :
  WorldList.has_text (WorldList.port_cell v)
  = match v with
    | Some p => WorldList.has_text (WorldList.to_text p)
    | None => true
    end.
Proof.
  destruct v as [p|]; [|reflexivity].
  destruct p; [reflexivity|..]; unfold WorldList.port_cell;
    match goal with
    | |- context [WorldList.to_text ?j] =>
        destruct (WorldList.to_text j) as [t|];
        [destruct (String.eqb t EmptyString)|]; reflexivity
    end.
Qed.

Lemma tags_cell_defined (v : jsval) :
  WorldList.has_text (WorldList.tags_cell v)
  = match v with
    | Some (JArr items) => WorldList.has_text (WorldList.texts items)
    | _ => true
    end.
Proof.
  destruct v as [[| | | |items|]|]; try reflexivity.
  cbn [WorldList.tags_cell]. destruct (WorldList.texts items); reflexivity.
Qed.

Lemma row_printable (world : json) :
  WorldList.has_text (WorldList.row world) = WorldList.printable world.
Proof.
  pose proof (cell_defined (Js.field world "name") 20) as C1.
  pose proof (cell_defined (Js.field world "type") 8) as C2.
  pose proof (port_cell_defined (Js.field world "port")) as C3.
  pose proof (tags_cell_defined (Js.field world "tags")) as C4.
  unfold WorldList.row, WorldList.printable.
  destruct world; try reflexivity;
    unfold Js.field in *; cbn [Js.prop] in *;
    rewrite <- C1, <- C2, <- C3, <- C4;
    destruct (WorldList.cell _ 20), (WorldList.cell _ 8), (WorldList.port_cell _),
      (WorldList.tags_cell _); reflexivity.
Qed.

Lemma row_is_row (world : json) (l : WorldList.line) :
  WorldList.row world = Some l -> WorldList.is_row l = true.
Proof.
  unfold WorldList.row.
  destruct (Js.prop world "name") as [name|]; [|discriminate].
  destruct (WorldList.cell name 20); [|discriminate].
  destruct (WorldList.cell (Js.field world "type") 8); [|discriminate].
  destruct (WorldList.port_cell (Js.field world "port")); [|discriminate].
  destruct (WorldList.tags_cell (Js.field world "tags")); [|discriminate].
  intros [= <-]. reflexivity.
Qed.

(** The rows of the entries before the first that cannot be printed. *)
Lemma rows_spec (worlds : list json) :
  let (ls, ok) := WorldList.rows worlds in
  ok = forallb WorldList.printable worlds /\
  forallb WorldList.is_row ls = true /\
  (ok = true -> length ls = length worlds) /\
  (ok = false -> (length ls < length worlds)%nat).
Proof.
  induction worlds as [|world rest IH]; [cbn; repeat split; intros; discriminate|].
  cbn [WorldList.rows forallb length].
  pose proof (row_printable world) as P.
  destruct (WorldList.row world) as [l|] eqn:Rw; cbn [WorldList.has_text] in P;
    rewrite <- P.
  - destruct (WorldList.rows rest) as [ls ok]. destruct IH as (A & B & C & D).
    cbn [andb forallb length]. repeat split; trivial.
    + rewrite (row_is_row world l Rw). exact B.
    + intros E. rewrite (C E). reflexivity.
    + intros E. specialize (D E). lia.
  - cbn. repeat split; try discriminate. intros _. lia.
Qed.

End CatalogListing.

(** A catalog whose entries can all be printed is listed to its end. *)
Lemma world_list_printable (fs : Files) (worlds : list json) :
  existsSync fs (WorldList.catalogPath fs) = true ->
  read_json fs (WorldList.catalogPath fs) = inr (JArr worlds) ->
  worlds <> [] -> forallb WorldList.printable worlds = true ->
  exists ls,
    WorldList.main fs
    = (Ret tt,
       [WorldList.Title; WorldList.Heading; WorldList.Rule]
         ++ ls ++ [WorldList.Total (length worlds)]) /\
    length ls = length worlds /\
    forallb WorldList.is_row ls = true.
Proof.
  intros E P N A. unfold WorldList.main. rewrite E, P. cbn [negb].
  destruct worlds as [|w ws]; [contradiction|].
  cbn [length Nat.eqb].
  pose proof (rows_spec (w :: ws)) as S.
  destruct (WorldList.rows (w :: ws)) as [ls ok].
  destruct S as (S1 & S2 & S3 & _). rewrite A in S1. subst ok.
  exists ls. repeat split; auto.
Qed.

(** X12.  [world-list.js] on a catalog that holds an array: an empty
    array ends the script with status 0 before any heading; otherwise
    the heading is printed and then one row per entry, up to the first
    entry that cannot be printed ([null], a [name] or [type] that is
    truthy and not a string, or a [port] or tag that has no text because
    an object hides [toString]).  When every entry can be printed the
    total of the last line is the number of rows; when one cannot, the
    script ends on the TypeError with fewer rows than entries and no
    total. *)
Theorem world_list_prints_the_catalog :
  forall (fs : Files) (worlds : list json),
    existsSync fs (WorldList.catalogPath fs) = true ->
    read_json fs (WorldList.catalogPath fs) = inr (JArr worlds) ->
    let run := WorldList.main fs in
    (worlds = [] -> run = (Exit 0%Z, [WorldList.EmptyCatalog])) /\
    (worlds <> [] -> forallb WorldList.printable worlds = true ->
     exists ls,
       run = (Ret tt,
              [WorldList.Title; WorldList.Heading; WorldList.Rule]
                ++ ls ++ [WorldList.Total (length worlds)]) /\
       length ls = length worlds /\
       forallb WorldList.is_row ls = true) /\
    (forallb WorldList.printable worlds = false ->
     exists e ls,
       run = (Throw e, [WorldList.Title; WorldList.Heading; WorldList.Rule] ++ ls) /\
       (length ls < length worlds)%nat /\
       forallb WorldList.is_row ls = true).
Proof.
  intros fs worlds E P run. subst run.
  split; [|split].
  - intros ->. unfold WorldList.main. rewrite E, P. reflexivity.
  - intros N A. apply world_list_printable; assumption.
  - intros A. unfold WorldList.main. rewrite E, P. cbn [negb].
    destruct worlds as [|w ws]; [discriminate A|].
    cbn [length Nat.eqb].
    pose proof (rows_spec (w :: ws)) as S.
    destruct (WorldList.rows (w :: ws)) as [ls ok].
    destruct S as (S1 & S2 & _ & S4). rewrite A in S1. subst ok.
    eexists. exists ls. repeat split; auto.
Qed.

(** The catalog of two worlds as [generate-catalog.js] writes it. *)
Lemma world_list_prints_the_catalog_witness :
  exists ls,
    WorldList.main More.home
    = (Ret tt,
       [WorldList.Title; WorldList.Heading; WorldList.Rule]
         ++ ls ++ [WorldList.Total 2]) /\
    length ls = 2%nat.
Proof.
  destruct (world_list_prints_the_catalog More.home
              [GenerateCatalog.entry_of "demo" Sample.demo;
               GenerateCatalog.entry_of "shell" Sample.shell]
              eq_refl eq_refl) as (_ & W & _).
  destruct W as (ls & A & B & _); [discriminate|reflexivity|].
  exists ls. split; [exact A | exact B].
Defined.

Section CatalogThenList.

Lemma or_default_cases (v : jsval) (d : json) :
  (Js.truthy v = true /\ v = Some (GenerateCatalog.or_default v d)) \/
  (Js.truthy v = false /\ GenerateCatalog.or_default v d = d).
Proof.
  unfold GenerateCatalog.or_default, Js.or.
  destruct (Js.truthy v) eqn:T; [left|right]; split; trivial.
  destruct v; [reflexivity|discriminate T].
Qed.

(** Whatever [world-list.js] can print of a descriptor it can print of
    its catalog entry. *)
Lemma entry_printable (name : string) (world : json) :
  WorldList.printable world = true ->
  WorldList.printable (GenerateCatalog.entry_of name world) = true.
Proof.
  intros P.
  assert (Q : WorldList.text_or_falsy (Js.field world "name") = true /\
              WorldList.text_or_falsy (Js.field world "type") = true /\
              match Js.field world "port" with
              | Some p => WorldList.has_text (WorldList.to_text p)
              | None => true
              end = true /\
              match Js.field world "tags" with
              | Some (JArr items) => WorldList.has_text (WorldList.texts items)
              | _ => true
              end = true).
  { unfold WorldList.printable in P. destruct world; try discriminate P;
      apply andb_prop in P; destruct P as [P P4];
      apply andb_prop in P; destruct P as [P P3];
      apply andb_prop in P; destruct P as [P1 P2]; auto. }
  destruct Q as (Q1 & Q2 & Q3 & Q4).
  change (WorldList.printable (GenerateCatalog.entry_of name world))
    with (WorldList.text_or_falsy
            (Some (GenerateCatalog.or_default (Js.field world "name") (JStr name)))
          && WorldList.text_or_falsy
               (Some (GenerateCatalog.or_default (Js.field world "type") (JStr "web")))
          && WorldList.has_text
               (WorldList.to_text
                  (GenerateCatalog.or_default (Js.field world "port") JNull))
          && match GenerateCatalog.or_default (Js.field world "tags") (JArr []) with
             | JArr items => WorldList.has_text (WorldList.texts items)
             | _ => true
             end).
  destruct (or_default_cases (Js.field world "name") (JStr name)) as [[_ E]|[_ E]];
    [rewrite <- E, Q1|rewrite E];
    (destruct (or_default_cases (Js.field world "type") (JStr "web")) as [[_ F]|[_ F]];
     [rewrite <- F, Q2|rewrite F]);
    (destruct (or_default_cases (Js.field world "port") JNull) as [[_ G]|[_ G]];
     [rewrite G in Q3; rewrite Q3|rewrite G]);
    (destruct (or_default_cases (Js.field world "tags") (JArr [])) as [[_ K]|[_ K]];
     [rewrite K in Q4; rewrite Q4|rewrite K]); reflexivity.
Qed.

End CatalogThenList.

(** X13.  The two catalog scripts fit together.  When [world-list.js]
    reads the array that [generate-catalog.js] wrote, and every
    descriptor found could itself be printed (name and type strings or
    falsy, no object that hides [toString] in port or tags), the listing
    comes to its end: it prints one row per well-formed descriptor, and
    its total is the total [generate-catalog.js] printed.  A scan that
    found no world leaves an empty catalog, which the listing reports
    with exit status 0. *)
Theorem listing_follows_the_catalog :
  forall (R : Type) (H : Runtime R) (fs fs' : Files) (names : list string) (r : R)
         (entries : list json),
    readdir_dirs fs (GenerateCatalog.dockerWorldsPath fs) = Some names ->
    In (WriteFile (GenerateCatalog.catalogPath fs) entries)
       (trace_of (GenerateCatalog.main fs r)) ->
    existsSync fs' (WorldList.catalogPath fs') = true ->
    read_json fs' (WorldList.catalogPath fs') = inr (JArr entries) ->
    let found := Discovery.well_formed fs (GenerateCatalog.worldJsonPath fs) names in
    forallb WorldList.printable (map snd found) = true ->
    length entries = length found /\
    In (Print Log (TotalWorlds (length found))) (trace_of (GenerateCatalog.main fs r)) /\
    (found = [] -> WorldList.main fs' = (Exit 0%Z, [WorldList.EmptyCatalog])) /\
    (found <> [] ->
     exists ls,
       WorldList.main fs'
       = (Ret tt,
          [WorldList.Title; WorldList.Heading; WorldList.Rule]
            ++ ls ++ [WorldList.Total (length found)]) /\
       length ls = length found /\
       forallb WorldList.is_row ls = true).
Proof.
  intros R H fs fs' names r entries E W X Rd found P.
  rewrite (catalog_main_spec fs names r E) in *.
  cbn [trace_of snd] in *.
  set (written := map (fun e => GenerateCatalog.entry_of (fst e) (snd e)) found) in *.
  assert (EQ : entries = written).
  { assert (F : In (WriteFile (GenerateCatalog.catalogPath fs) entries)
                  (filter is_write
                     (Print Log (Scanning (GenerateCatalog.dockerWorldsPath fs))
                        :: GenerateCatalog.scan_trace fs names
                        ++ [WriteFile (GenerateCatalog.catalogPath fs) written;
                            Print Log (CatalogWritten (GenerateCatalog.catalogPath fs));
                            Print Log (TotalWorlds (length written))])))
      by (apply filter_In; split; [exact W|reflexivity]).
    cbn [filter is_write] in F. rewrite filter_app in F.
    rewrite (proj2 (catalog_scan_trace_quiet fs names)) in F.
    cbn in F. destruct F as [F|[]]. injection F as ->. reflexivity. }
  subst entries.
  assert (L : length written = length found) by (subst written; apply length_map).
  assert (PW : forallb WorldList.printable written = true).
  { subst written. clear - P. induction found as [|[d v] rest IH]; [reflexivity|].
    cbn [map forallb fst snd] in *. apply andb_prop in P. destruct P as [P1 P2].
    rewrite (entry_printable d v P1), (IH P2). reflexivity. }
  split; [exact L|]. split; [|split].
  - rewrite <- L. apply in_cons, in_or_app. right. cbn. auto.
  - intros N. unfold WorldList.main. rewrite X, Rd. subst written. rewrite N.
    reflexivity.
  - intros N.
    destruct (world_list_printable fs' written X Rd) as (ls & A & B & C);
      [|exact PW|].
    + intros Z. apply N. destruct found; [reflexivity|discriminate Z].
    + exists ls. rewrite <- L, B. repeat split; assumption.
Qed.

(** The home directory of the sample, with its catalog in place. *)
Lemma listing_follows_the_catalog_witness :
  exists ls,
    WorldList.main More.home
    = (Ret tt,
       [WorldList.Title; WorldList.Heading; WorldList.Rule]
         ++ ls ++ [WorldList.Total 2]) /\
    length ls = 2%nat.
Proof.
  destruct (listing_follows_the_catalog Sim.docker _ More.home More.home
              ["demo"; "notes"; "broken"; "shell"] Sample.busy
              [GenerateCatalog.entry_of "demo" Sample.demo;
               GenerateCatalog.entry_of "shell" Sample.shell])
    as (_ & _ & _ & W).
  - reflexivity.
  - cbn. auto 8.
  - reflexivity.
  - reflexivity.
  - reflexivity.
  - destruct W as (ls & A & B & _); [discriminate|].
    exists ls. split; [exact A | exact B].
Defined.

(* ================================================================== *)
(** ** The command line of the launchers *)
(* ================================================================== *)

(** X14.  How both launchers read their command line.  The directory is
    the first argument that does not start with a dash: an argument
    that starts with one is passed over, and the first that does not is
    taken, whatever follows it.  It is [.] when there is no such
    argument or when the first such argument is empty: an option is
    never taken for the directory.  The value of [--flag=value] is read
    from the first
    argument that starts with [--flag=], and it ends at the next [=].
    Detaching is asked for by [--detach] or [-d] anywhere on the
    line.  [world-stop.js] does not look for options: its first
    argument is the directory, whatever it starts with. *)
Theorem launcher_command_line :
  (forall (args : list string),
      Text.startsWith (WorldLaunch.inputDir args) "-" = false /\
      WorldLaunch.inputDir args <> EmptyString /\
      (In (WorldLaunch.inputDir args) args \/ WorldLaunch.inputDir args = "."))
  /\
  (forall (option : string) (rest : list string),
      Text.startsWith option "-" = true ->
      WorldLaunch.inputDir (option :: rest) = WorldLaunch.inputDir rest)
  /\
  (forall (a : string) (rest : list string),
      Text.startsWith a "-" = false ->
      WorldLaunch.inputDir (a :: rest) = if String.eqb a EmptyString then "." else a)
  /\
  (forall (a : string) (rest : list string),
      a <> EmptyString -> Text.startsWith a "-" = false ->
      WorldLaunch.inputDir (a :: rest) = a)
  /\
  (forall (options : list string) (a : string) (rest : list string),
      Forall (fun o => Text.startsWith o "-" = true) options ->
      a <> EmptyString -> Text.startsWith a "-" = false ->
      WorldLaunch.inputDir (options ++ a :: rest) = a)
  /\
  (forall (flag v : string) (rest : list string),
      Text.free_of "="%char flag = true -> Text.free_of "="%char v = true ->
      WorldLaunch.getArg ((flag ++ "=" ++ v)%string :: rest) flag = Some (JStr v))
  /\
  (forall (flag v w : string) (rest : list string),
      Text.free_of "="%char flag = true -> Text.free_of "="%char v = true ->
      WorldLaunch.getArg ((flag ++ "=" ++ v ++ "=" ++ w)%string :: rest) flag
      = Some (JStr v))
  /\
  (forall (flag a : string) (rest : list string),
      Text.startsWith a (flag ++ "=") = false ->
      WorldLaunch.getArg (a :: rest) flag = WorldLaunch.getArg rest flag)
  /\
  (forall (args : list string),
      WorldLaunch.detach_requested args = true <-> In "--detach" args \/ In "-d" args)
  /\
  (forall (a : string) (rest : list string),
      a <> EmptyString -> WorldStop.target (a :: rest) = a).
Proof.
  assert (DD : forall a, Text.startsWith a "-" = false ->
                          Text.startsWith a "--" = false).
  { intros a. unfold Text.startsWith.
    destruct a as [|c a]; [reflexivity|]. cbn [String.prefix].
    destruct (Ascii.eqb_spec c "-"%char) as [->|N].
    - destruct a; discriminate.
    - intros _. destruct (ascii_dec "-"%char c) as [E|_]; [|reflexivity].
      symmetry in E. contradiction. }
  assert (P1 : forall (option : string) (rest : list string),
             Text.startsWith option "-" = true ->
             WorldLaunch.inputDir (option :: rest) = WorldLaunch.inputDir rest).
  { intros option rest P. unfold WorldLaunch.inputDir. cbn [find].
    rewrite P, andb_false_r. reflexivity. }
  assert (P2 : forall (a : string) (rest : list string),
             Text.startsWith a "-" = false ->
             WorldLaunch.inputDir (a :: rest)
             = if String.eqb a EmptyString then "." else a).
  { intros a rest P. unfold WorldLaunch.inputDir. cbn [find].
    rewrite P, (DD a P). reflexivity. }
  assert (P3 : forall (a : string) (rest : list string),
             a <> EmptyString -> Text.startsWith a "-" = false ->
             WorldLaunch.inputDir (a :: rest) = a).
  { intros a rest N P. rewrite (P2 a rest P).
    destruct (String.eqb_spec a EmptyString); [contradiction | reflexivity]. }
  split; [|split; [|split; [|split; [|split; [|split; [|split; [|split; [|split]]]]]]]].
  - intros args. unfold WorldLaunch.inputDir.
    destruct (find _ args) as [a|] eqn:F.
    + apply find_some in F. destruct F as [I P].
      apply andb_prop in P. destruct P as [_ P].
      destruct (String.eqb_spec a EmptyString) as [->|N].
      * repeat split; [discriminate|right; reflexivity].
      * repeat split; [|exact N|left; exact I].
        destruct (Text.startsWith a "-"); [discriminate P|reflexivity].
    + repeat split; [discriminate|right; reflexivity].
  - exact P1.
  - exact P2.
  - exact P3.
  - intros options a rest F N P.
    induction F as [|o l O F IH]; cbn [app]; [apply P3; assumption|].
    rewrite (P1 o _ O). exact IH.
  - intros flag v rest F V. apply getArg_first; assumption.
  - intros flag v w rest F V. unfold WorldLaunch.getArg. cbn [find].
    unfold Text.startsWith.
    replace (flag ++ "=" ++ v ++ "=" ++ w)%string
      with ((flag ++ "=") ++ v ++ "=" ++ w)%string by apply append_assoc.
    rewrite prefix_append.
    replace ((flag ++ "=") ++ v ++ "=" ++ w)%string
      with (flag ++ String "=" (v ++ String "=" w))%string
      by (symmetry; apply append_assoc).
    rewrite (split_app _ _ _ F), (split_app _ _ _ V).
    destruct (String.eqb_spec (flag ++ String "=" (v ++ String "=" w)) EmptyString)
      as [E|_].
    + destruct flag; discriminate.
    + reflexivity.
  - intros flag a rest P. unfold WorldLaunch.getArg. cbn [find]. rewrite P.
    reflexivity.
  - intros args. unfold WorldLaunch.detach_requested, Text.includes.
    rewrite orb_true_iff, !existsb_exists.
    split.
    + intros [(x & I & E)|(x & I & E)]; apply String.eqb_eq in E; subst x; auto.
    + intros [I|I]; [left|right]; eexists; (split; [exact I|apply String.eqb_refl]).
  - intros a rest N. unfold WorldStop.target. cbn [nth_error].
    destruct (String.eqb_spec a EmptyString); [contradiction|reflexivity].
Qed.

(** A port given twice, a value with a second [=], a directory named
    after an option, and two directories of which the first is taken. *)
Lemma launcher_command_line_witness :
  WorldLaunch.getArg ["--port=3000"; "--port=4000"; "demo"] "--port"
  = Some (JStr "3000") /\
  WorldLaunch.getArg ["demo"; "--port=30=40"] "--port" = Some (JStr "30") /\
  WorldLaunch.inputDir ["--detach"; "-demo"; "live"] = "live" /\
  WorldLaunch.inputDir ["demo"; "live"; "-d"] = "demo" /\
  WorldLaunch.inputDir ["--port=1"; "-d"; "demo"; "live"] = "demo".
Proof.
  destruct launcher_command_line as (_ & D & _ & P & Q & G & G2 & S & _ & _).
  split; [|split; [|split; [|split]]].
  - apply (G "--port" "3000"); reflexivity.
  - rewrite (S "--port" "demo") by reflexivity.
    apply (G2 "--port" "30" "40"); reflexivity.
  - rewrite (D "--detach" _ eq_refl), (D "-demo" _ eq_refl). reflexivity.
  - apply (P "demo"); [discriminate | reflexivity].
  - apply (Q ["--port=1"; "-d"] "demo" ["live"]);
      [repeat constructor | discriminate | reflexivity].
Defined.

(* ================================================================== *)
(** ** Scaffolding a world *)
(* ================================================================== *)

Section Scaffold.

Lemma flag_last_type (o : WorldInit.options) (v : string) :
  Text.free_of "="%char v = true -> v <> EmptyString ->
  WorldInit.type (WorldInit.flag o ("--type=" ++ v)) = v.
Proof.
  intros F N. unfold WorldInit.flag.
  change ("--type=" ++ v)%string with ("--type" ++ String "=" v)%string.
  rewrite (split_app "="%char "--type" v eq_refl), (split_free _ _ F).
  destruct (String.eqb_spec v EmptyString); [contradiction|reflexivity].
Qed.

Lemma flag_port (o : WorldInit.options) (v : string) :
  Text.free_of "="%char v = true -> v <> EmptyString ->
  WorldInit.port (WorldInit.flag o ("--port=" ++ v)) = Js.parseInt_text v /\
  WorldInit.type (WorldInit.flag o ("--port=" ++ v)) = WorldInit.type o.
Proof.
  intros F N. unfold WorldInit.flag.
  change ("--port=" ++ v)%string with ("--port" ++ String "=" v)%string.
  rewrite (split_app "="%char "--port" v eq_refl), (split_free _ _ F).
  destruct (String.eqb_spec v EmptyString); [contradiction|]. split; reflexivity.
Qed.

Lemma parse_snoc (worldName : string) (flags : list string) (arg : string) :
  WorldInit.parse worldName (flags ++ [arg])
  = WorldInit.flag (WorldInit.parse worldName flags) arg.
Proof.
  unfold WorldInit.parse. rewrite fold_left_app. reflexivity.
Qed.

Lemma starter_dockerfiles (fs : Files) (worldName : string) (o : WorldInit.options) :
  filter WorldInit.is_dockerfile (WorldInit.starter fs worldName o)
  = if String.eqb (WorldInit.type o) "web" then
      [WorldInit.Write (path_join fs [WorldInit.root fs worldName; "Dockerfile"])
         WorldInit.NginxDockerfile]
    else if String.eqb (WorldInit.type o) "cli" then
      [WorldInit.Write (path_join fs [WorldInit.root fs worldName; "Dockerfile"])
         WorldInit.NodeDockerfile]
    else [].
Proof.
  unfold WorldInit.starter.
  destruct (String.eqb_spec (WorldInit.type o) "web") as [E|_].
  - rewrite E. reflexivity.
  - destruct (String.eqb (WorldInit.type o) "cli"); reflexivity.
Qed.

Lemma hints_write_nothing (worldName : string) (o : WorldInit.options) :
  filter WorldInit.is_write (WorldInit.hints worldName o) = [].
Proof.
  unfold WorldInit.hints.
  destruct (String.eqb (WorldInit.type o) "web"), (String.eqb (WorldInit.type o) "cli");
    reflexivity.
Qed.

End Scaffold.

(** X15.  [world-init.js] refuses to work without a name and on a
    directory that exists: it exits with status 1 and touches nothing.
    Otherwise it creates the application directory first and writes the
    descriptor exactly once; exactly one Dockerfile follows when the
    type is [web] or [cli], and none for any other type, which is
    accepted all the same.  Of several [--type] flags the last one with
    a value decides. *)
Theorem scaffold_of_a_world :
  forall (fs : Files) (worldName : string) (flags : list string),
    let o := WorldInit.parse worldName flags in
    let known := String.eqb (WorldInit.type o) "web"
                 || String.eqb (WorldInit.type o) "cli" in
    let run := WorldInit.main fs (worldName :: flags) in
    WorldInit.main fs [] = (Exit 1%Z, [WorldInit.Say Error WorldInit.Usage]) /\
    (existsSync fs (WorldInit.root fs worldName) = true ->
     run = (Exit 1%Z, [WorldInit.Say Error WorldInit.DirectoryExists])) /\
    (existsSync fs (WorldInit.root fs worldName) = false ->
     fst run = Ret tt /\
     hd_error (snd run) = Some (WorldInit.Mkdir (WorldInit.appDir fs worldName)) /\
     filter WorldInit.is_descriptor (snd run)
     = [WorldInit.Write (path_join fs [WorldInit.root fs worldName; "world.json"])
          (WorldInit.Descriptor (WorldInit.worldConfig worldName o))] /\
     length (filter WorldInit.is_dockerfile (snd run)) = (if known then 1 else 0)%nat /\
     length (filter WorldInit.is_write (snd run)) = (if known then 3 else 1)%nat) /\
    (forall v, Text.free_of "="%char v = true -> v <> EmptyString ->
       WorldInit.type (WorldInit.parse worldName (flags ++ ["--type=" ++ v]%string)) = v).
Proof.
  intros fs worldName flags o known run.
  split; [reflexivity|]. split; [|split].
  - intros E. subst run. unfold WorldInit.main. rewrite E. reflexivity.
  - intros E. subst run. unfold WorldInit.main. rewrite E. fold o.
    cbn [fst snd app hd_error].
    split; [reflexivity|]. split; [reflexivity|].
    cbn [filter WorldInit.is_descriptor WorldInit.is_dockerfile WorldInit.is_write].
    rewrite !filter_app, starter_dockerfiles, hints_write_nothing.
    assert (HD : filter WorldInit.is_dockerfile (WorldInit.hints worldName o) = []).
    { unfold WorldInit.hints.
      destruct (String.eqb (WorldInit.type o) "web"),
        (String.eqb (WorldInit.type o) "cli"); reflexivity. }
    assert (HS : filter WorldInit.is_descriptor (WorldInit.hints worldName o) = []).
    { unfold WorldInit.hints.
      destruct (String.eqb (WorldInit.type o) "web"),
        (String.eqb (WorldInit.type o) "cli"); reflexivity. }
    rewrite HD, HS. subst known. unfold WorldInit.starter.
    destruct (String.eqb_spec (WorldInit.type o) "web") as [W|W].
    + rewrite W. repeat split.
    + destruct (String.eqb (WorldInit.type o) "cli"); repeat split.
  - intros v F N. rewrite parse_snoc. apply flag_last_type; assumption.
Qed.

(** A name that is taken, and a world of a type the launcher does not
    know. *)
Lemma scaffold_of_a_world_witness :
  WorldInit.main More.taken ["demo"]
  = (Exit 1%Z, [WorldInit.Say Error WorldInit.DirectoryExists]) /\
  fst (WorldInit.main More.taken ["park"; "--type=web"; "--type=game"]) = Ret tt /\
  filter WorldInit.is_dockerfile
    (snd (WorldInit.main More.taken ["park"; "--type=web"; "--type=game"])) = [] /\
  WorldInit.type (WorldInit.parse "park" ["--type=web"; "--type=game"]) = "game".
Proof.
  pose proof (scaffold_of_a_world More.taken "demo" []) as D.
  pose proof (scaffold_of_a_world More.taken "park" ["--type=web"; "--type=game"]) as P.
  pose proof (scaffold_of_a_world More.taken "park" ["--type=web"]) as L.
  cbv zeta in D, P, L.
  destruct D as (_ & D & _). destruct P as (_ & _ & P & _). destruct L as (_ & _ & _ & L).
  split; [apply D; reflexivity|].
  destruct (P eq_refl) as (A & _ & _ & N & _).
  split; [exact A|split].
  - apply length_zero_iff_nil. rewrite N. reflexivity.
  - apply (L "game"); [reflexivity|discriminate].
Defined.

(** X16.  The scaffold and the launcher agree on the types: a Dockerfile
    is written exactly when the launcher can build the arguments of a
    container run for the descriptor written.  The port makes the round
    trip through the descriptor unless it is falsy there: a [--port]
    value that is no number is written as [null] and [0] as [0], and for
    both the launcher falls back to 8080; any other port is used as
    given. *)
Theorem scaffold_fits_the_launcher :
  forall (fs : Files) (worldName : string) (flags : list string),
    let o := WorldInit.parse worldName flags in
    let config := WorldInit.worldConfig worldName o in
    (forall (vm : jsval) (p : option Z) (dir : string) (detached : bool),
       filter WorldInit.is_dockerfile (WorldInit.starter fs worldName o) = [] <->
       WorldLaunch.dockerArgs (Js.field config "type") vm (Js.field config "image")
         p dir detached = None) /\
    (forall (args : list string),
       Js.truthy (WorldLaunch.getArg args "--port") = false ->
       match WorldInit.port o with
       | Some n =>
           safe_integer n ->
           WorldLaunch.launchPort (WorldLaunch.getArg args "--port")
             (Js.field config "port")
           = Some (if (n =? 0)%Z then 8080%Z else n)
       | None =>
           WorldLaunch.launchPort (WorldLaunch.getArg args "--port")
             (Js.field config "port")
           = Some 8080%Z
       end) /\
    (forall (v : string),
       Text.free_of "="%char v = true -> v <> EmptyString ->
       WorldInit.port (WorldInit.parse worldName (flags ++ ["--port=" ++ v]%string))
       = Js.parseInt_text v).
Proof.
  intros fs worldName flags o config. split; [|split].
  - intros vm p dir detached. rewrite dockerArgs_none, starter_dockerfiles.
    change (Js.field config "type") with (Some (JStr (WorldInit.type o))).
    cbn [Js.is_str].
    destruct (String.eqb (WorldInit.type o) "web");
      destruct (String.eqb (WorldInit.type o) "cli");
      split; intros X; try discriminate X; try (destruct X; discriminate); auto.
  - intros args F. unfold WorldLaunch.launchPort, Js.or. rewrite F.
    change (Js.field config "port")
      with (Some (match WorldInit.port o with Some n => JNum n | None => JNull end)).
    destruct (WorldInit.port o) as [n|]; [|reflexivity].
    intros _. cbn [Js.truthy].
    destruct (Z.eqb_spec n 0) as [->|N]; [reflexivity|].
    cbn [negb]. apply parseInt_of_Z.
  - intros v F N. rewrite parse_snoc. apply flag_port; assumption.
Qed.

(** [--port=http] and [--port=0] against [--port=3000]. *)
Lemma scaffold_fits_the_launcher_witness :
  WorldLaunch.launchPort (WorldLaunch.getArg ["park"] "--port")
    (Js.field (WorldInit.worldConfig "park" (WorldInit.parse "park" ["--port=http"]))
       "port") = Some 8080%Z /\
  WorldLaunch.launchPort (WorldLaunch.getArg ["park"] "--port")
    (Js.field (WorldInit.worldConfig "park" (WorldInit.parse "park" ["--port=0"]))
       "port") = Some 8080%Z /\
  WorldLaunch.launchPort (WorldLaunch.getArg ["park"] "--port")
    (Js.field (WorldInit.worldConfig "park" (WorldInit.parse "park" ["--port=3000"]))
       "port") = Some 3000%Z.
Proof.
  pose proof (scaffold_fits_the_launcher Sample.three "park" ["--port=http"]) as A.
  pose proof (scaffold_fits_the_launcher Sample.three "park" ["--port=0"]) as B.
  pose proof (scaffold_fits_the_launcher Sample.three "park" ["--port=3000"]) as C.
  cbv zeta in A, B, C.
  destruct A as (_ & A & _), B as (_ & B & _), C as (_ & C & _).
  split; [|split].
  - apply (A ["park"] eq_refl).
  - apply (B ["park"] eq_refl). unfold safe_integer. cbn. lia.
  - apply (C ["park"] eq_refl). unfold safe_integer. cbn. lia.
Defined.

(* ================================================================== *)
(** ** Pushing a world *)
(* ================================================================== *)

(** X17.  [world-push.js] on a descriptor whose image is a string and
    whose name converts to text tags the image and pushes it, in this
    order.  A tag that fails ends the script with status 1 before any
    push.  After the push the script announces success unconditionally:
    with a push status other than 0 it warns, then still prints that the
    world was pushed successfully and ends with exit status 0; with
    status 0 the success line is printed twice.  An image or a name that
    does not convert (an object with a [toString] key of its own) ends
    the script before its first line, on the TypeError of the tag or of
    the line: status 1, nothing printed, nothing tagged or pushed. *)
Theorem push_announces_success :
  (forall (R : Type) (H : Runtime R) (fs : Files) (world : json) (image : jsval)
          (o : string) (r : R),
    existsSync fs (WorldPush.configPath fs) = true ->
    read_json fs (WorldPush.configPath fs) = inr world ->
    Js.prop world "image" = Some image ->
    WorldPush.owner image = Some o ->
    Js.converts (Js.field world "name") = true ->
    let name := Js.text (Js.field world "name") in
    let tag := (Js.text image ++ ":latest")%string in
    let tagging := ExecSync (WorldPush.tag_command name tag) in
    let pushing := SpawnSync "docker" ["push"; tag] in
    let run := WorldPush.main fs r in
    (fst (exec_sync r (WorldPush.tag_command name tag)) = None ->
     fst (fst run) = Exit 1%Z /\
     filter WorldPush.is_run (snd run) = [WorldPush.Run tagging] /\
     filter WorldPush.is_success (snd run) = []) /\
    (fst (exec_sync r (WorldPush.tag_command name tag)) <> None ->
     let r1 := snd (exec_sync r (WorldPush.tag_command name tag)) in
     let status := fst (spawn_sync r1 "docker" ["push"; tag]) in
     fst (fst run) = Ret tt /\
     exit_status (fst (fst run)) = 0%Z /\
     snd (fst run) = snd (spawn_sync r1 "docker" ["push"; tag]) /\
     filter WorldPush.is_run (snd run) = [WorldPush.Run tagging; WorldPush.Run pushing] /\
     (exists t, snd run
                = t ++ [WorldPush.Say Log (WorldPush.Pushed name tag);
                        WorldPush.Say Log (WorldPush.CheckIt o)]) /\
     (status = Some 0%Z ->
      filter WorldPush.is_success (snd run)
      = [WorldPush.Say Log (WorldPush.Pushed name tag);
         WorldPush.Say Log (WorldPush.Pushed name tag)]) /\
     (status <> Some 0%Z ->
      filter WorldPush.is_success (snd run)
      = [WorldPush.Say Log (WorldPush.Pushed name tag)] /\
      In (WorldPush.Say Warn (WorldPush.PushExited status)) (snd run))))
  /\
  (forall (R : Type) (H : Runtime R) (fs : Files) (world : json) (image : jsval)
          (r : R),
    existsSync fs (WorldPush.configPath fs) = true ->
    read_json fs (WorldPush.configPath fs) = inr world ->
    Js.prop world "image" = Some image ->
    Js.converts image = false \/ Js.converts (Js.field world "name") = false ->
    let run := WorldPush.main fs r in
    fst (fst run) = Throw Js.type_error /\
    exit_status (fst (fst run)) = 1%Z /\
    snd (fst run) = r /\
    snd run = []).
Proof.
  split.
  - intros R H fs world image o r E Rd P O C name tag tagging pushing run.
    assert (CI : Js.converts image = true)
      by (destruct image as [[| | |i| |]|]; try discriminate O; reflexivity).
    subst run. unfold WorldPush.main. rewrite E, Rd, P, CI, C. cbn [negb].
    fold name tag. split.
    + intros T. destruct (exec_sync r (WorldPush.tag_command name tag)) as [[out|] r1];
        [discriminate T|]. repeat split.
    + intros T. cbv zeta.
      destruct (exec_sync r (WorldPush.tag_command name tag)) as [[out|] r1];
        [|contradiction]. cbn [fst snd].
      destruct (spawn_sync r1 "docker" ["push"; tag]) as [status r2]. cbn [fst snd].
      unfold WorldPush.closing. rewrite O.
      destruct status as [[|p|p]|]; cbn [fst snd];
        (split; [reflexivity|]); (split; [reflexivity|]); (split; [reflexivity|]);
        (split; [reflexivity|]);
        (split; [eexists; reflexivity|]);
        (split; [intros S; try discriminate S; reflexivity|]);
        intros S; try contradiction; (split; [reflexivity|]); cbn; auto 10.
  - intros R H fs world image r E Rd P C run.
    subst run. unfold WorldPush.main. rewrite E, Rd, P. cbn [negb].
    destruct (Js.converts image).
    + destruct C as [C|C]; [discriminate C|]. rewrite C. repeat split.
    + repeat split.
Qed.

(** A host without [docker], where the tag fails; a host that is cut
    off from the registry, where the push does; and a world whose name
    is an object with a [toString] key. *)
Lemma push_announces_success_witness :
  fst (fst (WorldPush.main More.inside Sample.down)) = Exit 1%Z /\
  fst (fst (WorldPush.main More.inside {| More.pushes := 0 |})) = Ret tt /\
  filter WorldPush.is_success (snd (WorldPush.main More.inside {| More.pushes := 0 |}))
  = [WorldPush.Say Log (WorldPush.Pushed "demo" "x/demo:latest")] /\
  In (WorldPush.Say Warn (WorldPush.PushExited (Some 1%Z)))
     (snd (WorldPush.main More.inside {| More.pushes := 0 |})) /\
  WorldPush.main More.inside_unnamed Sample.busy
  = (Throw Js.type_error, Sample.busy, []).
Proof.
  destruct (proj1 push_announces_success Sim.docker _ More.inside
              Sample.demo (Some (JStr "x/demo")) "demo" Sample.down
              eq_refl eq_refl eq_refl eq_refl eq_refl) as [A _].
  destruct (proj1 push_announces_success More.offline _ More.inside
              Sample.demo (Some (JStr "x/demo")) "demo" {| More.pushes := 0 |}
              eq_refl eq_refl eq_refl eq_refl eq_refl) as [_ B].
  destruct (proj2 push_announces_success Sim.docker _ More.inside_unnamed
              More.unnamed (Some (JStr "x/demo")) Sample.busy
              eq_refl eq_refl eq_refl (or_intror eq_refl)) as (C1 & _ & C2 & C3).
  cbv zeta in A, B.
  split; [apply A; reflexivity|].
  destruct B as (B1 & _ & _ & _ & _ & _ & B2); [discriminate|].
  destruct B2 as (B2 & B3); [discriminate|].
  split; [exact B1|]. split; [exact B2|]. split; [exact B3|].
  destruct (WorldPush.main More.inside_unnamed Sample.busy) as [[o q] t].
  cbn [fst snd] in C1, C2, C3. rewrite C1, C2, C3. reflexivity.
Defined.

(* ================================================================== *)
(** ** The text injector *)
(* ================================================================== *)

Section InjectorFacts.

Lemma pick_in (names : list string) (fallback answer : string) :
  In fallback names -> In (Injector.pick names fallback answer) names.
Proof.
  intros F. unfold Injector.pick.
  destruct (Js.parseInt_text answer) as [n|]; [|exact F].
  destruct (n - 1 <? 0)%Z; [exact F|].
  destruct (nth_error names (Z.to_nat (n - 1))) as [s|] eqn:E; [|exact F].
  destruct (String.eqb s EmptyString); [exact F|].
  apply (nth_error_In _ _ E).
Qed.

Lemma pick_nth (names : list string) (fallback : string) (n : Z) :
  (1 <= n <= Z.of_nat (length names))%Z ->
  Forall (fun s => s <> EmptyString) names ->
  Injector.pick names fallback (Text.of_Z n)
  = nth (Z.to_nat (n - 1)) names fallback.
Proof.
  intros B NE. unfold Injector.pick. rewrite parseInt_of_Z.
  destruct (Z.ltb_spec (n - 1) 0); [lia|].
  destruct (nth_error names (Z.to_nat (n - 1))) as [s|] eqn:E.
  - rewrite (nth_error_nth _ _ _ E).
    rewrite Forall_forall in NE. specialize (NE s (nth_error_In _ _ E)).
    destruct (String.eqb_spec s EmptyString); [contradiction|reflexivity].
  - apply nth_error_None in E. lia.
Qed.

Context {R : Type} `{Runtime R}.
Variable fs : Files.

Lemma injector_load_dir (dir : string) (ws : list Injector.target) (r : R) :
  Injector.load_dir fs dir ws r
  = match classify fs (Portal.worldPath fs dir) with
    | WellFormed v =>
        (if Portal.observed v r
         then ws ++ [{| Injector.data := v; Injector.directory := dir;
                        Injector.containerId :=
                          hd "undefined"
                             (Text.split Text.nl
                                (Text.trim
                                   (match fst (exec_sync r (Portal.probe_command
                                                              (Js.field v "image"))) with
                                    | Some out => out
                                    | None => EmptyString
                                    end))) |}]
         else ws,
         Portal.after_probe v r,
         if Discovery.probed v
         then [ExecSync (Portal.probe_command (Js.field v "image"))] else [])
    | _ => (ws, r, [])
    end.
Proof.
  unfold Injector.load_dir, classify, Portal.after_probe, Portal.observed,
    Discovery.probed.
  destruct (existsSync fs (Portal.worldPath fs dir)); [|reflexivity].
  destruct (read_json fs (Portal.worldPath fs dir)) as [err|v]; [reflexivity|].
  destruct v; try reflexivity; unfold Js.field; cbn [Js.prop];
    try (destruct (exec_sync r _) as [[out|] r']; cbn [fst snd Js.converts negb];
         try destruct (String.eqb (Text.trim out) EmptyString); reflexivity).
  destruct (Js.converts (Js.lookup "image" fields)); cbn [negb]; [|reflexivity].
  destruct (exec_sync r _) as [[out|] r']; cbn [fst snd];
    try destruct (String.eqb (Text.trim out) EmptyString); reflexivity.
Qed.

Lemma injector_load_dirs (dirs : list string) (ws : list Injector.target) (r : R) :
  exists found,
    Injector.load_dirs fs dirs ws r
    = (ws ++ found, Portal.scan_state fs dirs r,
       commands (Portal.scan_trace fs dirs r)) /\
    filter (fun e => Discovery.named (snd e))
           (map (fun w => (Injector.directory w, Injector.data w)) found)
    = map (fun w => (Portal.directory w, Portal.data w))
          (filter Portal.isRunning (Portal.scanned fs dirs r)) /\
    incl (map (fun w => (Injector.directory w, Injector.data w)) found)
         (Discovery.well_formed fs (Portal.worldPath fs) dirs).
Proof.
  revert ws r. induction dirs as [|dir rest IH]; intros ws r.
  - exists []. split; [cbn; rewrite app_nil_r; reflexivity|].
    split; [reflexivity | intros e []].
  - cbn [Injector.load_dirs Portal.scan_state Portal.scan_trace Portal.scanned
         Discovery.well_formed].
    rewrite injector_load_dir.
    destruct (classify fs (Portal.worldPath fs dir)) as [|err|v].
    + destruct (IH ws r) as (found & E & M & I). exists found. rewrite E.
      split; [reflexivity|]. split; assumption.
    + destruct (IH ws r) as (found & E & M & I). exists found. rewrite E.
      split; [reflexivity|]. split; assumption.
    + assert (C : commands
                    ((if Discovery.probed v
                      then [ExecSync (Portal.probe_command (Js.field v "image"))]
                      else [])
                     ++ (if Discovery.named v then []
                         else [Print Error (FailedToLoad dir Js.type_error)])
                     ++ Portal.scan_trace fs rest (Portal.after_probe v r))
                  = (if Discovery.probed v
                     then [ExecSync (Portal.probe_command (Js.field v "image"))]
                     else [])
                    ++ commands (Portal.scan_trace fs rest (Portal.after_probe v r))).
      { unfold commands. rewrite !filter_app.
        destruct (Discovery.probed v); destruct (Discovery.named v); reflexivity. }
      rewrite C. clear C.
      destruct (Portal.observed v r) eqn:O.
      * destruct (IH (ws ++ [{| Injector.data := v; Injector.directory := dir;
                                 Injector.containerId :=
                                   hd "undefined"
                                      (Text.split Text.nl
                                         (Text.trim
                                            (match fst (exec_sync r
                                                          (Portal.probe_command
                                                             (Js.field v "image"))) with
                                             | Some out => out
                                             | None => EmptyString
                                             end))) |}])
                      (Portal.after_probe v r)) as (found & E & M & I).
        eexists (_ :: found). rewrite E, <- app_assoc. split; [reflexivity|].
        cbn [map Injector.directory Injector.data filter snd]. split.
        -- destruct (Discovery.named v);
             cbn [filter Portal.isRunning map Portal.directory Portal.data];
             rewrite ?O; cbn [map Portal.directory Portal.data];
             rewrite M; reflexivity.
        -- intros e [<-|He]; [left; reflexivity | right; apply I; exact He].
      * destruct (IH ws (Portal.after_probe v r)) as (found & E & M & I).
        exists found. rewrite E. split; [reflexivity|]. split.
        -- destruct (Discovery.named v);
             cbn [filter Portal.isRunning]; rewrite ?O; exact M.
        -- intros e He. right. apply I. exact He.
Qed.

End InjectorFacts.

(** X18.  The injector and the portal scan the working directory alike:
    [loadRunningWorlds] hands the runtime the same probes in the same
    order and leaves it in the same state.  The worlds that the portal
    shows as running are, in the same order, those on the list of the
    injector whose name converts to text: the portal has refused the
    others with an error, the injector has pushed them (the menu that
    prints the list is a later step).  So when the names of the
    well-formed descriptors all convert, the list of the injector holds
    exactly the worlds that the portal shows as running.  A descriptor
    that cannot be read and a probe that fails are passed over in
    silence, where the portal prints an error for the first. *)
Theorem injector_offers_the_running_worlds :
  forall (R : Type) (H : Runtime R) (fs : Files) (dirs : list string) (r : R),
    let offered := Injector.load_dirs fs dirs [] r in
    let shown := Portal.scanned fs dirs r in
    let target w := (Injector.directory w, Injector.data w) in
    let view w := (Portal.directory w, Portal.data w) in
    map view (filter Portal.isRunning shown)
    = filter (fun e => Discovery.named (snd e)) (map target (fst (fst offered))) /\
    (Forall (fun e => Discovery.named (snd e) = true)
            (Discovery.well_formed fs (Portal.worldPath fs) dirs) ->
     map target (fst (fst offered)) = map view (filter Portal.isRunning shown)) /\
    snd (fst offered) = Portal.scan_state fs dirs r /\
    snd offered = commands (trace_of (Portal.load_dirs fs dirs [] r)) /\
    (length (filter Portal.isRunning shown) <= length (fst (fst offered)))%nat.
Proof.
  intros R H fs dirs r offered shown target view. subst offered shown target view.
  destruct (injector_load_dirs fs dirs [] r) as (found & E & M & I).
  rewrite E, load_dirs_spec. cbn [fst snd app trace_of].
  split; [symmetry; exact M|]. split; [|split; [reflexivity|split; [reflexivity|]]].
  - intros F. rewrite <- M. symmetry. apply forallb_filter_id.
    apply forallb_forall. intros e He.
    rewrite Forall_forall in F. apply F. apply I. exact He.
  - rewrite <- (length_map (fun w => (Portal.directory w, Portal.data w))), <- M.
    rewrite <- (length_map (fun w => (Injector.directory w, Injector.data w)) found).
    apply filter_length_le.
Qed.

(** Three worlds, of which [live] is not running; and a directory in
    which the world whose name is no text runs: the injector offers it,
    the portal does not show it. *)
Lemma injector_offers_the_running_worlds_witness :
  map (fun w => (Injector.directory w, Injector.data w))
      (fst (fst (Injector.load_dirs Sample.three ["demo"; "live"; "shell"] []
                   Sample.busy)))
  = [("demo", Sample.demo); ("shell", Sample.shell)] /\
  map Injector.containerId
      (fst (fst (Injector.load_dirs Sample.three ["demo"; "live"; "shell"] []
                   Sample.busy)))
  = ["a1"; "c3"] /\
  map (fun w => (Injector.directory w, Injector.data w))
      (fst (fst (Injector.load_dirs More.odd ["masked"; "unnamed"; "demo"] []
                   Sample.busy)))
  = [("unnamed", More.unnamed); ("demo", Sample.demo)] /\
  map Portal.directory
      (filter Portal.isRunning
         (Portal.scanned More.odd ["masked"; "unnamed"; "demo"] Sample.busy))
  = ["demo"].
Proof.
  destruct (injector_offers_the_running_worlds Sim.docker _ Sample.three
              ["demo"; "live"; "shell"] Sample.busy) as (_ & A & _).
  cbv zeta in A.
  split; [rewrite A; [reflexivity | repeat constructor]|].
  repeat split.
Defined.

(** X19.  Whatever is answered, the injector runs with between 1 and 10
    streams, a delay between 10 and 1000 ms, and a pattern, a colour
    effect and a text generator out of its tables: an answer outside the
    range is clamped or replaced by the default, never refused.  An
    answer inside the range is taken as given: a number of streams from
    1 to 10 and a delay from 10 to 1000 are the ones used, and the
    pattern, the colour effect and the text generator are the entries of
    their tables with the number answered, counting from 1.  One stream
    is created for each unit of the stream count, numbered from 0. *)
Theorem injection_settings_are_clamped :
  forall (c : Injector.injectionConfig) (a1 a2 a3 a4 a5 : string),
    let c' := Injector.configureInjection c a1 a2 a3 a4 a5 in
    (1 <= Injector.streams c' <= 10)%Z /\
    (10 <= Injector.speed c' <= 1000)%Z /\
    In (Injector.pattern c') Injector.patterns /\
    In (Injector.colorEffect c') Injector.effects /\
    In (Injector.textGenerator c') Injector.generators /\
    (1 <= length (Injector.stream_indices c') <= 10)%nat /\
    Z.of_nat (length (Injector.stream_indices c')) = Injector.streams c' /\
    (forall i, In i (Injector.stream_indices c') <->
               (0 <= i < Injector.streams c')%Z) /\
    (forall n, (1 <= n <= 10)%Z ->
       Injector.streams (Injector.configureInjection c a1 a2 a3 (Text.of_Z n) a5) = n /\
       length (Injector.stream_indices
                 (Injector.configureInjection c a1 a2 a3 (Text.of_Z n) a5))
       = Z.to_nat n) /\
    (forall n, (10 <= n <= 1000)%Z ->
       Injector.speed (Injector.configureInjection c a1 a2 a3 a4 (Text.of_Z n)) = n) /\
    (forall n, (1 <= n <= 5)%Z ->
       Injector.pattern (Injector.configureInjection c (Text.of_Z n) a2 a3 a4 a5)
       = nth (Z.to_nat (n - 1)) Injector.patterns "wave") /\
    (forall n, (1 <= n <= 4)%Z ->
       Injector.colorEffect (Injector.configureInjection c a1 (Text.of_Z n) a3 a4 a5)
       = nth (Z.to_nat (n - 1)) Injector.effects "rainbow") /\
    (forall n, (1 <= n <= 5)%Z ->
       Injector.textGenerator (Injector.configureInjection c a1 a2 (Text.of_Z n) a4 a5)
       = nth (Z.to_nat (n - 1)) Injector.generators "lorem") /\
    (let chosen := Injector.configureInjection c "3" "2" "4" "7" "250" in
     Injector.pattern chosen = "spiral" /\
     Injector.colorEffect chosen = "fire" /\
     Injector.textGenerator chosen = "numbers" /\
     Injector.streams chosen = 7%Z /\
     Injector.speed chosen = 250%Z /\
     Injector.stream_indices chosen = [0; 1; 2; 3; 4; 5; 6]%Z).
Proof.
  intros c a1 a2 a3 a4 a5 c'. subst c'.
  cbn [Injector.configureInjection Injector.streams Injector.speed Injector.pattern
       Injector.colorEffect Injector.textGenerator].
  split; [lia|]. split; [lia|].
  split; [apply pick_in; cbn; auto|].
  split; [apply pick_in; cbn; auto|].
  split; [apply pick_in; cbn; auto 6|].
  split; [|split; [|split; [|split; [|split; [|split; [|split; [|split]]]]]]].
  - unfold Injector.stream_indices.
    rewrite length_map, length_seq.
    cbn [Injector.configureInjection Injector.streams]. lia.
  - unfold Injector.stream_indices.
    rewrite length_map, length_seq.
    cbn [Injector.configureInjection Injector.streams]. lia.
  - intros i. unfold Injector.stream_indices.
    cbn [Injector.configureInjection Injector.streams].
    rewrite in_map_iff. split.
    + intros (k & <- & K). apply in_seq in K. lia.
    + intros B. exists (Z.to_nat i). split; [lia|]. apply in_seq. lia.
  - intros n B.
    assert (E : Z.min 10 (Z.max 1 (Injector.number_or 1 (Text.of_Z n))) = n).
    { unfold Injector.number_or. rewrite parseInt_of_Z.
      destruct (Z.eqb_spec n 0); lia. }
    split; [exact E|].
    unfold Injector.stream_indices.
    cbn [Injector.configureInjection Injector.streams].
    rewrite length_map, length_seq, E. reflexivity.
  - intros n B. unfold Injector.number_or. rewrite parseInt_of_Z.
    destruct (Z.eqb_spec n 0); lia.
  - intros n B. apply pick_nth; [cbn; lia|].
    repeat constructor; discriminate.
  - intros n B. apply pick_nth; [cbn; lia|].
    repeat constructor; discriminate.
  - intros n B. apply pick_nth; [cbn; lia|].
    repeat constructor; discriminate.
  - repeat split.
Qed.

(** X20.  The world to inject into is chosen by its 1-based number: a
    number from 1 to the length of the list selects that element, and
    every other answer, a number outside the list or no number at all,
    ends the injector. *)
Theorem injector_selection_is_one_based :
  forall (worlds : list Injector.target),
    (forall (answer : string) (w : Injector.target),
       Injector.selectWorld worlds answer = Some w -> In w worlds) /\
    (forall n, (1 <= n <= Z.of_nat (length worlds))%Z ->
       exists w, Injector.selectWorld worlds (Text.of_Z n) = Some w /\
                 nth_error worlds (Z.to_nat (n - 1)) = Some w) /\
    (forall n, (n <= 0 \/ Z.of_nat (length worlds) < n)%Z ->
       Injector.selectWorld worlds (Text.of_Z n) = None) /\
    (forall answer, Js.parseInt_text answer = None ->
       Injector.selectWorld worlds answer = None).
Proof.
  intros worlds. split; [|split; [|split]].
  - intros answer w. unfold Injector.selectWorld.
    destruct (Js.parseInt_text answer) as [n|]; [|discriminate].
    destruct (_ && _); [|discriminate]. apply nth_error_In.
  - intros n B. unfold Injector.selectWorld. rewrite parseInt_of_Z.
    destruct (Z.leb_spec 0 (n - 1)); [|lia].
    destruct (Z.ltb_spec (n - 1) (Z.of_nat (length worlds))); [|lia].
    cbn [andb].
    destruct (nth_error worlds (Z.to_nat (n - 1))) as [w|] eqn:E.
    + exists w. split; reflexivity.
    + apply nth_error_None in E. lia.
  - intros n B. unfold Injector.selectWorld. rewrite parseInt_of_Z.
    destruct (Z.leb_spec 0 (n - 1)); destruct (Z.ltb_spec (n - 1) (Z.of_nat (length worlds)));
      cbn [andb]; try reflexivity; lia.
  - intros answer N. unfold Injector.selectWorld. rewrite N. reflexivity.
Qed.

(* ================================================================== *)
(** ** The controls of the log theater *)
(* ================================================================== *)

Section TheaterFacts.

Lemma theater_step (i : Theater.input) (s : Theater.show) :
  (500 <= Theater.speed s <= 5000)%Z /\ (1 <= Theater.currentAct s <= 3)%Z /\
  Theater.spawnEvery s = 2000%Z ->
  (500 <= Theater.speed (Theater.handle i s) <= 5000)%Z /\
  (1 <= Theater.currentAct (Theater.handle i s) <= 3)%Z /\
  Theater.spawnEvery (Theater.handle i s) = 2000%Z.
Proof.
  intros (S & A & E). unfold Theater.handle, Theater.speed_or.
  destruct i; cbn [Theater.speed Theater.currentAct Theater.spawnEvery];
    repeat split; try lia;
    try (destruct (Z.eqb_spec (Theater.speed s) 0); lia);
    pose proof (Z.mod_pos_bound (Theater.currentAct s) 3); lia.
Qed.

Lemma theater_run (inputs : list Theater.input) (s : Theater.show) :
  (500 <= Theater.speed s <= 5000)%Z /\ (1 <= Theater.currentAct s <= 3)%Z /\
  Theater.spawnEvery s = 2000%Z ->
  (500 <= Theater.speed (Theater.run inputs s) <= 5000)%Z /\
  (1 <= Theater.currentAct (Theater.run inputs s) <= 3)%Z /\
  Theater.spawnEvery (Theater.run inputs s) = 2000%Z.
Proof.
  revert s. induction inputs as [|i rest IH]; intros s I; [exact I|].
  unfold Theater.run in *. cbn [fold_left]. apply IH, theater_step, I.
Qed.

End TheaterFacts.

(** X21.  The controls of the log theater act on its state and keep it
    in range.  The space bar toggles the pause and nothing else; the up
    key takes 200 off the speed, down to 500 at least, and the down key
    adds 200, up to 5000 at most, so that each changes the speed unless
    it is at its bound; a tick of the act timer moves the act on, from 1
    to 2, from 2 to 3 and from 3 back to 1.  Whatever keys are pressed
    and however often the act timer fires, the speed stays between 500
    and 5000 and the act between 1 and 3; the acts come round after
    three ticks, and pausing twice resumes.  The delay of the spawn
    timer is read once, when the show starts: the speed keys change the
    field, not the timer. *)
Theorem theater_controls_stay_in_range :
  forall (inputs : list Theater.input),
    let s := Theater.run inputs Theater.startShow in
    (500 <= Theater.speed s <= 5000)%Z /\
    (1 <= Theater.currentAct s <= 3)%Z /\
    Theater.spawnEvery s = 2000%Z /\
    Theater.currentAct
      (Theater.run [Theater.ActTimer; Theater.ActTimer; Theater.ActTimer] s)
    = Theater.currentAct s /\
    Theater.run [Theater.Space; Theater.Space] s = s /\
    (Theater.speed (Theater.handle Theater.Up s) <= Theater.speed s)%Z /\
    (Theater.speed s <= Theater.speed (Theater.handle Theater.Down s))%Z /\
    Theater.handle Theater.Space s
    = {| Theater.speed := Theater.speed s;
         Theater.currentAct := Theater.currentAct s;
         Theater.isPaused := negb (Theater.isPaused s);
         Theater.spawnEvery := Theater.spawnEvery s |} /\
    Theater.isPaused (Theater.handle Theater.Space s) <> Theater.isPaused s /\
    Theater.handle Theater.Up s
    = {| Theater.speed := Z.max 500 (Theater.speed s - 200);
         Theater.currentAct := Theater.currentAct s;
         Theater.isPaused := Theater.isPaused s;
         Theater.spawnEvery := Theater.spawnEvery s |} /\
    Theater.handle Theater.Down s
    = {| Theater.speed := Z.min 5000 (Theater.speed s + 200);
         Theater.currentAct := Theater.currentAct s;
         Theater.isPaused := Theater.isPaused s;
         Theater.spawnEvery := Theater.spawnEvery s |} /\
    ((500 < Theater.speed s)%Z ->
     (Theater.speed (Theater.handle Theater.Up s) < Theater.speed s)%Z) /\
    ((Theater.speed s < 5000)%Z ->
     (Theater.speed s < Theater.speed (Theater.handle Theater.Down s))%Z) /\
    Theater.currentAct (Theater.handle Theater.ActTimer s)
    = (if (Theater.currentAct s =? 3)%Z then 1 else Theater.currentAct s + 1)%Z /\
    Theater.currentAct (Theater.handle Theater.ActTimer s) <> Theater.currentAct s /\
    Theater.speed (Theater.handle Theater.ActTimer s) = Theater.speed s /\
    Theater.isPaused (Theater.handle Theater.ActTimer s) = Theater.isPaused s /\
    Theater.speed (Theater.run [Theater.Up; Theater.Up] Theater.startShow) = 1600%Z /\
    Theater.speed (Theater.run [Theater.Down] Theater.startShow) = 2200%Z /\
    Theater.currentAct (Theater.run [Theater.ActTimer] Theater.startShow) = 2%Z /\
    Theater.isPaused (Theater.run [Theater.Space] Theater.startShow) = true.
Proof.
  intros inputs s.
  assert (I : (500 <= Theater.speed s <= 5000)%Z /\
              (1 <= Theater.currentAct s <= 3)%Z /\
              Theater.spawnEvery s = 2000%Z).
  { apply theater_run. cbn. lia. }
  destruct I as (S & A & E).
  assert (O : Theater.speed_or s = Theater.speed s).
  { unfold Theater.speed_or. destruct (Z.eqb_spec (Theater.speed s) 0); [lia|].
    reflexivity. }
  assert (C : Theater.currentAct s = 1%Z \/ Theater.currentAct s = 2%Z
              \/ Theater.currentAct s = 3%Z) by lia.
  split; [exact S|]. split; [exact A|]. split; [exact E|].
  split; [|split; [|split; [|split]]].
  - cbn. destruct C as [-> |[-> | ->]]; reflexivity.
  - cbn. rewrite negb_involutive. destruct s; reflexivity.
  - cbn. rewrite O. lia.
  - cbn. rewrite O. lia.
  - split; [reflexivity|].
    split; [cbn; destruct (Theater.isPaused s); discriminate|].
    split; [cbn; rewrite O; reflexivity|].
    split; [cbn; rewrite O; reflexivity|].
    split; [intros B; cbn; rewrite O; lia|].
    split; [intros B; cbn; rewrite O; lia|].
    split; [cbn; destruct C as [-> |[-> | ->]]; reflexivity|].
    split; [cbn; destruct C as [-> |[-> | ->]]; discriminate|].
    repeat split.
Qed.

(* ================================================================== *)
(** ** The portal, [world-stop.js] and the daemon on one machine *)
(* ================================================================== *)

Section Machine.
Import Sim.

Lemma word_plain (w : string) :
  Text.free_of Text.sp w = true -> word w = (w, EmptyString).
Proof.
  unfold Text.free_of. induction w as [|c w IH]; [reflexivity|].
  cbn [Text.all_chars word]. intros F. apply andb_prop in F. destruct F as [C F].
  cbv beta in C.
  destruct (Ascii.eqb c Text.sp); [discriminate C|].
  rewrite (IH F). reflexivity.
Qed.

Lemma argv_plain (dir : string) :
  Text.free_of Text.sp dir = true -> dir <> EmptyString -> Host.argv dir = [dir].
Proof.
  intros F N. unfold Host.argv. rewrite (word_plain dir F).
  destruct (String.eqb_spec dir EmptyString); [contradiction|reflexivity].
Qed.

(** A probe of the portal reaches the daemon, which it leaves as it
    is. *)
Lemma host_probe (m : Host.machine) (image : jsval) :
  snd (exec_sync m (Portal.probe_command image)) = m.
Proof.
  cbn [exec_sync Host.machine_runtime]. unfold Host.exec, Portal.probe_command.
  cbn [Sim.strip_prefix append Ascii.eqb Bool.eqb].
  unfold Sim.exec.
  destruct (negb (up (Host.daemon m))); [destruct m; reflexivity|].
  cbn [Sim.strip_prefix append Ascii.eqb Bool.eqb snd].
  destruct m; reflexivity.
Qed.

Lemma host_scan_state (fs : Files) (dirs : list string) (m : Host.machine) :
  Portal.scan_state fs dirs m = m.
Proof.
  induction dirs as [|dir rest IH]; [reflexivity|].
  cbn [Portal.scan_state].
  destruct (classify fs (Portal.worldPath fs dir)) as [|err|v]; try exact IH.
  unfold Portal.after_probe.
  destruct (Discovery.probed v); [rewrite host_probe|]; exact IH.
Qed.

Lemma host_loadWorlds_state (fs : Files) (st : Portal.portal) (m : Host.machine) :
  state_of (Portal.loadWorlds fs st m) = m.
Proof.
  destruct (readdir_dirs fs (cwd fs)) as [dirs|] eqn:E.
  - rewrite (loadWorlds_spec fs st m dirs E). observe.
    destruct (length _ =? 0)%nat; cbn [state_of fst snd]; apply host_scan_state.
  - unfold Portal.loadWorlds. unfold_console. step. rewrite E. reflexivity.
Qed.

Lemma host_reload_state (fs : Files) (st : Portal.portal) (m : Host.machine) :
  state_of ((st' <- Portal.loadWorlds fs st ;; Portal.showPortal st' ;; ret st') m) = m.
Proof.
  pose proof (host_loadWorlds_state fs st m) as L.
  unfold bind at 1.
  destruct (Portal.loadWorlds fs st m) as [[[st'| |] m1] t1];
    cbn [state_of fst snd] in L; subst m1; try reflexivity.
  destruct (show_ret st' m) as (A & _). cbv zeta in A.
  destruct (bind (Portal.showPortal st') (fun _ => ret st') m) as [[o m2] t2].
  cbn [state_of fst snd] in A |- *. exact A.
Qed.

(** [s] on a running world: whatever the child and the reload do, the
    machine ends in the state the child left. *)
Lemma host_stop_state (fs : Files) (st : Portal.portal) (w : Portal.world_view)
    (m : Host.machine) :
  Portal.selected st = Some w -> Portal.isRunning w = true ->
  state_of (Portal.handleKey fs Portal.KeyS st m)
  = snd (exec_sync m ("node world-stop.js " ++ Portal.directory w)%string) /\
  hd_error (commands (trace_of (Portal.handleKey fs Portal.KeyS st m)))
  = Some (ExecSync ("node world-stop.js " ++ Portal.directory w)%string).
Proof.
  intros S Run. cbn [Portal.handleKey]. unfold Portal.stopWorld, Portal.current.
  rewrite S. step. rewrite Run. cbn [negb]. unfold_console. step.
  observe. unfold commands. cbn [app filter is_command].
  unfold try_catch. rewrite bind_execSync.
  destruct (exec_sync m ("node world-stop.js " ++ Portal.directory w)%string)
    as [[out|] m1]; cbn [snd].
  - pose proof (host_reload_state fs st m1) as L.
    destruct ((st' <- Portal.loadWorlds fs st ;; Portal.showPortal st' ;; ret st') m1)
      as [[[st'| |] m2] t2]; cbn [state_of fst snd] in L; subst m2;
      cbn [pre app state_of trace_of fst snd filter is_command hd_error];
      try (split; reflexivity).
    repeat step.
    destruct (show_ret st m1) as (A & _). cbv zeta in A.
    destruct (bind (Portal.showPortal st) (fun _ => ret st) m1) as [[o m3] t3].
    cbn [state_of fst snd pre] in A |- *. subst m3.
    cbn [filter is_command hd_error app]. split; reflexivity.
  - cbn [pre app]. repeat step.
    destruct (show_ret st m1) as (A & _). cbv zeta in A.
    destruct (bind (Portal.showPortal st) (fun _ => ret st) m1) as [[o m3] t3].
    cbn [state_of fst snd pre] in A |- *. subst m3.
    cbn [filter is_command hd_error app trace_of snd]. split; reflexivity.
Qed.

End Machine.

Section MachineStop.
Import Sim.
Variable fs : Files.

(** The stop requests of [world-stop.js] in the simulated runtime. *)
Lemma sim_stop_requests (args : list string) (world : json)
    (imageName : jsval) (d : docker) :
  WorldStop.descriptor fs args world imageName ->
  up d = true -> tidy d = true ->
  Text.is_token (Js.text imageName) = true ->
  stops (trace_of (WorldStop.main fs args d))
  = map (fun c => ExecSync (WorldStop.stop_command (cid c)))
        (matching (Js.text imageName) d).
Proof.
  intros D U T I.
  destruct (matching (Js.text imageName) d) as [|c cs] eqn:M.
  - destruct (sim_probe d imageName U T I) as (P & Z & _).
    rewrite (stop_main_probed fs args world imageName d d _ D (token_converts _ I) P).
    rewrite (Z M). cbn [String.eqb trace_of snd].
    unfold stops. cbn [filter]. rewrite is_stop_ps_command. reflexivity.
  - rewrite <- M.
    apply (sim_stop_asks_every_instance fs args world imageName d D U T I).
    rewrite M. discriminate.
Qed.

Lemma host_world_stop (d : docker) (journal : list event) (dir : string) :
  Text.free_of Text.sp dir = true -> dir <> EmptyString ->
  snd (exec_sync {| Host.disk := fs; Host.daemon := d; Host.journal := journal |}
                 ("node world-stop.js " ++ dir)%string)
  = {| Host.disk := fs;
       Host.daemon := state_of (WorldStop.main fs [dir] d);
       Host.journal := journal ++ trace_of (WorldStop.main fs [dir] d) |}.
Proof.
  intros F N. cbn [exec_sync Host.machine_runtime]. unfold Host.exec.
  rewrite strip_prefix_app, (argv_plain dir F N).
  unfold Host.child. cbn [Host.disk Host.daemon Host.journal].
  destruct (exit_status _ =? 0)%Z; reflexivity.
Qed.

End MachineStop.

(** X22.  The key [s] end to end, on a machine that runs the child
    scripts against a simulated daemon.  On a world shown as running
    the portal starts [world-stop.js] with the directory of the world;
    the child asks the daemon to stop every running container of the
    image, in the order of the listing, and when none of them refuses
    no container of the image is left running, whatever the reload and
    the redraw that follow do. *)
Theorem portal_stop_reaches_the_containers :
  forall (fs : Files) (st : Portal.portal) (w : Portal.world_view)
         (d : Sim.docker) (journal : list event) (world : json) (imageName : jsval),
    Portal.selected st = Some w ->
    Portal.isRunning w = true ->
    Text.free_of Text.sp (Portal.directory w) = true ->
    Portal.directory w <> EmptyString ->
    WorldStop.descriptor fs [Portal.directory w] world imageName ->
    Sim.up d = true -> Sim.tidy d = true ->
    Text.is_token (Js.text imageName) = true ->
    let run :=
      Portal.handleKey fs Portal.KeyS st
        {| Host.disk := fs; Host.daemon := d; Host.journal := journal |} in
    hd_error (commands (trace_of run))
    = Some (ExecSync ("node world-stop.js " ++ Portal.directory w)%string) /\
    stops (Host.journal (state_of run))
    = stops journal
      ++ map (fun c => ExecSync (WorldStop.stop_command (Sim.cid c)))
             (Sim.matching (Js.text imageName) d) /\
    ((forall c, In c (Sim.matching (Js.text imageName) d) ->
                Sim.mem (Sim.cid c) (Sim.stubborn d) = false) ->
     Sim.up (Host.daemon (state_of run)) = true /\
     Sim.matching (Js.text imageName) (Host.daemon (state_of run)) = []).
Proof.
  intros fs st w d journal world imageName S Run F N D U T I run. subst run.
  destruct (host_stop_state fs st w
              {| Host.disk := fs; Host.daemon := d; Host.journal := journal |} S Run)
    as [E C].
  rewrite E, (host_world_stop fs d journal _ F N).
  cbn [Host.daemon Host.journal].
  split; [exact C|]. split.
  - unfold stops. rewrite filter_app.
    fold (stops (trace_of (WorldStop.main fs [Portal.directory w] d))).
    rewrite (sim_stop_requests fs _ world imageName d D U T I). reflexivity.
  - intros Q. apply (sim_stop_leaves_none fs _ world imageName d D U T I Q).
Qed.

(** [s] on [demo] in a portal over three worlds, two instances of
    [x/demo] running. *)
Lemma portal_stop_reaches_the_containers_witness :
  stops (Host.journal
           (state_of
              (Portal.handleKey Sample.three Portal.KeyS
                 {| Portal.worlds :=
                      Portal.scanned Sample.three ["demo"; "live"; "shell"] Sample.calm;
                    Portal.selectedIndex := 0 |}
                 (More.machine Sample.three Sample.calm))))
  = [ExecSync "docker stop a1"; ExecSync "docker stop d4"]
  /\
  Sim.matching "x/demo"
    (Host.daemon
       (state_of
          (Portal.handleKey Sample.three Portal.KeyS
             {| Portal.worlds :=
                  Portal.scanned Sample.three ["demo"; "live"; "shell"] Sample.calm;
                Portal.selectedIndex := 0 |}
             (More.machine Sample.three Sample.calm)))) = [].
Proof.
  destruct (portal_stop_reaches_the_containers Sample.three
              {| Portal.worlds :=
                   Portal.scanned Sample.three ["demo"; "live"; "shell"] Sample.calm;
                 Portal.selectedIndex := 0 |}
              {| Portal.data := Sample.demo; Portal.directory := "demo";
                 Portal.isRunning := true |}
              Sample.calm [] Sample.demo (Some (JStr "x/demo")))
    as (_ & J & K).
  - reflexivity.
  - reflexivity.
  - reflexivity.
  - discriminate.
  - repeat split.
  - reflexivity.
  - reflexivity.
  - reflexivity.
  - split; [exact J|]. apply K. intros c _. reflexivity.
Defined.

(* ================================================================== *)
(** ** Which keys of the portal reach the runtime *)
(* ================================================================== *)

Section Dispatch.
Context {R : Type} `{Runtime R}.
Variable fs : Files.

Lemma quiet_key (k : Portal.key) (st : Portal.portal) (r : R) :
  In k [Portal.Up; Portal.Down; Portal.KeyI; Portal.KeyQ; Portal.Escape;
        Portal.OtherKey; Portal.NoKey] ->
  commands (trace_of (Portal.handleKey fs k st r)) = [] /\
  state_of (Portal.handleKey fs k st r) = r.
Proof.
  intros K. cbn [In] in K.
  destruct K as [<-|[<-|[<-|[<-|[<-|[<-|[<-|[]]]]]]]]; cbn [Portal.handleKey];
    try (split; reflexivity).
  - destruct (show_ret (Portal.cursor Portal.Up st) r) as (A & B & _).
    split; [exact B | exact A].
  - destruct (show_ret (Portal.cursor Portal.Down st) r) as (A & B & _).
    split; [exact B | exact A].
  - unfold Portal.injectData, Portal.current.
    destruct (Portal.selected st) as [w|]; [|split; reflexivity].
    step. unfold_console.
    destruct (show_ret st r) as (A & B & _). cbv zeta in A, B.
    destruct (negb (Portal.isRunning w)); repeat step; observe;
      rewrite A; unfold commands in *; cbn [app filter is_command]; rewrite B;
      split; reflexivity.
Qed.

End Dispatch.

(** X23.  Of the keys of the portal only Enter, [s], [l] and [r] ever
    hand anything to the runtime: the arrows, [i], [q], Escape and any
    other key leave it untouched.  Enter starts [world-launch.js] on the
    directory of the selected world without looking at whether the
    world is running already.  [l] on a running world asks for the
    first container of the image and follows its logs; when the answer
    is empty nothing more happens, and the screen is not drawn again. *)
Theorem portal_key_dispatch :
  forall (R : Type) (H : Runtime R) (fs : Files) (st : Portal.portal) (r : R),
    (forall k,
       In k [Portal.Up; Portal.Down; Portal.KeyI; Portal.KeyQ; Portal.Escape;
             Portal.OtherKey; Portal.NoKey] ->
       commands (trace_of (Portal.handleKey fs k st r)) = [] /\
       state_of (Portal.handleKey fs k st r) = r) /\
    result_of (Portal.handleKey fs Portal.KeyQ st r) = Exit 0%Z /\
    (forall w, Portal.selected st = Some w ->
       hd_error (commands (trace_of (Portal.handleKey fs Portal.Return st r)))
       = Some (Spawn "node" ["world-launch.js"; Portal.directory w])) /\
    (forall w out r1,
       Portal.selected st = Some w -> Portal.isRunning w = true ->
       exec_sync r (Portal.logs_probe (Portal.field w "image")) = (Some out, r1) ->
       (Text.trim out = EmptyString ->
        Portal.handleKey fs Portal.KeyL st r
        = (Ret st, r1,
           [Print Log (ViewingLogs (Js.text (Portal.field w "name")));
            ExecSync (Portal.logs_probe (Portal.field w "image"))])) /\
       (Text.trim out <> EmptyString ->
        commands (trace_of (Portal.handleKey fs Portal.KeyL st r))
        = [ExecSync (Portal.logs_probe (Portal.field w "image"));
           Spawn "docker" ["logs"; "-f"; Text.trim out]])).
Proof.
  intros R H fs st r. split; [|split; [|split]].
  - intros k K. apply quiet_key. exact K.
  - reflexivity.
  - intros w S. cbn [Portal.handleKey]. unfold Portal.launchWorld, Portal.current.
    rewrite S. step. unfold_console. repeat step. observe.
    unfold commands. cbn [app filter is_command hd_error]. reflexivity.
  - intros w out r1 S Run P. cbn [Portal.handleKey].
    unfold Portal.viewLogs, Portal.current. rewrite S. step. rewrite Run.
    cbn [negb]. unfold_console. step. unfold try_catch. rewrite bind_execSync, P.
    split.
    + intros E. rewrite E. cbn [String.eqb]. reflexivity.
    + intros N. apply String.eqb_neq in N. rewrite N.
      rewrite bind_spawnChild. cbn [pre app].
      destruct (spawn r1 "docker" ["logs"; "-f"; Text.trim out]) as [[code|] r2];
        cbn [fst snd]; rewrite bind_on_exit.
      * destruct (show_ret st r2) as (_ & B & _). cbv zeta in B.
        destruct (bind (Portal.showPortal st) (fun _ => ret st) r2)
          as [[[st'| |e] r3] t3]; cbn [trace_of snd pre app] in B |- *;
          repeat step; unfold commands in *; cbn [filter is_command app];
          try (rewrite B; reflexivity).
        destruct (show_ret st r3) as (_ & B' & _). cbv zeta in B'.
        destruct (bind (Portal.showPortal st) (fun _ => ret st) r3) as [[o r4] t4].
        cbn [trace_of snd pre app] in B' |- *.
        unfold commands in B'. cbn [filter is_command].
        rewrite filter_app, B. cbn [filter is_command app]. rewrite B'. reflexivity.
      * cbn [pre app]. repeat step.
        destruct (show_ret st r2) as (_ & B & _). cbv zeta in B.
        destruct (bind (Portal.showPortal st) (fun _ => ret st) r2) as [[o r3] t3].
        cbn [trace_of snd pre app] in B |- *.
        unfold commands in *. cbn [filter is_command app]. rewrite B. reflexivity.
Qed.

(** Enter on [demo], which is running already. *)
Lemma portal_key_dispatch_witness :
  hd_error
    (commands
       (trace_of
          (Portal.handleKey Sample.three Portal.Return
             {| Portal.worlds :=
                  Portal.scanned Sample.three ["demo"; "live"; "shell"] Sample.busy;
                Portal.selectedIndex := 0 |} Sample.busy)))
  = Some (Spawn "node" ["world-launch.js"; "demo"]).
Proof.
  destruct (portal_key_dispatch Sim.docker _ Sample.three
              {| Portal.worlds :=
                   Portal.scanned Sample.three ["demo"; "live"; "shell"] Sample.busy;
                 Portal.selectedIndex := 0 |} Sample.busy) as (_ & _ & A & _).
  apply (A {| Portal.data := Sample.demo; Portal.directory := "demo";
              Portal.isRunning := true |}).
  reflexivity.
Defined.
